(* ===== verification/_CoqProject ===== *)
-Q . S2P
Prelude.v
JsString.v
Json.v
Lcg.v
Levels.v
LevelCache.v
GameLevels.v
Clues.v
Storage.v
StoredText.v
StorageInv.v
StorageCache.v
GameScreen.v
GameView.v
Progress.v
Home.v
MiscTabs.v
App.v
