(* ===== verification/Prelude.v ===== *)
(** * JSON Quest: a verification development of the game's logic

    The program (TypeScript, React Native) has three parts that share
    state:
    - the level data, [src/project/data/gameLevels.ts]: a deterministic
      generator of quiz levels ([GameLevelGenerator.generateLevel], driven
      by a linear congruential [random]), a cache with [getLevel] and
      [preloadLevels], ten hand-written levels and the exported
      [GameLevels] object, which is meant to give level [i + 1] at index
      [i] through a [Proxy];
    - the progress store, [src/project/utils/storage.ts]: [GameStorage]
      keeps one [PlayerData] record in AsyncStorage, as a JSON text,
      behind a five-second in-memory cache;
    - the tabs under [src/project/app/(tabs)]: the game tab reads levels
      from [GameLevels] and writes progress through [GameStorage]; the
      progress, profile and home tabs read the record and display numbers
      derived from it; the settings and chat tabs keep local state only.

    ** Files, in dependency order
    - [Prelude]: this header, the [jq_scope] notations, [js_clamp]
      ([Math.max(lo, Math.min(x, hi))]), the [jq] and [jq_str] hint
      databases and tactics, and lemmas on lists, strings and integer
      ranges shared by all files.
    - [JsString]: the JavaScript built-ins the code relies on
      ([String(n)], [Number(s)], [replace], [replace(/p/g, r)],
      [indexOf]), as functions on [string] (bytes: UTF-8 text compares
      byte-wise as the code's literal patterns do).
    - [Json] (Module [Json]): JSON values, [JSON.stringify] with its [gap]
      argument ([stringify]: [print] is the compact text, [print_pretty]
      the indented one) and [JSON.parse] ([parse_json], a recursive-descent
      parser with fuel) for the grammar the program writes (no escapes,
      integer numbers), with the round trip
      [parse_json (stringify gap EmptyString v) = Some v] for every blank [gap].
    - [Lcg] (Module [Lcg]): the [random(max)] closure of [generateLevel]
      as exact integer arithmetic, and the same expression evaluated in
      primitive doubles ([random_float]); C26 shows they agree on every id
      and bound the game uses, checked by [vm_compute] over ids 1..1000.
    - [Levels] (Module [Levels]): [GameLevel], the generator's tables and
      [generateLevel] with its four content tiers, the shuffle and the
      template substitution; [None] is the thrown [TypeError] of an
      undefined template.
    - [LevelCache] (Module [LevelCache]): [getLevel] and [preloadLevels]
      over a [gmap], against the class [LevelSource] (what the cache needs
      of a generator), instantiated with [generateLevel]; C22 is the
      refinement of the pure generator by the cached lookup.
    - [GameLevels] (Module [GameLevels]): the hand-written levels, a model
      of JavaScript objects with their own properties, the proxy's [get]
      trap, and the object literal with its spread (CopyDataProperties
      over the proxy's target, which has no keys).
    - [Clues] (Module [Clues]): every level's clue read with [parse_json],
      checked for ids 1..1000 by one [vm_compute] (C6, C7) and for the ten
      hand-written levels.
    - [Storage] (Modules [Storage] and [StorageProps]): the store's state
      as a record (the module's cache variables, a heap of achievement
      arrays so that aliasing is visible, the AsyncStorage slot with the
      writes still in flight, whether the store works, the clock), a
      state-exception monad with fuel, and each method of [GameStorage].
      [getPlayerData] and [savePlayerData] call each other, so they are one
      mutual [Fixpoint] spending one unit of fuel per call: [OutOfFuel]
      marks a recursion deeper than the fuel.  [StorageProps] gives the
      behaviour of each method on every branch, errors included.
    - [StoredText] (Module [StoredText]): the value [JSON.stringify] writes
      for a record, the slot's text and [exportData]'s indented text, and
      the fields [JSON.parse] gives back; [stored_text_roundtrip] shows every record the store
      writes or exports is read back unchanged, which is why [Storage] may
      keep parsed records in the slot.
    - [StorageInv]: the spec's record invariant lifted to the whole store,
      a Hoare logic for the store monad ([hoare]) and its rules, the API
      as a step relation [api_step] and the invariant of its reachable
      states (C10), which [importData] breaks (C11).
      [api_step] is the API as the tabs use it: saves write both counters
      with [currentLevel <= levelsCompleted + 1] or neither, and
      AsyncStorage does not fail.
    - [StorageCache] (Module [StorageCache]): the contract of the
      five-second cache as a reference, [direct_read] (the last text
      written, through [getItem], [JSON.parse] over the defaults and the
      level clamp of [getPlayerData]), what a caller observes of a record
      ([view_of]: its fields and the contents of its array), frames of the
      monad's operations ([framed]: nothing flips whether the store works,
      fresh arrays are allocated above the ones in use) and the invariant
      [coherent]: a cached record is what a direct read gives; [api_run]
      says a piece of code changes the store only through [api_step].
    - [GameScreen] (Module [GameScreen]): the game tab's state, handlers
      and button conditions, its [setTimeout] callbacks as timers carrying
      the state their closure read, the alert of a wrong answer until its
      [Retry], the memoised [handleAnswerSelect] (the screen keeps the
      state of the render that made it, [sc_memo], replaced when
      [isAnswered] or [level?.correctAnswer] changes), and the tab as a step relation
      [ui_step] over the screen and the store, parameterised by the level
      lookup (the real [GameLevels], or [intended_level], the proxy trap
      the code meant to reach); the [Tab] record adds the generator's
      cache and the preload effect run after each render.
    - [GameView] (Module [GameView]): what the game tab renders for a
      level: the answer buttons with [getAnswerStyle] and
      [getAnswerIcon], the header and the completion modal.
    - [Progress]: the progress tab (achievements, percentage as the double
      computation, player level, its cards) and the profile tab (XP bar,
      every press, its view), with their theorems in Module [TabProps].
    - [Home] (Module [HomeTab]): the home tab as a state (its React state,
      the [Animated.Value]s its renders create, the running pulse, the
      pending load, the router's pushes) and a step relation [home_step]
      over the store.
    - [MiscTabs]: the settings tab (two switches, three rows without a
      handler) and the chat tab (an input, a send button without a
      handler), each as a state, its events and a step function.
    - [App] (Module [App]): the tab navigator (expo-router's [Tabs], not
      in the repository): the home tab mounted at launch, each other tab
      on its first focus and kept mounted, their steps interleaved over
      the one store ([app_step]), and restarts of the process
      ([app_life]).

    ** What the theorems show
    - Generator: every non-negative id gives a level with four distinct
      answers and the actual answer at [correctAnswer] (C4); every clue of
      ids 1..1000 is a JSON object without repeated keys (C6) that holds
      the correct answer (C7), and during the feedback the check mark sits
      on the button showing that answer (C8); a consequence of reusing one
      seed for every draw (C27); titles and stories name no collection but the first (C36).
    - Cache and [GameLevels]: refinement of [generateLevel] by [getLevel]
      (C22), the preload range (C35); the spread copies nothing, so
      every index reads [undefined] (C2).
    - Store: divergence on a first launch (C1); the cache window (C29),
      reads (C30), reset aliasing (C28), lost fire-and-forget writes
      (C31); read failures recover to the
      default record (C25), so [exportData] never returns its ['{}']
      fallback (C24); export then import restores the record (C23) and
      the invariant for the calls the tabs make (C10, C32)
      with its counterexamples for [importData] (C11) and for a save of
      one counter, which also leaves the cache ahead of the store (C12).
    - Tabs: the game tab never shows a level (C3), and leaves its loading
      view outside a first launch (C17); its writes keep the store's
      invariant (C33) and its preload effect keeps the generator's cache warm
      and consistent (C34); the first answer after the load is credited by
      the first render's closure, wiping the stored XP (C16); the profile tab writes back a stale record
      (C19); the home tab's play button stops pulsing once the record
      loads (C20); no answer button is ever drawn in the selected style, and
      each keeps dark text on white or white text on colour
      (C9); the percentage's rounding (C38) and the achievements
      grid (C37).
    - App: on a fresh install nothing ever loads, on any tab, across
      restarts (C5); whatever the six tabs do,
      interleaved and with restarts, the store keeps its invariant (C13), the cached
      record is what a read of the store gives (C15) and so the cache is
      transparent to every [getPlayerData] (C14); outside a
      fresh install every mounted tab can finish loading from any state
      the tabs reach (C18); the home tab keeps showing the
      record it read at launch after another tab changed the store (C21).

    ** Bounds and fuel
    Integers are [Z]: the values involved (ids up to 1000, seeds up to
    [1000 * 12345], XP totals, millisecond timestamps) stay far below
    [2^53], where JavaScript numbers are exact integers; the two double
    computations of the code ([random] and the progress percentage) are
    modelled with [PrimFloat] and checked exhaustively on their input
    range.  Fuel: the preload loop gets [count], which is exact (any fuel
    of at least [stop - i] gives the same result, [preload_loop_fuel]); the
    store's fuel counts nested calls, and the theorems quantify over it
    (C1: none suffices on a first launch; two suffice otherwise, which C17
    and C18 use); [parse_json] gets the length of its text plus one, which the
    round trip shows is enough for every printed value, since each call
    consumes a character.

    ** Not modelled
    Styles, icons and the frames of animations (a timing is observed when
    it completes); the texts of alerts (the alert of a wrong answer is open
    until its only button, [Retry], is pressed; the reset's is modelled by
    its [Reset] button); failures of AsyncStorage in the runs of the
    tabs (a failing store is treated on its own: C25, C24);
    the progress
    bars' widths, doubles printed as percentages; the locale's date text
    ([toLocaleDateString] is a parameter); the reuse of memoised
    callbacks other than [handleAnswerSelect], whose dependencies list
    every value they read; JSON texts with escapes, fractions or
    exponents, and stored texts whose fields have other types than the
    schema's. *)


From Stdlib Require Import ZArith Lia List String Ascii.
From stdpp Require Import base list.

(** ** Notation for the JavaScript values the program builds *)

Declare Scope jq_scope.
Delimit Scope jq_scope with jq.

(** The double-quote and newline characters: template literals of the
    source put them around JSON keys and between JSON lines. *)
Definition dq : string := String (ascii_of_nat 34) EmptyString.
Definition nl : string := String (ascii_of_nat 10) EmptyString.

(** [⟪ s ⟫] is the JSON string literal of [s] as the template literals
    write it: ["${s}"]. *)
Notation "'⟪' s '⟫'" := (dq ++ s ++ dq)%string (at level 0, s at level 200) : jq_scope.

(** ** Clamping, as [Math.max(lo, Math.min(x, hi))] *)

Definition js_clamp (lo hi x : Z) : Z := Z.max lo (Z.min x hi).

Lemma js_clamp_bounds lo hi x : (lo <= hi)%Z -> (lo <= js_clamp lo hi x <= hi)%Z.
Proof. unfold js_clamp. lia. Qed.

Lemma js_clamp_id lo hi x : (lo <= x <= hi)%Z -> js_clamp lo hi x = x.
Proof. unfold js_clamp. lia. Qed.

Lemma js_clamp_mono lo hi x y : (x <= y)%Z -> (js_clamp lo hi x <= js_clamp lo hi y)%Z.
Proof. unfold js_clamp. lia. Qed.

(** Clamping both sides of [x <= y + 1] keeps it, when the two ranges are
    [1..hi] and [0..hi]: the shape of the progress store's level clamp. *)
Lemma js_clamp_succ_le hi x y :
  (0 <= hi)%Z -> (x <= y + 1)%Z -> (js_clamp 1 hi x <= js_clamp 0 hi y + 1)%Z.
Proof. unfold js_clamp. lia. Qed.

(** ** Shared tactics and hints *)

Create HintDb jq.
#[export] Hint Resolve js_clamp_bounds js_clamp_mono js_clamp_succ_le : jq.

(** [clamp_lia] unfolds the clamps and the [Z.min]/[Z.max] they build and
    finishes with [lia]. *)
Ltac clamp_lia := unfold js_clamp in *; lia.

(** [destruct_Zcmp] cases on every boolean comparison of integers in the
    goal, keeping the Prop fact it decides. *)
Ltac destruct_Zcmp :=
  repeat match goal with
  | |- context [Z.ltb ?a ?b] => destruct (Z.ltb_spec a b)
  | |- context [Z.leb ?a ?b] => destruct (Z.leb_spec a b)
  | |- context [Z.eqb ?a ?b] => destruct (Z.eqb_spec a b)
  end.

(** ** Lists *)

(** The element a list holds at an index, when the index is in range. *)
Lemma lookup_lt_is_Some_Z {A} (l : list A) (i : Z) :
  (0 <= i < Z.of_nat (length l))%Z -> is_Some (l !! Z.to_nat i).
Proof. intros H. apply lookup_lt_is_Some_2. lia. Qed.

#[export] Hint Resolve lookup_lt_is_Some_Z : jq.

(** A property of every integer of [[0, n)] follows from the finite list
    of its instances, which [vm_compute] or [repeat constructor] checks. *)
Lemma Forall_Z_range (P : Z -> Prop) (n : nat) :
  Forall P (map Z.of_nat (seq 0 n)) -> forall z, (0 <= z < Z.of_nat n)%Z -> P z.
Proof.
  intros Hall z Hz. rewrite List.Forall_forall in Hall. apply Hall.
  apply in_map_iff. exists (Z.to_nat z). split; [lia|]. apply in_seq. lia.
Qed.

(** Four pairwise distinct values form a duplicate-free list. *)
Lemma NoDup_4 {A} (a b c d : A) :
  a <> b -> a <> c -> a <> d -> b <> c -> b <> d -> c <> d -> NoDup [a; b; c; d].
Proof.
  intros. repeat constructor; rewrite ?elem_of_cons, ?elem_of_nil; intuition congruence.
Qed.

(** The boolean form of [Forall_Z_range], for checks run by [vm_compute]. *)
Lemma forallb_Z_range (f : Z -> bool) (n : nat) :
  forallb f (map Z.of_nat (seq 0 n)) = true -> forall z, (0 <= z < Z.of_nat n)%Z -> f z = true.
Proof.
  intros Hall. apply Forall_Z_range. apply List.Forall_forall. by apply forallb_forall.
Qed.

(** ** Strings *)

Lemma string_app_assoc (s t u : string) : ((s ++ t) ++ u = s ++ t ++ u)%string.
Proof. induction s as [|c s IH]; simpl; [done | by rewrite IH]. Qed.

Lemma string_app_nil_r (s : string) : (s ++ EmptyString = s)%string.
Proof. induction s as [|c s IH]; simpl; [done | by rewrite IH]. Qed.

Lemma string_length_app (s t : string) : String.length (s ++ t) = (String.length s + String.length t)%nat.
Proof. induction s as [|c s IH]; simpl; [done | by rewrite IH]. Qed.

(** [s.startsWith(w)] holds of [w] followed by anything. *)
Lemma string_prefix_app (w r : string) : String.prefix w (w ++ r) = true.
Proof.
  induction w as [|c w IH]; simpl; [by destruct r|].
  destruct (ascii_dec c c); [exact IH | congruence].
Qed.

Lemma substring_full (s : string) : substring 0 (String.length s) s = s.
Proof. induction s as [|c s IH]; simpl; [done | by rewrite IH]. Qed.

(** What follows the prefix [w] of [w ++ r] is [r]. *)
Lemma substring_after (w r : string) :
  substring (String.length w) (String.length (w ++ r) - String.length w) (w ++ r) = r.
Proof.
  rewrite string_length_app. replace (_ + _ - _)%nat with (String.length r) by lia.
  induction w as [|c w IH]; simpl; [apply substring_full | exact IH].
Qed.

Create Rewrite HintDb jq_str.
#[export] Hint Rewrite string_app_assoc string_app_nil_r : jq_str.
