(* ===== verification/JsString.v ===== *)
(** * JavaScript built-ins on strings and arrays that the generator calls

    The level generator ([src/project/data/gameLevels.ts]) builds all its
    content with a handful of built-ins: [String(n)] and [Number(s)],
    [String.prototype.replace] with a string pattern, [slice(0, -1)],
    [Array.prototype.indexOf], [join] and indexed reads [a[i]] that yield
    [undefined] out of range.  This file models each one as the ECMAScript
    specification defines it, on the part of its domain the program uses,
    and proves the facts the generator's proofs rest on. *)

From Stdlib Require Import ZArith Lia List String Ascii DecimalString DecimalZ.
From stdpp Require Import base list.
From S2P Require Import Prelude.

Module JsString.

Local Open Scope string_scope.

(** ** Numbers and strings *)

(** [String(n)] for an integral number: its shortest decimal form, with a
    leading [-] when negative. *)
Definition js_String (z : Z) : string := NilEmpty.string_of_int (Z.to_int z).

(** [Number(s)] on decimal integer literals (optional sign, digits);
    [None] stands for [NaN].  Every string the generator passes to
    [Number] is either a decimal literal it printed itself or a name made
    of letters, and both are in this domain. *)
Definition js_Number (s : string) : option Z :=
  option_map Z.of_int (NilEmpty.int_of_string s).

(** [isNaN(Number(s))] *)
Definition js_isNaN_Number (s : string) : bool :=
  match js_Number s with None => true | Some _ => false end.

(** [String(Number(s) + k)] and the like: arithmetic on a number held as
    a string; [NaN] prints as ["NaN"]. *)
Definition num_map (f : Z -> Z) (s : string) : string :=
  match js_Number s with Some z => js_String (f z) | None => "NaN" end.

(** ** [String.prototype.replace(pattern, replacement)] with a string
    pattern: only the first occurrence is replaced.  The replacement
    strings of the program contain no [$], so no substitution pattern
    applies. *)
Fixpoint js_replace (s pat rep : string) : string :=
  if String.prefix pat s then rep ++ substring (String.length pat) (String.length s - String.length pat) s
  else match s with
       | EmptyString => EmptyString
       | String c s' => String c (js_replace s' pat rep)
       end.

(** [s.replace(/pat/g, rep)] for a regular expression that is a plain
    string: every occurrence, left to right, without overlap.  The fuel
    is the length of [s]: each step consumes at least one character. *)
Fixpoint js_replace_all_fuel (fuel : nat) (s pat rep : string) : string :=
  match fuel, s with
  | O, _ => s
  | _, EmptyString => EmptyString
  | S n, String c s' =>
      if String.prefix pat s
      then rep ++ js_replace_all_fuel n
                    (substring (String.length pat) (String.length s - String.length pat) s) pat rep
      else String c (js_replace_all_fuel n s' pat rep)
  end.

Definition js_replace_all (s pat rep : string) : string :=
  js_replace_all_fuel (String.length s) s pat rep.

(** The ECMAScript formulation: find the first position with
    [indexOf], and splice the replacement there. *)
Definition js_replace_spec (s pat rep : string) : string :=
  match String.index 0 pat s with
  | None => s
  | Some k => substring 0 k s ++ rep ++
              substring (k + String.length pat) (String.length s - (k + String.length pat)) s
  end.

(** [s.slice(0, -1)]: all characters but the last. *)
Definition js_slice_drop_last (s : string) : string :=
  substring 0 (String.length s - 1) s.

(** ** Arrays *)

(** [a[i]] on an array of strings, where an index out of range reads
    [undefined]; every place the generator uses such a read converts it to
    a string (a template literal or a [replace] argument), which gives
    ["undefined"]. *)
Definition js_str_at (l : list string) (i : Z) : string :=
  if (i <? 0)%Z then "undefined"
  else match l !! Z.to_nat i with Some s => s | None => "undefined" end.

(** [a[i]] on an array of objects: [None] is [undefined]. *)
Definition js_at {A} (l : list A) (i : Z) : option A :=
  if (i <? 0)%Z then None else l !! Z.to_nat i.

(** [Array.prototype.indexOf]: the first index holding [x], or [-1]. *)
Fixpoint index_of {A} `{EqDecision A} (x : A) (l : list A) : Z :=
  match l with
  | [] => (-1)%Z
  | y :: l' => if decide (x = y) then 0%Z
               else let k := index_of x l' in if (k <? 0)%Z then (-1)%Z else (k + 1)%Z
  end.

(** [a.join(sep)] *)
Definition js_join (sep : string) (l : list string) : string := String.concat sep l.

(** ** Properties *)

(** [Number(String(n)) = n] for every integer [n]. *)
Lemma js_Number_String (z : Z) : js_Number (js_String z) = Some z.
Proof.
  unfold js_Number, js_String. rewrite NilEmpty.isi. simpl. by rewrite DecimalZ.of_to.
Qed.

Lemma num_map_String (f : Z -> Z) (z : Z) : num_map f (js_String z) = js_String (f z).
Proof. unfold num_map. by rewrite js_Number_String. Qed.

Lemma js_isNaN_String (z : Z) : js_isNaN_Number (js_String z) = false.
Proof. unfold js_isNaN_Number. by rewrite js_Number_String. Qed.

(** [String] is injective on integers: distinct numbers print apart. *)
Lemma js_String_inj (z1 z2 : Z) : js_String z1 = js_String z2 -> z1 = z2.
Proof.
  intros H. apply (f_equal js_Number) in H. rewrite !js_Number_String in H. congruence.
Qed.

Lemma substring_0_S (c : ascii) (s : string) (k len : nat) :
  substring 0 (S k) (String c s) = String c (substring 0 k s) /\
  substring (S k) len (String c s) = substring k len s.
Proof. split; reflexivity. Qed.

(** The recursive [js_replace] is the ECMAScript algorithm: the first
    occurrence found by [indexOf] is spliced out, and a string without
    the pattern is returned unchanged. *)
Lemma js_replace_spec_eq (s pat rep : string) :
  js_replace s pat rep = js_replace_spec s pat rep.
Proof.
  unfold js_replace_spec. induction s as [|c s IH].
  - by destruct pat.
  - cbn [js_replace String.index].
    destruct (String.prefix pat (String c s)) eqn:Hp.
    + cbn [substring String.append]. by rewrite Nat.add_0_l.
    + rewrite IH. destruct (String.index 0 pat s); reflexivity.
Qed.

(** Replacing a pattern the string does not contain is the identity. *)
Lemma js_replace_absent (s pat rep : string) :
  String.index 0 pat s = None -> js_replace s pat rep = s.
Proof. intros H. by rewrite js_replace_spec_eq; unfold js_replace_spec; rewrite H. Qed.

(** [indexOf] finds a member: the index is in range and holds [x]. *)
Lemma index_of_elem {A} `{EqDecision A} (x : A) (l : list A) :
  x ∈ l ->
  (0 <= index_of x l < Z.of_nat (length l))%Z /\ l !! Z.to_nat (index_of x l) = Some x.
Proof.
  induction l as [|y l IH]; simpl; intros Hin; [by apply elem_of_nil in Hin|].
  case_decide as Hxy; [subst; simpl; split; [lia|done]|].
  apply elem_of_cons in Hin as [->|Hin]; [done|].
  destruct (IH Hin) as [Hb Hl]. destruct (Z.ltb_spec (index_of x l) 0); [lia|].
  split; [lia|]. by rewrite Z2Nat.inj_add, Nat.add_1_r by lia.
Qed.

(** [indexOf] of an absent element is [-1]. *)
Lemma index_of_not_elem {A} `{EqDecision A} (x : A) (l : list A) :
  x ∉ l -> index_of x l = (-1)%Z.
Proof.
  induction l as [|y l IH]; simpl; intros Hin; [done|].
  case_decide; [subst; by destruct Hin; left|].
  rewrite IH; [done|]. intros Hl. apply Hin. by right.
Qed.

Lemma js_str_at_lookup (l : list string) (i : Z) (s : string) :
  (0 <= i)%Z -> l !! Z.to_nat i = Some s -> js_str_at l i = s.
Proof. intros Hi Hl. unfold js_str_at. destruct (Z.ltb_spec i 0); [lia|]. by rewrite Hl. Qed.

Lemma js_at_lookup {A} (l : list A) (i : Z) :
  (0 <= i)%Z -> js_at l i = l !! Z.to_nat i.
Proof. intros Hi. unfold js_at. destruct (Z.ltb_spec i 0); [lia|done]. Qed.

End JsString.
