(* ===== verification/Json.v ===== *)
(** * JSON texts: values, a printer and a parser

    The spec says the clue of every level ([GameLevel.jsonData]) "is
    itself valid JSON", and the program builds those clues with template
    literals.  This file gives JSON values ([json], after RFC 8259), a
    compact printer ([print]) and a recursive-descent parser with fuel
    ([parse_value], [parse_json]) for the part of the grammar the program
    writes: [null], [true], [false], integers, strings without escape
    sequences, arrays and objects, with whitespace between tokens.  Every
    text the parser accepts is JSON; the round-trip theorem shows it
    accepts what the printer writes, and gives back the value. *)

From Stdlib Require Import ZArith Lia List String Ascii DecimalString DecimalZ DecimalPos.
From stdpp Require Import base list.
From S2P Require Import Prelude JsString.
Import JsString.

Module Json.

Local Open Scope Z_scope.
Local Set Warnings "-register-all".

(** ** Values *)

Inductive json :=
  | JNull
  | JBool (b : bool)
  | JNum (z : Z)
  | JStr (s : string)
  | JArr (l : list json)
  | JObj (l : list (string * json)).

(** The induction principle with a hypothesis for every element of an
    array and every member of an object. *)
Section json_ind2.
Variable P : json -> Prop.
Hypothesis HNull : P JNull.
Hypothesis HBool : forall b, P (JBool b).
Hypothesis HNum : forall z, P (JNum z).
Hypothesis HStr : forall s, P (JStr s).
Hypothesis HArr : forall l, Forall P l -> P (JArr l).
Hypothesis HObj : forall l, Forall (fun kv => P kv.2) l -> P (JObj l).

Fixpoint json_ind2 (v : json) : P v :=
  match v with
  | JNull => HNull
  | JBool b => HBool b
  | JNum z => HNum z
  | JStr s => HStr s
  | JArr l => HArr l ((fix go (l : list json) : Forall P l :=
                         match l with
                         | [] => Forall_nil_2 _
                         | x :: xs => Forall_cons_2 _ _ _ (json_ind2 x) (go xs)
                         end) l)
  | JObj l => HObj l ((fix go (l : list (string * json)) : Forall (fun kv => P kv.2) l :=
                         match l with
                         | [] => Forall_nil_2 _
                         | kv :: xs => Forall_cons_2 _ _ _ (json_ind2 kv.2) (go xs)
                         end) l)
  end.
End json_ind2.

(** ** Characters *)

Local Open Scope char_scope.

Definition quote : ascii := ascii_of_nat 34.
Definition backslash : ascii := ascii_of_nat 92.

Definition is_ws (c : ascii) : bool :=
  Ascii.eqb c " " || Ascii.eqb c (ascii_of_nat 10) || Ascii.eqb c (ascii_of_nat 13) ||
  Ascii.eqb c (ascii_of_nat 9).

Definition is_digit (c : ascii) : bool :=
  (48 <=? nat_of_ascii c)%nat && (nat_of_ascii c <=? 57)%nat.

(** A character a string holds as it is: no quote, no backslash, no
    control character. *)
Definition plain_char (c : ascii) : bool :=
  negb (Ascii.eqb c quote) && negb (Ascii.eqb c backslash) && (32 <=? nat_of_ascii c)%nat.

Local Open Scope string_scope.

Fixpoint plain (s : string) : bool :=
  match s with EmptyString => true | String c s' => plain_char c && plain s' end.

(** ** Printing: [JSON.stringify(value, null, gap)] *)

Definition print_string (s : string) : string := String quote (s ++ String quote EmptyString).

(** [items.join(sep)] *)
Fixpoint join_with (sep : string) (l : list string) : string :=
  match l with
  | [] => EmptyString
  | [x] => x
  | x :: xs => x ++ sep ++ join_with sep xs
  end.

(** What [SerializeJSONArray] and [SerializeJSONObject] put after the
    opening bracket and after each comma, and before the closing one: a
    newline and the indentation when [gap] is not empty, nothing
    otherwise. *)
Definition layout_open (gap ind : string) : string :=
  if String.eqb gap EmptyString then EmptyString else nl ++ ind ++ gap.

Definition layout_close (gap ind : string) : string :=
  if String.eqb gap EmptyString then EmptyString else nl ++ ind.

Definition wrap (gap ind : string) (items : list string) : string :=
  layout_open gap ind ++ join_with ("," ++ layout_open gap ind) items ++ layout_close gap ind.

(** [":"], and a space after it when [gap] is not empty. *)
Definition colon_space (gap : string) : string :=
  if String.eqb gap EmptyString then EmptyString else " ".

Definition colon (gap : string) : string := ":" ++ colon_space gap.

(** [JSON.stringify(v, null, gap)] at indentation [ind]: an empty array
    or object is [[]] or [{}], the others are wrapped. *)
Fixpoint stringify (gap ind : string) (v : json) : string :=
  match v with
  | JNull => "null"
  | JBool true => "true"
  | JBool false => "false"
  | JNum z => js_String z
  | JStr s => print_string s
  | JArr [] => "[]"
  | JArr l => "[" ++ wrap gap ind (map (stringify gap (ind ++ gap)) l) ++ "]"
  | JObj [] => "{}"
  | JObj l => "{" ++ wrap gap ind (map (fun kv => print_string kv.1 ++ colon gap ++
                                               stringify gap (ind ++ gap) kv.2) l) ++ "}"
  end.

(** [JSON.stringify(v)] *)
Definition print (v : json) : string := stringify EmptyString EmptyString v.

(** [JSON.stringify(v, null, 2)] *)
Definition print_pretty (v : json) : string := stringify "  " EmptyString v.

(** The values [print] writes as the parser reads them back: every
    string and every key is [plain]. *)
Fixpoint printable (v : json) : bool :=
  match v with
  | JStr s => plain s
  | JArr l => forallb printable l
  | JObj l => forallb (fun kv => plain kv.1 && printable kv.2) l
  | _ => true
  end.

(** The fuel [parse_value] spends on a value. *)
Fixpoint size (v : json) : nat :=
  match v with
  | JArr l => S (sum_list_with (fun x => S (size x)) l)
  | JObj l => S (sum_list_with (fun kv => S (size kv.2)) l)
  | _ => O
  end.

(** ** Parsing *)

Fixpoint skip_ws (s : string) : string :=
  match s with
  | String c s' => if is_ws c then skip_ws s' else s
  | EmptyString => s
  end.

(** The body of a string after its opening quote, up to the closing one. *)
Fixpoint parse_string_body (s : string) : option (string * string) :=
  match s with
  | EmptyString => None
  | String c s' =>
      if Ascii.eqb c quote then Some (EmptyString, s')
      else if plain_char c then
        match parse_string_body s' with
        | Some (t, r) => Some (String c t, r)
        | None => None
        end
      else None
  end.

(** The longest prefix of decimal digits, and the rest. *)
Fixpoint span_digits (s : string) : string * string :=
  match s with
  | String c s' =>
      if is_digit c then let (d, r) := span_digits s' in (String c d, r) else (EmptyString, s)
  | EmptyString => (EmptyString, EmptyString)
  end.

(** An integer: an optional minus, then [0] or digits without a leading
    zero. *)
Definition leading_zero (d : string) : bool :=
  match d with String c (String _ _) => Ascii.eqb c "0" | _ => false end.

Definition parse_unsigned (s : string) : option (Z * string) :=
  let (d, r) := span_digits s in
  if leading_zero d then None
  else option_map (fun u => (Z.of_uint u, r)) (NilZero.uint_of_string d).

Definition parse_number (s : string) : option (Z * string) :=
  match s with
  | String c s' =>
      if Ascii.eqb c "-" then option_map (fun '(z, r) => (- z, r)) (parse_unsigned s')
      else parse_unsigned s
  | EmptyString => None
  end.

(** A literal word: [null], [true] or [false]. *)
Definition parse_word (w : string) (v : json) (s : string) : option (json * string) :=
  if String.prefix w s
  then Some (v, substring (String.length w) (String.length s - String.length w) s)
  else None.

(** The value at the start of [s] (after blanks), and the text after it.
    Each call spends one unit of [fuel]; [parse_elems] and
    [parse_members] read the rest of an array or an object after its
    first element. *)
Fixpoint parse_value (fuel : nat) (s : string) {struct fuel} : option (json * string) :=
  match fuel with
  | O => None
  | S n =>
      match skip_ws s with
      | EmptyString => None
      | String c r as s0 =>
          if Ascii.eqb c "{" then
            match skip_ws r with
            | String c' r' => if Ascii.eqb c' "}" then Some (JObj [], r')
                              else option_map (fun '(l, t) => (JObj l, t)) (parse_members n r)
            | EmptyString => None
            end
          else if Ascii.eqb c "[" then
            match skip_ws r with
            | String c' r' => if Ascii.eqb c' "]" then Some (JArr [], r')
                              else option_map (fun '(l, t) => (JArr l, t)) (parse_elems n r)
            | EmptyString => None
            end
          else if Ascii.eqb c quote then
            option_map (fun '(t, u) => (JStr t, u)) (parse_string_body r)
          else if Ascii.eqb c "n" then parse_word "null" JNull s0
          else if Ascii.eqb c "t" then parse_word "true" (JBool true) s0
          else if Ascii.eqb c "f" then parse_word "false" (JBool false) s0
          else option_map (fun '(z, t) => (JNum z, t)) (parse_number s0)
      end
  end
with parse_elems (fuel : nat) (s : string) {struct fuel} : option (list json * string) :=
  match fuel with
  | O => None
  | S n =>
      match parse_value n s with
      | None => None
      | Some (v, r) =>
          match skip_ws r with
          | String c r' =>
              if Ascii.eqb c "," then option_map (fun '(l, t) => (v :: l, t)) (parse_elems n r')
              else if Ascii.eqb c "]" then Some ([v], r')
              else None
          | EmptyString => None
          end
      end
  end
with parse_members (fuel : nat) (s : string) {struct fuel} : option (list (string * json) * string) :=
  match fuel with
  | O => None
  | S n =>
      match skip_ws s with
      | String c r =>
          if Ascii.eqb c quote then
            match parse_string_body r with
            | None => None
            | Some (k, r1) =>
                match skip_ws r1 with
                | String c1 r2 =>
                    if Ascii.eqb c1 ":" then
                      match parse_value n r2 with
                      | None => None
                      | Some (v, r3) =>
                          match skip_ws r3 with
                          | String c3 r4 =>
                              if Ascii.eqb c3 "," then
                                option_map (fun '(l, t) => ((k, v) :: l, t)) (parse_members n r4)
                              else if Ascii.eqb c3 "}" then Some ([(k, v)], r4)
                              else None
                          | EmptyString => None
                          end
                      end
                    else None
                | EmptyString => None
                end
            end
          else None
      | EmptyString => None
      end
  end.

(** A whole text is one value with only blanks around it.  Every call
    consumes a character, so the length of the text is enough fuel. *)
Definition parse_json (s : string) : option json :=
  match parse_value (S (String.length s)) s with
  | Some (v, r) => match skip_ws r with EmptyString => Some v | _ => None end
  | None => None
  end.

(** ** Reading a value *)

(** [obj[key]] of a parsed object: of repeated keys, [JSON.parse] keeps
    the last. *)
Definition get (k : string) (v : json) : option json :=
  match v with
  | JObj l => option_map snd (List.find (fun kv => String.eqb kv.1 k) (rev l))
  | _ => None
  end.

(** Every text a reader finds in a value: [String(x)] of each number,
    string and boolean, and the [length] of each array, at any depth. *)
Fixpoint readings (v : json) : list string :=
  match v with
  | JNull => []
  | JBool b => [if b then "true" else "false"]
  | JNum z => [js_String z]
  | JStr s => [s]
  | JArr l => js_String (Z.of_nat (length l)) :: concat (map readings l)
  | JObj l => concat (map (fun kv => readings kv.2) l)
  end.

#[local] Instance string_eq_dec : EqDecision string := string_dec.

(** No object repeats a key ([JSON.parse] keeps the last of duplicates). *)
Fixpoint distinct_keys (v : json) : bool :=
  match v with
  | JArr l => forallb distinct_keys l
  | JObj l => bool_decide (NoDup (map fst l)) && forallb (fun kv => distinct_keys kv.2) l
  | _ => true
  end.

(** Whether a text starts with a digit: a number stops before it. *)
Definition digit_head (s : string) : bool :=
  match s with String c _ => is_digit c | EmptyString => false end.

(** A text of blanks only: indentation and newlines. *)
Fixpoint blank (s : string) : bool :=
  match s with EmptyString => true | String c s' => is_ws c && blank s' end.

(** A value [stringify] writes, at any blank gap and indentation, and
    [parse_value] reads back, with any text after it that does not extend
    a number, given the fuel of its size. *)
Definition roundtrips (v : json) : Prop :=
  forall gap ind, blank gap = true -> blank ind = true -> printable v = true ->
  forall n rest, (size v < n)%nat -> digit_head rest = false ->
  parse_value n (stringify gap ind v ++ rest) = Some (v, rest).

(** ** Lemmas on the lexical level *)

Lemma span_digits_uint (u : Decimal.uint) (rest : string) :
  digit_head rest = false ->
  span_digits (NilEmpty.string_of_uint u ++ rest) = (NilEmpty.string_of_uint u, rest).
Proof.
  intros H. induction u; simpl; try by rewrite IHu.
  destruct rest; simpl in *; [done | by rewrite H].
Qed.

(** The digits of a positive number do not start with [0]. *)
Lemma pos_uint_head (p : positive) (d : Decimal.uint) : Pos.to_uint p <> Decimal.D0 d.
Proof.
  intros E. pose proof (DecimalPos.Unsigned.to_of (Pos.to_uint p)) as H.
  rewrite DecimalPos.Unsigned.of_to in H. simpl in H. unfold Decimal.unorm in H.
  destruct (Decimal.nzhead (Pos.to_uint p)) eqn:Ez;
    try (rewrite E in H; discriminate).
  - by apply (DecimalPos.Unsigned.to_uint_nonzero p).
  - by apply (DecimalFacts.nzhead_nonzero (Pos.to_uint p) u).
Qed.

(** Case on the first digit of a positive number: never [Nil], never [0]. *)
Ltac destruct_pos_uint p :=
  let E := fresh "E" in
  destruct (Pos.to_uint p) as [|u|u|u|u|u|u|u|u|u|u] eqn:E;
  [by destruct (DecimalPos.Unsigned.to_uint_nonnil p) | by destruct (pos_uint_head p u) | ..].

Lemma uint_of_string_nonnil (u : Decimal.uint) :
  u <> Decimal.Nil -> NilZero.uint_of_string (NilEmpty.string_of_uint u) = Some u.
Proof. destruct u; [done | intros _; apply NilEmpty.usu ..]. Qed.

Lemma parse_unsigned_pos (p : positive) (rest : string) :
  digit_head rest = false ->
  parse_unsigned (NilEmpty.string_of_uint (Pos.to_uint p) ++ rest) = Some (Z.pos p, rest).
Proof.
  intros H. unfold parse_unsigned. rewrite span_digits_uint by done.
  rewrite uint_of_string_nonnil by apply DecimalPos.Unsigned.to_uint_nonnil.
  cbn [option_map]. unfold Z.of_uint. rewrite DecimalPos.Unsigned.of_to.
  destruct_pos_uint p; cbn [NilEmpty.string_of_uint leading_zero];
    by destruct (NilEmpty.string_of_uint u).
Qed.

(** The first character of [String(z)]: a minus or a digit. *)
Lemma js_String_head (z : Z) (rest : string) :
  exists c t, js_String z ++ rest = String c t /\
    In c ["-"; "0"; "1"; "2"; "3"; "4"; "5"; "6"; "7"; "8"; "9"]%char.
Proof.
  destruct z as [|p|p]; unfold js_String; simpl; [eexists _, _; split; [done | simpl; tauto]| |
    eexists _, _; split; [done | simpl; tauto]].
  destruct_pos_uint p; eexists _, _; (split; [done | simpl; tauto]).
Qed.

Lemma parse_number_String (z : Z) (rest : string) :
  digit_head rest = false -> parse_number (js_String z ++ rest) = Some (z, rest).
Proof.
  intros H. destruct z as [|p|p]; unfold js_String.
  - simpl. unfold parse_unsigned. simpl. destruct rest; simpl in *; [done | by rewrite H].
  - simpl Z.to_int. unfold NilEmpty.string_of_int.
    pose proof (parse_unsigned_pos p rest H) as Hp. revert Hp.
    destruct_pos_uint p; done.
  - simpl Z.to_int. unfold NilEmpty.string_of_int. simpl. by rewrite parse_unsigned_pos.
Qed.

Lemma parse_string_body_plain (s r : string) :
  plain s = true -> parse_string_body (s ++ String quote r) = Some (s, r).
Proof.
  induction s as [|c s IH]; intros Hp; cbn [append parse_string_body].
  - by rewrite Ascii.eqb_refl.
  - cbn [plain] in Hp. apply andb_prop in Hp as [Hc Hs].
    assert (Ascii.eqb c quote = false) as Hq.
    { unfold plain_char in Hc. by destruct (Ascii.eqb c quote). }
    by rewrite Hq, Hc, IH.
Qed.

Lemma parse_word_app (w : string) (v : json) (rest : string) :
  parse_word w v (w ++ rest) = Some (v, rest).
Proof. unfold parse_word. by rewrite string_prefix_app, substring_after. Qed.

(** ** Blanks *)

Lemma skip_ws_blank (b s : string) : blank b = true -> skip_ws (b ++ s) = skip_ws s.
Proof.
  induction b as [|c b IH]; simpl; [done|]. intros [-> Hb]%andb_prop. by apply IH.
Qed.

Lemma blank_app (a b : string) : blank (a ++ b) = blank a && blank b.
Proof. induction a as [|c a IH]; simpl; [done|]. by rewrite IH, andb_assoc. Qed.

Lemma digit_head_blank (b s : string) :
  blank b = true -> digit_head s = false -> digit_head (b ++ s) = false.
Proof.
  destruct b as [|c b]; simpl; [done|]. intros [Hc _]%andb_prop _.
  unfold is_ws in Hc. repeat (apply orb_prop in Hc as [Hc|Hc]); apply Ascii.eqb_eq in Hc as ->; done.
Qed.

(** Blanks before a value do not change what [parse_value] reads. *)
Lemma parse_value_blank (n : nat) (b s : string) :
  blank b = true -> parse_value n (b ++ s) = parse_value n s.
Proof. intros Hb. destruct n; [done|]. cbn [parse_value]. by rewrite skip_ws_blank. Qed.

Lemma blank_layout (gap ind : string) :
  blank gap = true -> blank ind = true ->
  blank (layout_open gap ind) = true /\ blank (layout_close gap ind) = true.
Proof.
  intros Hg Hi. unfold layout_open, layout_close.
  destruct (String.eqb gap EmptyString); [done|]. simpl. by rewrite !blank_app, Hg, Hi.
Qed.

Lemma blank_colon_space (gap : string) : blank (colon_space gap) = true.
Proof. unfold colon_space. by destruct (String.eqb gap EmptyString). Qed.

Lemma colon_app (gap s : string) : colon gap ++ s = String ":" (colon_space gap ++ s).
Proof. reflexivity. Qed.

Lemma join_with_head (sep y : string) (ys : list string) (r : string) :
  exists t, join_with sep (y :: ys) ++ r = y ++ t.
Proof. destruct ys; simpl; eexists; [done | by rewrite !string_app_assoc]. Qed.

(** ** Reading back what [stringify] writes *)

(** A written value starts with a character that is not a blank and does
    not close an array. *)
Lemma stringify_head (gap ind : string) (v : json) (rest : string) :
  exists c t, stringify gap ind v ++ rest = String c t /\ is_ws c = false /\ Ascii.eqb c "]" = false.
Proof.
  destruct v as [| [] | z | s | [|x l] | [|kv l]]; try (eexists _, _; split; [reflexivity | done]).
  destruct (js_String_head z rest) as (c & t & E & Hin). exists c, t. split; [done|].
  simpl in Hin. by repeat destruct Hin as [<- | Hin].
Qed.

#[local] Arguments parse_number : simpl never.
#[local] Arguments parse_string_body : simpl never.
#[local] Arguments parse_word : simpl never.

Lemma parse_value_num (n : nat) (z : Z) (rest : string) :
  digit_head rest = false -> parse_value (S n) (js_String z ++ rest) = Some (JNum z, rest).
Proof.
  intros Hd. pose proof (parse_number_String z rest Hd) as Hnum.
  destruct (js_String_head z rest) as (c & t & E & Hin). rewrite E in *.
  simpl in Hin. repeat destruct Hin as [<- | Hin]; try done; simpl; by rewrite Hnum.
Qed.

Lemma parse_value_string (n : nat) (s rest : string) :
  plain s = true -> parse_value (S n) (print_string s ++ rest) = Some (JStr s, rest).
Proof.
  intros Hs. unfold print_string. simpl.
  rewrite string_app_assoc. cbn [append]. by rewrite parse_string_body_plain.
Qed.

(** What a value's fuel is enough for. *)
Definition reads_back (f : json -> string) (x : json) : Prop :=
  forall n rest, (size x < n)%nat -> digit_head rest = false -> parse_value n (f x ++ rest) = Some (x, rest).

Lemma parse_elems_written (f : json -> string) (o c : string) (l : list json) (n : nat) (rest : string) :
  blank o = true -> blank c = true -> Forall (reads_back f) l -> l <> [] ->
  (sum_list_with (fun x => S (size x)) l < n)%nat ->
  parse_elems n (o ++ join_with ("," ++ o) (map f l) ++ c ++ "]" ++ rest) = Some (l, rest).
Proof.
  intros Ho Hc Hall. revert n. induction Hall as [|x xs Hx Hxs IH]; intros n Hne Hn; [done|].
  simpl in Hn. destruct n as [|n]; [lia|]. cbn [parse_elems]. rewrite parse_value_blank by done.
  destruct xs as [|y ys].
  - simpl join_with. rewrite (Hx n) by first [lia | apply digit_head_blank; done].
    rewrite skip_ws_blank by done. done.
  - change (join_with ("," ++ o) (map f (x :: y :: ys)))
      with (f x ++ ("," ++ o) ++ join_with ("," ++ o) (map f (y :: ys))).
    rewrite !string_app_assoc. rewrite (Hx n) by (done || simpl in Hn |- *; lia). simpl.
    rewrite IH by (done || simpl in Hn |- *; lia). done.
Qed.

Lemma parse_members_written (f : json -> string) (gap o c : string) (l : list (string * json))
    (n : nat) (rest : string) :
  blank o = true -> blank c = true ->
  Forall (fun kv => reads_back f kv.2) l -> forallb (fun kv => plain kv.1) l = true -> l <> [] ->
  (sum_list_with (fun kv => S (size kv.2)) l < n)%nat ->
  parse_members n (o ++ join_with ("," ++ o) (map (fun kv => print_string kv.1 ++ colon gap ++ f kv.2) l)
                   ++ c ++ "}" ++ rest) = Some (l, rest).
Proof.
  intros Ho Hc Hall. revert n. induction Hall as [|[k x] xs Hx Hxs IH]; intros n Hk Hne Hn; [done|].
  simpl in Hk, Hn, Hx. apply andb_prop in Hk as [Hk Hks]. destruct n as [|n]; [lia|].
  cbn [parse_members]. rewrite skip_ws_blank by done.
  assert (Hkey : forall T, skip_ws (print_string k ++ T) = String quote (k ++ String quote T) /\
                           parse_string_body (k ++ String quote T) = Some (k, T)).
  { intros T. unfold print_string. cbn [append]. rewrite string_app_assoc. cbn [append].
    split; [reflexivity | by apply parse_string_body_plain]. }
  assert (Hval : forall T, digit_head T = false ->
            parse_value n (colon_space gap ++ f x ++ T) = Some (x, T)).
  { intros T HT. rewrite parse_value_blank by apply blank_colon_space. apply Hx; [|done].
    destruct xs; simpl in Hn; lia. }
  destruct xs as [|y ys].
  - cbn [join_with map fst snd]. rewrite !string_app_assoc, colon_app.
    destruct (Hkey (String ":" (colon_space gap ++ f x ++ c ++ "}" ++ rest))) as [E1 E2].
    rewrite E1. simpl. simpl in E2. rewrite E2. simpl.
    rewrite Hval by (apply digit_head_blank; done). rewrite skip_ws_blank by done. done.
  - change (join_with ("," ++ o) (map (fun kv => print_string kv.1 ++ colon gap ++ f kv.2) ((k, x) :: y :: ys)))
      with ((print_string k ++ colon gap ++ f x) ++ ("," ++ o) ++
            join_with ("," ++ o) (map (fun kv => print_string kv.1 ++ colon gap ++ f kv.2) (y :: ys))).
    rewrite !string_app_assoc, colon_app.
    destruct (Hkey (String ":" (colon_space gap ++ f x ++ "," ++ o ++
       join_with ("," ++ o) (map (fun kv => print_string kv.1 ++ colon gap ++ f kv.2) (y :: ys)) ++
       c ++ "}" ++ rest))) as [E1 E2].
    rewrite E1. simpl. simpl in E2. rewrite E2. simpl.
    rewrite Hval by done. simpl.
    rewrite IH by first [done | simpl in Hn |- *; lia]. done.
Qed.

Lemma stringify_roundtrips (v : json) : roundtrips v.
Proof.
  induction v as [| b | z | s | l IH | l IH] using json_ind2;
    intros gap ind Hg Hi Hp n rest Hn Hd; (destruct n as [|n]; [simpl in Hn; lia|]).
  - exact (parse_word_app "null" JNull rest).
  - destruct b; [exact (parse_word_app "true" (JBool true) rest) |
                 exact (parse_word_app "false" (JBool false) rest)].
  - by apply parse_value_num.
  - by apply parse_value_string.
  - destruct l as [|x xs]; [done|]. simpl in Hp, Hn.
    destruct (blank_layout gap ind Hg Hi) as [Ho Hc].
    assert (Hall : Forall (reads_back (stringify gap (ind ++ gap))) (x :: xs)).
    { apply List.Forall_forall. intros y Hin n' r.
      apply (proj1 (List.Forall_forall _ _) IH y Hin); [done | by rewrite blank_app, Hi, Hg|].
      exact (proj1 (forallb_forall printable (x :: xs)) Hp y Hin). }
    cbn [stringify]. unfold wrap. rewrite !string_app_assoc.
    destruct (join_with_head ("," ++ layout_open gap ind) (stringify gap (ind ++ gap) x)
                (map (stringify gap (ind ++ gap)) xs) (layout_close gap ind ++ "]" ++ rest)) as [T ET].
    destruct (stringify_head gap (ind ++ gap) x T) as (c & t & Ec & Hws & Hcl).
    remember (layout_open gap ind ++ join_with ("," ++ layout_open gap ind)
                (map (stringify gap (ind ++ gap)) (x :: xs)) ++ layout_close gap ind ++ "]" ++ rest) as X eqn:EX.
    assert (HX : skip_ws X = String c t).
    { rewrite EX, skip_ws_blank by done. cbn [map]. rewrite ET, Ec. simpl. by rewrite Hws. }
    simpl. rewrite HX, Hcl. subst X.
    by rewrite parse_elems_written by first [done | simpl in *; lia].
  - destruct l as [|[k x] xs]; [done|]. simpl in Hp, Hn.
    destruct (blank_layout gap ind Hg Hi) as [Ho Hc].
    assert (Hall : Forall (fun kv => reads_back (stringify gap (ind ++ gap)) kv.2) ((k, x) :: xs)).
    { apply List.Forall_forall. intros kv Hin n' r.
      apply (proj1 (List.Forall_forall _ _) IH kv Hin); [done | by rewrite blank_app, Hi, Hg|].
      pose proof (proj1 (forallb_forall _ ((k, x) :: xs)) Hp kv Hin) as Hkv.
      by apply andb_prop in Hkv as [_ ?]. }
    assert (Hkeys : forallb (fun kv => plain kv.1) ((k, x) :: xs) = true).
    { apply forallb_forall. intros kv Hin.
      pose proof (proj1 (forallb_forall _ ((k, x) :: xs)) Hp kv Hin) as Hkv.
      by apply andb_prop in Hkv as [? _]. }
    cbn [stringify]. unfold wrap. rewrite !string_app_assoc.
    remember (layout_open gap ind ++ join_with ("," ++ layout_open gap ind)
                (map (fun kv => print_string kv.1 ++ colon gap ++ stringify gap (ind ++ gap) kv.2) ((k, x) :: xs))
                ++ layout_close gap ind ++ "}" ++ rest) as X eqn:EX.
    assert (HX : exists t, skip_ws X = String quote t).
    { rewrite EX, skip_ws_blank by done. cbn [map].
      destruct (join_with_head ("," ++ layout_open gap ind)
        (print_string (k, x).1 ++ colon gap ++ stringify gap (ind ++ gap) (k, x).2)
        (map (fun kv => print_string kv.1 ++ colon gap ++ stringify gap (ind ++ gap) kv.2) xs)
        (layout_close gap ind ++ "}" ++ rest)) as [T ->].
      unfold print_string. eexists. reflexivity. }
    destruct HX as [t HX]. simpl. rewrite HX. simpl. subst X.
    by rewrite parse_members_written by first [done | simpl in *; lia].
Qed.


Lemma join_with_length {A} (sep : string) (f : A -> nat) (g : A -> string) (l : list A) :
  sep <> EmptyString -> Forall (fun a => (f a <= String.length (g a))%nat) l ->
  (sum_list_with (fun a => S (f a)) l <= S (String.length (join_with sep (map g l))))%nat.
Proof.
  intros Hsep. induction 1 as [|a l Ha Hl IH]; [simpl; lia|].
  assert (String.length sep <> O) by (destruct sep; simpl; [done | lia]).
  destruct l as [|b l]; [simpl; lia|].
  change (join_with sep (map g (a :: b :: l))) with (g a ++ sep ++ join_with sep (map g (b :: l))).
  rewrite !string_length_app. cbn [sum_list_with] in *. lia.
Qed.

Lemma size_le_length (gap ind : string) (v : json) : (size v <= String.length (stringify gap ind v))%nat.
Proof.
  revert gap ind. induction v as [| b | z | s | l IH | l IH] using json_ind2; intros gap ind;
    destruct_or?; cbn [stringify size]; try lia.
  - destruct l as [|x xs]; [simpl; lia|]. unfold wrap.
    cbn [append String.length]. rewrite !string_length_app. cbn [append String.length].
    enough (sum_list_with (fun x => S (size x)) (x :: xs) <=
            S (String.length (join_with (String "," (layout_open gap ind)) (map (stringify gap (ind ++ gap)) (x :: xs)))))%nat
      by lia.
    apply join_with_length; [done|]. eapply Forall_impl; [exact IH|]. intros y Hy. apply Hy.
  - destruct l as [|kv xs]; [simpl; lia|]. unfold wrap.
    cbn [append String.length]. rewrite !string_length_app. cbn [append String.length].
    enough (sum_list_with (fun kv => S (size kv.2)) (kv :: xs) <=
            S (String.length (join_with (String "," (layout_open gap ind))
              (map (fun kv => print_string kv.1 ++ colon gap ++ stringify gap (ind ++ gap) kv.2) (kv :: xs)))))%nat
      by lia.
    apply join_with_length; [done|]. eapply Forall_impl; [exact IH|]. intros [k y] Hy; simpl in Hy.
    unfold print_string, colon. simpl. rewrite !string_length_app. simpl.
    rewrite string_length_app. specialize (Hy gap (ind ++ gap)). lia.
Qed.

(** ** The round trip *)

(** [JSON.parse] reads back every value [JSON.stringify(v, null, gap)]
    writes with a blank [gap], when its strings and keys are plain. *)
Theorem parse_json_stringify (gap : string) (v : json) :
  blank gap = true -> printable v = true -> parse_json (stringify gap EmptyString v) = Some v.
Proof.
  intros Hg Hp. unfold parse_json.
  pose proof (stringify_roundtrips v gap EmptyString Hg eq_refl Hp
                (S (String.length (stringify gap EmptyString v))) EmptyString) as H.
  rewrite string_app_nil_r in H. pose proof (size_le_length gap EmptyString v).
  rewrite H by (done || lia). done.
Qed.

(** The two texts the program writes: [JSON.stringify(v)] and
    [JSON.stringify(v, null, 2)]. *)
Corollary parse_json_print (v : json) : printable v = true -> parse_json (print v) = Some v.
Proof. apply parse_json_stringify. reflexivity. Qed.

Corollary parse_json_print_pretty (v : json) : printable v = true -> parse_json (print_pretty v) = Some v.
Proof. apply parse_json_stringify. reflexivity. Qed.

End Json.
