(* ===== verification/Lcg.v ===== *)
(** * The generator's pseudo-random function

    [generateLevel] (gameLevels.ts, lines 84-85) derives everything from

      const seed = id * 12345;
      const random = (max) =>
        Math.floor((seed * 9301 + 49297) % 233280 / 233280 * max);

    [random] closes over [seed] and keeps no state, so every call with the
    same [max] returns the same value, and all calls are monotone functions
    of one number [r = (seed * 9301 + 49297) % 233280].  This file models
    [random] on exact integers ([random]), models the double-precision
    evaluation with Rocq's primitive floats ([random_float]), proves the two
    agree on every id of the game, and proves the correlations between
    choices that the single draw forces. *)

From Stdlib Require Import ZArith Lia List Uint63 PrimFloat.
From stdpp Require Import base list.
From S2P Require Import Prelude.

Module Lcg.

Local Open Scope Z_scope.

(** [const seed = id * 12345] *)
Definition seed_of (id : Z) : Z := id * 12345.

(** The modulus of the generator. *)
Definition lcg_modulus : Z := 233280.

(** [(seed * 9301 + 49297) % 233280]: JavaScript's [%] truncates toward
    zero, which is [Z.rem].  For [|id| <= 10^7] the product stays below
    [2^53], so the double arithmetic of this line is exact. *)
Definition lcg_value (seed : Z) : Z := Z.rem (seed * 9301 + 49297) lcg_modulus.

(** [Math.floor(v / 233280 * max)] in exact arithmetic: the floor of the
    rational [v * max / 233280]. *)
Definition random (seed max : Z) : Z := (lcg_value seed * max) / lcg_modulus.

(** ** The same function in double precision *)

(** An integer below [2^53] as a double (exact). *)
Definition fl (z : Z) : float := PrimFloat.of_uint63 (Uint63.of_Z z).

(** [Math.floor] of a double [x] with [fl lo <= x < fl hi], by bisection
    on the integers of [[lo, hi)]. *)
Fixpoint floor_search (fuel : nat) (lo hi : Z) (x : float) : Z :=
  match fuel with
  | O => lo
  | S f =>
      if hi - lo <=? 1 then lo
      else let mid := (lo + hi) / 2 in
           if PrimFloat.leb (fl mid) x then floor_search f mid hi x
           else floor_search f lo mid x
  end.

(** [Math.floor(x)] for [0 <= x < n + 1]; 64 halvings cover any [n] below
    [2^63]. *)
Definition js_floor_below (n : Z) (x : float) : Z := floor_search 64 0 (n + 1) x.

(** [Math.floor((seed * 9301 + 49297) % 233280 / 233280 * max)] with the
    division and the multiplication rounded to doubles. *)
Definition random_float (seed max : Z) : Z :=
  js_floor_below max
    (PrimFloat.mul (PrimFloat.div (fl (lcg_value seed)) (fl lcg_modulus)) (fl max)).

(** The bounds [random] is called with in [generateLevel]: two
    characters, three templates, five item counts, ten names, properties,
    adjectives and collections, fifty and eighty ages. *)
Definition random_bounds_used : list Z := [2; 3; 5; 10; 50; 80].

(** The check, over every generated id and every bound, that the double
    evaluation and the exact one agree. *)
Definition random_float_agrees_upto (n : nat) : bool :=
  forallb (fun id =>
    forallb (fun m => Z.eqb (random_float (seed_of id) m) (random (seed_of id) m))
      random_bounds_used)
    (map Z.of_nat (seq 1 n)).

(** ** Properties *)

Lemma lcg_value_range (seed : Z) :
  0 <= seed -> 0 <= lcg_value seed < lcg_modulus.
Proof.
  intros Hs. unfold lcg_value, lcg_modulus.
  pose proof (Z.rem_bound_pos (seed * 9301 + 49297) 233280). lia.
Qed.

(** The defining inequalities of the floor division behind [random]. *)
Lemma random_spec (seed max : Z) :
  random seed max * lcg_modulus <= lcg_value seed * max <
  (random seed max + 1) * lcg_modulus.
Proof.
  unfold random, lcg_modulus.
  pose proof (Z.div_mod (lcg_value seed * max) 233280).
  pose proof (Z.mod_pos_bound (lcg_value seed * max) 233280). lia.
Qed.

(** For a non-negative seed, [random max] is a valid index of an array of
    length [max]. *)
Lemma random_range (seed max : Z) :
  0 <= seed -> 0 < max -> 0 <= random seed max < max.
Proof.
  intros Hs Hm. pose proof (lcg_value_range seed Hs). pose proof (random_spec seed max).
  unfold lcg_modulus in *. nia.
Qed.

#[export] Hint Resolve random_range : jq.

(** What the boolean check says, for any range of ids. *)
Lemma random_float_agrees_upto_spec (n : nat) (id m : Z) :
  random_float_agrees_upto n = true -> 1 <= id <= Z.of_nat n -> m ∈ random_bounds_used ->
  random_float (seed_of id) m = random (seed_of id) m.
Proof.
  intros Hall Hid Hm. unfold random_float_agrees_upto in Hall.
  rewrite forallb_forall in Hall.
  assert (Hin : In id (map Z.of_nat (seq 1 n))).
  { apply in_map_iff. exists (Z.to_nat id). split; [lia|]. apply in_seq. lia. }
  specialize (Hall id Hin). rewrite forallb_forall in Hall.
  apply Z.eqb_eq, Hall. by apply list_elem_of_In.
Qed.

Lemma random_float_agrees_1000 : random_float_agrees_upto 1000 = true.
Proof. vm_compute. reflexivity. Qed.

(** C26: on every id the game generates (1 to 1000) and every bound the
    generator passes, the double-precision evaluation of [random] gives
    exactly the integer floor [random]: no rounding step of the source
    moves a choice across an integer. *)
Theorem random_float_exact (id m : Z) :
  1 <= id <= 1000 -> m ∈ random_bounds_used ->
  random_float (seed_of id) m = random (seed_of id) m.
Proof. intros. apply (random_float_agrees_upto_spec 1000); [exact random_float_agrees_1000|lia|done]. Qed.

(** One draw decides every choice: the character is the wizard exactly
    when the name, property and adjective index (all [random 10]) is
    below five. *)
Theorem wizard_iff_index_below_5 (seed : Z) :
  0 <= seed -> (random seed 2 = 0 <-> random seed 10 < 5).
Proof.
  intros Hs. pose proof (lcg_value_range seed Hs).
  pose proof (random_spec seed 2). pose proof (random_spec seed 10).
  unfold lcg_modulus in *. lia.
Qed.

(** C27: a wizard level never gets the third wizard template (the
    array-counting one), and a spy level never gets the first spy
    template: [random 2] and [random 3] come from the same draw. *)
Theorem template_follows_character (seed : Z) :
  0 <= seed ->
  (random seed 2 = 0 -> random seed 3 < 2) /\ (random seed 2 <> 0 -> 1 <= random seed 3).
Proof.
  intros Hs. pose proof (lcg_value_range seed Hs).
  pose proof (random_spec seed 2). pose proof (random_spec seed 3).
  unfold lcg_modulus in *. split; intros; lia.
Qed.

(** ** Witnesses *)

Lemma random_float_exact_witness :
  (1 <= 400 <= 1000 /\ 5 ∈ random_bounds_used) /\
  random_float (seed_of 400) 5 = random (seed_of 400) 5.
Proof.
  split; [split; [lia|unfold random_bounds_used; by repeat constructor]|].
  apply random_float_exact; [lia|unfold random_bounds_used; by repeat constructor].
Defined.

Lemma template_follows_character_witness :
  0 <= seed_of 400 /\
  ((random (seed_of 400) 2 = 0 -> random (seed_of 400) 3 < 2) /\
   (random (seed_of 400) 2 <> 0 -> 1 <= random (seed_of 400) 3)).
Proof. split; [unfold seed_of; lia|]. apply template_follows_character. unfold seed_of; lia. Defined.

End Lcg.
