(* ===== verification/Levels.v ===== *)
(** * The level generator: data and [generateLevel]

    Models [src/project/data/gameLevels.ts], lines 1-212: the [GameLevel]
    interface, the static tables of [GameLevelGenerator] (templates, names,
    properties, collections, adjectives) and [generateLevel], with the
    four content tiers, the deterministic shuffle and the template
    substitution.  [generateLevel] returns [None] where the source throws
    (reading [template.title] of [undefined]); the theorems show it never
    does for a non-negative id. *)

From Stdlib Require Import ZArith Lia List String Ascii.
From stdpp Require Import base list strings.
From S2P Require Import Prelude JsString Lcg.
Import JsString Lcg.

Module Levels.

Local Open Scope jq_scope.

(** ** Data *)

(** [character: 'wizard' | 'spy'] *)
Inductive Character := Wizard | Spy.

#[export] Instance Character_eq_dec : EqDecision Character.
Proof. solve_decision. Defined.

Definition character_name (c : Character) : string :=
  match c with Wizard => "wizard" | Spy => "spy" end%string.

(** [interface GameLevel] (lines 1-13) *)
Record GameLevel := mkGameLevel {
  id : Z;
  title : string;
  character : Character;
  story : string;
  jsonData : string;
  question : string;
  answers : list string;
  correctAnswer : Z;
  hint : string;
  explanation : string;
  xpReward : Z
}.

(** One entry of [GameLevelGenerator.templates]. *)
Record Template := mkTemplate {
  tpl_title : string;
  tpl_story : string;
  tpl_hint : string;
  tpl_explanation : string
}.

(** ** The static tables (lines 18-68) *)

Local Open Scope Z_scope.
Local Open Scope string_scope.

Definition templates (c : Character) : list Template :=
  match c with
  | Wizard => [
  {| tpl_title := "The Wizard's {property}";
     tpl_story := "🧙‍♂️ A {adjective} wizard needs help reading their magical profile to find their {property}.";
     tpl_hint := "Look for the '{property}' key in the JSON data";
     tpl_explanation := "In JSON, you find values by looking at the key. The key '{property}' has the value '{answer}'." |};
  {| tpl_title := "Magic Spell {property}";
     tpl_story := "🧙‍♂️ The wizard needs to cast a spell! Find out their {property} level.";
     tpl_hint := "Look inside the nested object for '{property}'";
     tpl_explanation := "This JSON has nested objects. Navigate through the structure to find the value." |};
  {| tpl_title := "Wizard's {collection}";
     tpl_story := "🧙‍♂️ The wizard keeps magical {collection}. Count how many they have.";
     tpl_hint := "Count the items inside the square brackets [ ]";
     tpl_explanation := "Arrays are shown with square brackets. Count each item in the list." |}]
  | Spy => [
  {| tpl_title := "Agent's Secret {property}";
     tpl_story := "🕵️‍♀️ Agent {name} needs to verify their {property} from the secret file.";
     tpl_hint := "Numbers in JSON don't have quotes around them";
     tpl_explanation := "The key '{property}' contains the value without quotes because it's a {type}." |};
  {| tpl_title := "Mission {property}";
     tpl_story := "🕵️‍♀️ Agent {name} has a classified mission. Find the {property}!";
     tpl_hint := "Look inside the 'mission' object for the '{property}' key";
     tpl_explanation := "In nested objects, you go deeper: mission → {property} → '{answer}'." |};
  {| tpl_title := "Spy Network {collection}";
     tpl_story := "🕵️‍♀️ The spy network is sharing intel. How many {collection} are there?";
     tpl_hint := "Go into the nested object and count the array items";
     tpl_explanation := "Navigate to the nested structure and count the items in the array." |}]
  end.

Definition names (c : Character) : list string :=
  match c with
  | Wizard => ["Merlin"; "Gandalf"; "Alakazam"; "Zephyr"; "Luna"; "Mystic"; "Sage"; "Arcane"; "Stellar"; "Phoenix"]
  | Spy => ["Shadow"; "Nova"; "Cipher"; "Ghost"; "Phantom"; "Whisper"; "Apex"; "Viper"; "Storm"; "Raven"]
  end.

Definition properties : list string :=
  ["name"; "age"; "level"; "power"; "rank"; "status"; "code"; "mission"; "target"; "security"].

Definition collections : list string :=
  ["spells"; "potions"; "gadgets"; "weapons"; "allies"; "missions"; "artifacts"; "scrolls"; "crystals"; "tools"].

Definition adjectives : list string :=
  ["young"; "ancient"; "powerful"; "mysterious"; "legendary"; "skilled"; "wise"; "brave"; "cunning"; "elite"].

(** ** The content tiers (lines 97-179) *)

(** What one branch of the tiered [if] produces. *)
Record Body := mkBody {
  b_jsonData : string;
  b_question : string;
  b_answers : list string;
  b_actualAnswer : string
}.

(** A line of a template literal: two spaces per indentation level. *)
Fixpoint indent (n : nat) : string :=
  match n with O => EmptyString | S n' => "  " ++ indent n' end.

Definition ind (n : nat) (s : string) : string := indent n ++ s.

(** ["${isWizard ? 'magic' : 'rank'}": "${isWizard ? a : b}"] *)
Definition js_ternary (b : bool) (x y : string) : string := if b then x else y.

(** Lines 103-132: ids up to 100, a flat object; the question depends on
    the chosen property ([name], [age], anything else asks the level). *)
Definition body_flat (isWizard : bool) (ch : Character) (nms : list string)
    (name property : string) (rnd : Z -> Z) : Body :=
  let magic := ⟪js_ternary isWizard "magic" "rank"⟫ in
  if String.eqb property "name" then
    let actualAnswer := name in
    let k := index_of name nms in
    let len := Z.of_nat (length nms) in
    {| b_actualAnswer := actualAnswer;
       b_jsonData := "{" ++ nl ++
         ind 1 (⟪"name"⟫ ++ ": " ++ ⟪name⟫ ++ ",") ++ nl ++
         ind 1 (⟪"age"⟫ ++ ": " ++ js_String (20 + rnd 80) ++ ",") ++ nl ++
         ind 1 (magic ++ ": " ++ ⟪js_ternary isWizard "strong" "agent"⟫) ++ nl ++ "}";
       b_question := "What is the " ++ character_name ch ++ "'s name?";
       b_answers := [name; js_str_at nms (Z.rem (k + 1) len);
                     js_str_at nms (Z.rem (k + 2) len); js_str_at nms (Z.rem (k + 3) len)] |}
  else if String.eqb property "age" then
    let actualAnswer := js_String (25 + rnd 50) in
    {| b_actualAnswer := actualAnswer;
       b_jsonData := "{" ++ nl ++
         ind 1 (⟪"name"⟫ ++ ": " ++ ⟪name⟫ ++ ",") ++ nl ++
         ind 1 (⟪"age"⟫ ++ ": " ++ actualAnswer ++ ",") ++ nl ++
         ind 1 (magic ++ ": " ++ ⟪js_ternary isWizard "strong" "senior"⟫) ++ nl ++ "}";
       b_question := "How old is " ++ name ++ "?";
       b_answers := [actualAnswer; num_map (fun n => n + 5)%Z actualAnswer;
                     num_map (fun n => n - 3)%Z actualAnswer; num_map (fun n => n + 10)%Z actualAnswer] |}
  else
    let actualAnswer := js_String (rnd 10 + 1) in
    {| b_actualAnswer := actualAnswer;
       b_jsonData := "{" ++ nl ++
         ind 1 (⟪"name"⟫ ++ ": " ++ ⟪name⟫ ++ ",") ++ nl ++
         ind 1 (⟪"level"⟫ ++ ": " ++ actualAnswer ++ ",") ++ nl ++
         ind 1 (magic ++ ": " ++ ⟪js_ternary isWizard "strong" "senior"⟫) ++ nl ++ "}";
       b_question := "What is " ++ name ++ "'s level?";
       b_answers := [actualAnswer; num_map (fun n => n + 1)%Z actualAnswer;
                     num_map (fun n => n + 2)%Z actualAnswer; num_map (fun n => n - 1)%Z actualAnswer] |}.

(** Lines 133-147: ids 101 to 300, one nested object. *)
Definition body_nested (isWizard : bool) (name : string) (rnd : Z -> Z) : Body :=
  let actualAnswer := js_String (rnd 10 + 1) in
  let nestedProperty := js_ternary isWizard "powers" "skills" in
  let subProperty := if isWizard then js_str_at ["fire"; "water"; "earth"] (rnd 3)
                     else js_str_at ["stealth"; "combat"; "tech"] (rnd 3) in
  {| b_actualAnswer := actualAnswer;
     b_jsonData := "{" ++ nl ++
       ind 1 (⟪"name"⟫ ++ ": " ++ ⟪name⟫ ++ ",") ++ nl ++
       ind 1 (⟪nestedProperty⟫ ++ ": {") ++ nl ++
       ind 2 (⟪subProperty⟫ ++ ": " ++ actualAnswer ++ ",") ++ nl ++
       ind 2 (⟪"other"⟫ ++ ": " ++ js_String (rnd 10 + 1)) ++ nl ++
       ind 1 "}" ++ nl ++ "}";
     b_question := "What is " ++ name ++ "'s " ++ subProperty ++ " " ++
                   js_slice_drop_last nestedProperty ++ " level?";
     b_answers := [actualAnswer; num_map (fun n => n + 1)%Z actualAnswer;
                   num_map (fun n => n + 2)%Z actualAnswer; num_map (fun n => n - 1)%Z actualAnswer] |}.

(** Lines 152-155: [for (let i = 0; i < count; i++) items.push(`"item${i + 1}"`)] *)
Definition array_items (count : Z) : list string :=
  map (fun i => ⟪"item" ++ js_String (Z.of_nat i + 1)⟫) (seq 0 (Z.to_nat count)).

(** Lines 148-164: ids 301 to 600, counting the items of an array. *)
Definition body_array (isWizard : bool) (name : string) (rnd : Z -> Z) : Body :=
  let collection := js_str_at collections (rnd (Z.of_nat (length collections))) in
  let count := (rnd 5 + 2)%Z in
  let actualAnswer := js_String count in
  {| b_actualAnswer := actualAnswer;
     b_jsonData := "{" ++ nl ++
       ind 1 (⟪"name"⟫ ++ ": " ++ ⟪name⟫ ++ ",") ++ nl ++
       ind 1 (⟪collection⟫ ++ ": [" ++ js_join ", " (array_items count) ++ "],") ++ nl ++
       ind 1 (⟪"rank"⟫ ++ ": " ++ ⟪js_ternary isWizard "master" "senior"⟫) ++ nl ++ "}";
     b_question := "How many " ++ collection ++ " does " ++ name ++ " have?";
     b_answers := [actualAnswer; js_String (count + 1); js_String (count - 1); js_String (count + 2)] |}.

(** Lines 165-179: ids above 600, an array of objects inside an object. *)
Definition body_complex (name : string) (rnd : Z -> Z) : Body :=
  let actualAnswer := js_String (rnd 10 + 1) in
  {| b_actualAnswer := actualAnswer;
     b_jsonData := "{" ++ nl ++
       ind 1 (⟪"agent"⟫ ++ ": {") ++ nl ++
       ind 2 (⟪"name"⟫ ++ ": " ++ ⟪name⟫ ++ ",") ++ nl ++
       ind 2 (⟪"missions"⟫ ++ ": [") ++ nl ++
       ind 3 ("{" ++ ⟪"title"⟫ ++ ": " ++ ⟪"Mission A"⟫ ++ ", " ++ ⟪"status"⟫ ++ ": " ++
              ⟪"complete"⟫ ++ ", " ++ ⟪"score"⟫ ++ ": " ++ js_String (rnd 10 + 1) ++ "},") ++ nl ++
       ind 3 ("{" ++ ⟪"title"⟫ ++ ": " ++ ⟪"Mission B"⟫ ++ ", " ++ ⟪"status"⟫ ++ ": " ++
              ⟪"active"⟫ ++ ", " ++ ⟪"score"⟫ ++ ": " ++ actualAnswer ++ "}") ++ nl ++
       ind 2 "]" ++ nl ++
       ind 1 "}" ++ nl ++ "}";
     b_question := "What is the score of Mission B?";
     b_answers := [actualAnswer; num_map (fun n => n + 1)%Z actualAnswer;
                   num_map (fun n => n + 2)%Z actualAnswer; num_map (fun n => n - 1)%Z actualAnswer] |}.

(** The tier dispatch on [id] (lines 103, 133, 148, 165). *)
Definition level_body (id : Z) (isWizard : bool) (ch : Character) (nms : list string)
    (name property : string) (rnd : Z -> Z) : Body :=
  if (id <=? 100)%Z then body_flat isWizard ch nms name property rnd
  else if (id <=? 300)%Z then body_nested isWizard name rnd
  else if (id <=? 600)%Z then body_array isWizard name rnd
  else body_complex name rnd.

(** ** The deterministic shuffle (lines 181-190) *)

(** [[a[i], a[j]] = [a[j], a[i]]]: the right-hand array is read first. *)
Definition js_swap (l : list string) (i j : nat) : list string :=
  match l !! i, l !! j with
  | Some ai, Some aj => <[j := ai]> (<[i := aj]> l)
  | _, _ => l
  end.

(** [for (let i = n; i > 0; i--) { const j = (seed + i) % (i + 1); swap(i, j) }] *)
Fixpoint shuffle_from (seed : Z) (i : nat) (l : list string) : list string :=
  match i with
  | O => l
  | S i' => shuffle_from seed i'
              (js_swap l i (Z.to_nat (Z.rem (seed + Z.of_nat i) (Z.of_nat i + 1))))
  end.

(** The loop starts at [shuffledAnswers.length - 1]. *)
Definition shuffle (seed : Z) (l : list string) : list string :=
  shuffle_from seed (length l - 1) l.

(** ** [generateLevel] (lines 82-212) *)

(** The selections of lines 84-95, in the source's order. *)
Record Choices := mkChoices {
  c_isWizard : bool;
  c_character : Character;
  c_template : Template;
  c_names : list string;
  c_name : string;
  c_property : string;
  c_adjective : string
}.

(** Lines 84-95.  Reading [template.title] when [templates[random(3)]] is
    [undefined] throws a [TypeError]: [None]. *)
Definition choices (id : Z) : option Choices :=
  let rnd := random (seed_of id) in
  let isWizard := Z.eqb (rnd 2) 0 in
  let ch := if isWizard then Wizard else Spy in
  let tpls := templates ch in
  match js_at tpls (rnd (Z.of_nat (length tpls))) with
  | None => None
  | Some template =>
      let nms := names ch in
      Some {| c_isWizard := isWizard;
              c_character := ch;
              c_template := template;
              c_names := nms;
              c_name := js_str_at nms (rnd (Z.of_nat (length nms)));
              c_property := js_str_at properties (rnd (Z.of_nat (length properties)));
              c_adjective := js_str_at adjectives (rnd (Z.of_nat (length adjectives))) |}
  end.

(** Lines 97-179 with the selections of [c]. *)
Definition body_of (id : Z) (c : Choices) : Body :=
  level_body id (c_isWizard c) (c_character c) (c_names c) (c_name c) (c_property c)
    (random (seed_of id)).

(** Lines 181-211: shuffle, locate the correct answer, fill the templates. *)
Definition build_level (id : Z) (c : Choices) : GameLevel :=
  let template := c_template c in
  let property := c_property c in
  let body := body_of id c in
  let shuffledAnswers0 := b_answers body in
  let correctAnswerValue := js_str_at shuffledAnswers0 0 in
  let shuffledAnswers := shuffle (seed_of id) shuffledAnswers0 in
  let collection0 := js_str_at collections 0 in
  {| id := id;
     title := js_replace (js_replace (tpl_title template) "{property}" property)
                "{collection}" collection0;
     character := c_character c;
     story := js_replace (js_replace (js_replace (js_replace (tpl_story template)
                "{adjective}" (c_adjective c)) "{property}" property) "{name}" (c_name c))
                "{collection}" collection0;
     jsonData := b_jsonData body;
     question := b_question body;
     answers := shuffledAnswers;
     correctAnswer := index_of correctAnswerValue shuffledAnswers;
     hint := js_replace (tpl_hint template) "{property}" property;
     explanation := js_replace (js_replace (js_replace (tpl_explanation template)
                "{property}" property) "{answer}" correctAnswerValue) "{type}"
                (if js_isNaN_Number correctAnswerValue then "string" else "number");
     xpReward := id / 10 + 10 |}.

Definition generateLevel (id : Z) : option GameLevel :=
  match choices id with
  | None => None
  | Some c => Some (build_level id c)
  end.

(** The shape every level must have: four distinct answers and a correct
    index among them. *)
Definition level_wf (l : GameLevel) : Prop :=
  length (answers l) = 4%nat /\ NoDup (answers l) /\ (0 <= correctAnswer l < 4)%Z.

#[export] Instance level_wf_dec (l : GameLevel) : Decision (level_wf l).
Proof. unfold level_wf. apply _. Defined.

(** [t] contains the text [c]. *)
Definition mentions (t c : string) : bool :=
  match String.index 0 c t with Some _ => true | None => false end.

(** The level names no collection in its title or story but
    [collections[0]]. *)
Definition names_first_collection_only (l : GameLevel) : bool :=
  forallb (fun c => bool_decide (c = js_str_at collections 0) ||
                    negb (mentions (title l) c || mentions (story l) c)) collections.

Definition generated_names_ok (id : Z) : bool :=
  match generateLevel id with Some l => names_first_collection_only l | None => false end.

(** ** The shuffle is a permutation *)

Lemma js_swap_perm (l : list string) (i j : nat) : js_swap l i j ≡ₚ l.
Proof.
  unfold js_swap. destruct (l !! i) eqn:Hi, (l !! j) eqn:Hj; try done.
  by apply Permutation_insert_swap.
Qed.

Lemma shuffle_from_perm (seed : Z) (i : nat) (l : list string) : shuffle_from seed i l ≡ₚ l.
Proof.
  revert l. induction i as [|i IH]; intros l; simpl; [done|].
  by rewrite IH, js_swap_perm.
Qed.

(** The deterministic shuffle permutes the answers: it neither loses,
    duplicates nor invents a choice. *)
Lemma shuffle_perm (seed : Z) (l : list string) : shuffle seed l ≡ₚ l.
Proof. apply shuffle_from_perm. Qed.

(** ** The answers each tier builds *)

(** Four distinct answers, the first of them the actual answer. *)
Definition answers_ok (l : list string) (a : string) : Prop :=
  length l = 4%nat /\ l !! 0%nat = Some a /\ NoDup l.

#[export] Instance js_String_Inj : Inj eq eq js_String.
Proof. intros ??. apply js_String_inj. Qed.

Lemma answers_ok_ints (a b c d : Z) :
  NoDup [a; b; c; d] ->
  answers_ok [js_String a; js_String b; js_String c; js_String d] (js_String a).
Proof.
  intros Hnd. unfold answers_ok. split_and!; [done|done|].
  change [js_String a; js_String b; js_String c; js_String d] with
    (js_String <$> [a; b; c; d]). by apply (NoDup_fmap_2 js_String).
Qed.

(** The numeric tiers: the actual answer and three numbers computed from
    it through [String(Number(actualAnswer) + k)]. *)
Lemma answers_ok_offsets (a : Z) (f1 f2 f3 : Z -> Z) :
  NoDup [a; f1 a; f2 a; f3 a] ->
  answers_ok [js_String a; num_map f1 (js_String a); num_map f2 (js_String a);
              num_map f3 (js_String a)] (js_String a).
Proof. intros Hnd. rewrite !num_map_String. by apply answers_ok_ints. Qed.

#[export] Instance answers_ok_dec (l : list string) (a : string) : Decision (answers_ok l a).
Proof. unfold answers_ok. apply _. Defined.

(** The name question of the flat tier: the chosen name and the next
    three names of the same table, cyclically. *)
Lemma answers_ok_names (w : bool) (ch : Character) (i : Z) (rnd : Z -> Z) :
  (0 <= i < 10)%Z ->
  answers_ok (b_answers (body_flat w ch (names ch) (js_str_at (names ch) i) "name" rnd))
             (js_str_at (names ch) i).
Proof.
  intros Hi. apply (proj1 (bool_decide_eq_true _)).
  revert i Hi. apply (forallb_Z_range (fun z => bool_decide (answers_ok
    (b_answers (body_flat w ch (names ch) (js_str_at (names ch) z) "name" rnd))
    (js_str_at (names ch) z))) 10).
  by destruct ch; vm_compute.
Qed.

Lemma seed_of_nonneg (id : Z) : (0 <= id)%Z -> (0 <= seed_of id)%Z.
Proof. unfold seed_of. lia. Qed.

#[export] Hint Resolve seed_of_nonneg : jq.

(** What [choices] selects: one index [random(10)] serves the name, the
    property and the adjective. *)
Lemma choices_spec (id : Z) (c : Choices) :
  choices id = Some c ->
  let i := random (seed_of id) 10 in
  c_isWizard c = Z.eqb (random (seed_of id) 2) 0 /\
  c_character c = (if c_isWizard c then Wizard else Spy) /\
  c_names c = names (c_character c) /\
  c_name c = js_str_at (c_names c) i /\
  c_property c = js_str_at properties i /\
  c_adjective c = js_str_at adjectives i.
Proof.
  unfold choices. destruct (js_at _ _); intros Hc; inversion Hc; subst; simpl.
  destruct (Z.eqb _ _); by split_and!.
Qed.

(** The selection never reads [undefined] for a template when the id is
    non-negative. *)
Lemma choices_Some (id : Z) : (0 <= id)%Z -> exists c, choices id = Some c.
Proof.
  intros Hid. unfold choices. cbv zeta.
  assert (H3 := random_range (seed_of id) 3 (seed_of_nonneg id Hid) (eq_refl Lt)).
  destruct (Z.eqb _ _); simpl length; change (Z.of_nat 3) with 3%Z;
    rewrite js_at_lookup by lia;
    match goal with
    | |- context [templates ?ch !! _] =>
        destruct (lookup_lt_is_Some_Z (templates ch) (random (seed_of id) 3)) as [t ->];
        first [by eexists | cbn [length templates]; lia]
    end.
Qed.

(** Every tier builds four distinct answers with the actual answer first. *)
Lemma body_answers_ok (id : Z) (c : Choices) :
  (0 <= id)%Z -> choices id = Some c ->
  answers_ok (b_answers (body_of id c)) (b_actualAnswer (body_of id c)).
Proof.
  intros Hid Hc. destruct (choices_spec id c Hc) as (Hw & Hch & Hnms & Hname & _ & _).
  assert (H10 := random_range (seed_of id) 10 (seed_of_nonneg id Hid) (eq_refl Lt)).
  unfold body_of, level_body.
  destruct (Z.leb_spec id 100); [|destruct (Z.leb_spec id 300); [|destruct (Z.leb_spec id 600)]].
  - destruct (String.eqb_spec (c_property c) "name") as [Hp|Hp].
    + rewrite Hp, Hname, Hnms. by apply answers_ok_names.
    + unfold body_flat. cbv beta zeta. rewrite (proj2 (String.eqb_neq _ _) Hp).
      destruct (String.eqb _ "age"); apply answers_ok_offsets, NoDup_4; lia.
  - apply answers_ok_offsets, NoDup_4; lia.
  - apply answers_ok_ints, NoDup_4; lia.
  - apply answers_ok_offsets, NoDup_4; lia.
Qed.

(** The level built from the selections has four distinct answers and
    the actual answer at [correctAnswer]. *)
Lemma build_level_answers (id : Z) (c : Choices) :
  (0 <= id)%Z -> choices id = Some c ->
  length (answers (build_level id c)) = 4%nat /\ NoDup (answers (build_level id c)) /\
  (0 <= correctAnswer (build_level id c) < 4)%Z /\
  answers (build_level id c) !! Z.to_nat (correctAnswer (build_level id c)) =
    Some (b_actualAnswer (body_of id c)).
Proof.
  intros Hid Hc. destruct (body_answers_ok id c Hid Hc) as (Hlen & Hhd & Hnd).
  pose proof (shuffle_perm (seed_of id) (b_answers (body_of id c))) as Hperm.
  assert (Hin : b_actualAnswer (body_of id c) ∈ shuffle (seed_of id) (b_answers (body_of id c))).
  { rewrite Hperm. by apply list_elem_of_lookup_2 with 0%nat. }
  destruct (index_of_elem _ _ Hin) as [Hb Hl]. unfold build_level. cbn [answers correctAnswer].
  rewrite (js_str_at_lookup _ 0 _ ltac:(lia) Hhd).
  rewrite (Permutation_length Hperm), Hlen in Hb.
  split_and!; [by rewrite (Permutation_length Hperm) | by rewrite Hperm | lia | lia | exact Hl].
Qed.

(** C4: for every non-negative id, [generateLevel] returns a level (it does
    not throw); its [answers] are four distinct strings; [correctAnswer]
    lies in [[0, 4)]; and the answer at that index is the actual answer the
    tier computed, the same value the explanation's [{answer}] receives. *)
Theorem generateLevel_correct (id : Z) :
  (0 <= id)%Z ->
  exists c lvl, choices id = Some c /\ generateLevel id = Some lvl /\
    length (answers lvl) = 4%nat /\ NoDup (answers lvl) /\
    (0 <= correctAnswer lvl < 4)%Z /\
    answers lvl !! Z.to_nat (correctAnswer lvl) = Some (b_actualAnswer (body_of id c)).
Proof.
  intros Hid. destruct (choices_Some id Hid) as [c Hc].
  exists c, (build_level id c). unfold generateLevel. rewrite Hc.
  split_and!; try done; apply build_level_answers; done.
Qed.

(** The shape and the id of every generated level. *)
Corollary generateLevel_wf (i : Z) (l : GameLevel) :
  (0 <= i)%Z -> generateLevel i = Some l -> level_wf l /\ id l = i.
Proof.
  intros Hi Hg. unfold generateLevel in Hg. destruct (choices i) as [c|] eqn:Hc; [|done].
  injection Hg as <-. destruct (build_level_answers i c Hi Hc) as (Hlen & Hnd & Hca & _).
  by split_and!.
Qed.

(** [random(10)] picks the index of the name, the property and the
    adjective at once; the character is the wizard exactly when that index
    is below five. *)
Lemma choices_index (id : Z) (c : Choices) :
  (0 <= id)%Z -> choices id = Some c ->
  exists i, (0 <= i < 10)%Z /\ (c_isWizard c = true <-> (i < 5)%Z) /\
    c_name c = js_str_at (names (c_character c)) i /\
    c_property c = js_str_at properties i /\ c_adjective c = js_str_at adjectives i.
Proof.
  intros Hid Hc. destruct (choices_spec id c Hc) as (Hw & Hch & Hnms & Hname & Hprop & Hadj).
  exists (random (seed_of id) 10).
  pose proof (random_range (seed_of id) 10 (seed_of_nonneg id Hid) (eq_refl Lt)).
  pose proof (wizard_iff_index_below_5 (seed_of id) (seed_of_nonneg id Hid)).
  rewrite Hw, Z.eqb_eq, <- Hnms. split_and!; auto; lia.
Qed.

Lemma properties_name_index (i : Z) :
  (0 <= i < 10)%Z -> js_str_at properties i = "name" -> i = 0%Z.
Proof.
  intros Hi Hp.
  pose proof (forallb_Z_range (fun z => implb (String.eqb (js_str_at properties z) "name")
                                              (Z.eqb z 0)) 10 eq_refl i Hi) as H.
  cbv beta in H.
  rewrite Hp in H. by apply Z.eqb_eq.
Qed.

(** One draw decides every choice, so whenever the flat tier
    (ids up to 100) asks for a name, the character is the wizard and the
    answer is always ["Merlin"]: no other name ever answers a name
    question. *)
Theorem name_question_always_Merlin (id : Z) (c : Choices) :
  (0 <= id <= 100)%Z -> choices id = Some c -> c_property c = "name" ->
  c_character c = Wizard /\ b_actualAnswer (body_of id c) = "Merlin".
Proof.
  intros Hid Hc Hp.
  destruct (choices_index id c ltac:(lia) Hc) as (i & Hi & Hw & Hname & Hprop & _).
  rewrite Hp in Hprop. symmetry in Hprop.
  pose proof (properties_name_index i Hi Hprop) as ->.
  destruct (choices_spec id c Hc) as (_ & Hch & _).
  assert (Hwz : c_isWizard c = true) by (apply Hw; lia).
  rewrite Hwz in Hch. split; [done|].
  unfold body_of, level_body. destruct (Z.leb_spec id 100); [|lia].
  unfold body_flat. cbv beta zeta. rewrite Hp, String.eqb_refl. cbn [b_actualAnswer].
  by rewrite Hname, Hch.
Qed.

(** Only half of each name table is ever used: a wizard is one of
    the first five wizard names, a spy one of the last five spy names
    (Shadow, Nova, Cipher, Ghost and Phantom never appear in a generated
    level, nor do Mystic, Sage, Arcane, Stellar and Phoenix). *)
Theorem generated_name_in_half (id : Z) (c : Choices) :
  (0 <= id)%Z -> choices id = Some c ->
  c_name c ∈ (if c_isWizard c then take 5 (names Wizard) else drop 5 (names Spy)).
Proof.
  intros Hid Hc.
  destruct (choices_index id c Hid Hc) as (i & Hi & Hw & Hname & _).
  destruct (choices_spec id c Hc) as (_ & Hch & _).
  destruct (c_isWizard c); rewrite Hch in Hname; rewrite Hname.
  - assert (Hlt : (i < 5)%Z) by (by apply Hw).
    pose proof (forallb_Z_range (fun z => implb (z <? 5)%Z
      (bool_decide (js_str_at (names Wizard) z ∈ take 5 (names Wizard)))) 10 eq_refl i Hi) as H.
    cbv beta in H.
    apply Z.ltb_lt in Hlt. rewrite Hlt in H. by apply bool_decide_eq_true in H.
  - assert (Hge : (5 <=? i)%Z = true) by (apply Z.leb_le; destruct (Z.lt_ge_cases i 5) as [Hl|]; [by apply Hw in Hl|lia]).
    pose proof (forallb_Z_range (fun z => implb (5 <=? z)%Z
      (bool_decide (js_str_at (names Spy) z ∈ drop 5 (names Spy)))) 10 eq_refl i Hi) as H.
    cbv beta in H.
    rewrite Hge in H. by apply bool_decide_eq_true in H.
Qed.

(** The content of level 11, as a test fixture would pin it. *)
Example generateLevel_11 :
  option_map (fun l => (character l, question l, answers l, correctAnswer l, xpReward l))
    (generateLevel 11) =
  Some (Wizard, "What is Luna's level?", ["6"; "5"; "4"; "7"], 1%Z, 11%Z).
Proof. vm_compute. reflexivity. Qed.

Lemma generated_names_checked :
  forallb (fun z => generated_names_ok (z + 1)) (map Z.of_nat (seq 0 1000)) = true.
Proof. vm_compute. reflexivity. Qed.

(** C36: the title and the story substitute [collections[0]] ("spells")
    for [{collection}] (lines 194 and 200), not the collection the level
    asks about: for every id in [[1, 1000]] neither names any other
    collection, so on the array tier (ids 301-600) a level that counts
    tools, potions or allies is titled and told with spells; level 301
    asks how many tools Raven has under the title "Spy Network spells". *)
Theorem title_story_first_collection (id : Z) (l : GameLevel) :
  1 <= id <= 1000 -> generateLevel id = Some l ->
  (forall c, c ∈ collections -> c <> js_str_at collections 0 ->
     mentions (title l) c = false /\ mentions (story l) c = false) /\
  (id = 301 -> mentions (question l) "tools" = true /\ title l = "Spy Network spells").
Proof.
  intros Hid E. split.
  - assert (Hok : generated_names_ok id = true).
    { replace id with (id - 1 + 1) by lia.
      apply (forallb_Z_range (fun z => generated_names_ok (z + 1)) 1000 generated_names_checked). lia. }
    unfold generated_names_ok in Hok. rewrite E in Hok. unfold names_first_collection_only in Hok.
    intros c Hc Hne. rewrite forallb_forall in Hok. apply list_elem_of_In in Hc.
    specialize (Hok c Hc). case_bool_decide; [done|]. cbn in Hok.
    destruct (mentions (title l) c), (mentions (story l) c); done.
  - intros ->. vm_compute in E. injection E as <-. split; reflexivity.
Qed.

(** ** Witnesses *)

Lemma generateLevel_correct_witness :
  (0 <= 11)%Z /\
  exists c lvl, choices 11 = Some c /\ generateLevel 11 = Some lvl /\
    length (answers lvl) = 4%nat /\ NoDup (answers lvl) /\
    (0 <= correctAnswer lvl < 4)%Z /\
    answers lvl !! Z.to_nat (correctAnswer lvl) = Some (b_actualAnswer (body_of 11 c)).
Proof. split; [lia|]. apply (generateLevel_correct 11). lia. Defined.

Lemma name_question_always_Merlin_witness :
  exists c, choices 14 = Some c /\ c_property c = "name" /\
    c_character c = Wizard /\ b_actualAnswer (body_of 14 c) = "Merlin".
Proof.
  eexists. split; [reflexivity|]. split; [reflexivity|].
  apply (name_question_always_Merlin 14); [lia|reflexivity|reflexivity].
Defined.

Lemma generated_name_in_half_witness :
  exists c, choices 1000 = Some c /\
    c_name c ∈ (if c_isWizard c then take 5 (names Wizard) else drop 5 (names Spy)).
Proof.
  eexists. split; [reflexivity|]. apply (generated_name_in_half 1000); [lia|reflexivity].
Defined.

Lemma title_story_first_collection_witness :
  exists l, (1 <= 301 <= 1000 /\ generateLevel 301 = Some l) /\
  ((forall c, c ∈ collections -> c <> js_str_at collections 0 ->
     mentions (title l) c = false /\ mentions (story l) c = false) /\
   (301 = 301 -> mentions (question l) "tools" = true /\ title l = "Spy Network spells")).
Proof.
  eexists. split; [split; [lia|vm_compute; reflexivity]|].
  apply (title_story_first_collection 301); [lia|vm_compute; reflexivity].
Defined.

End Levels.
