(* ===== verification/LevelCache.v ===== *)
(** * The level cache: [getLevel], [preloadLevels], [preloadGameLevels]

    [GameLevelGenerator] keeps a static [Map<number, GameLevel>]
    (gameLevels.ts, line 17).  [getLevel] (lines 70-80) returns the cached
    level or generates, stores and returns it; [preloadLevels] (lines
    215-221) warms the ids [startId .. startId + count - 1] that are at most
    1000; [preloadGameLevels] (lines 451-454) preloads five ids from the
    current level.

    The cache is a [gmap Z L].  It is written against an interface,
    [LevelSource], that only says the generator is a function of the id
    that may throw ([None]); the theorems are proved for any source and
    then used with [generateLevel].  A thrown exception leaves the entries
    the loop already stored, because the map is shared static state. *)

From Stdlib Require Import ZArith Lia List.
From stdpp Require Import base list gmap.
From S2P Require Import Prelude Levels.

Module LevelCache.

Local Open Scope Z_scope.

(** What the cache needs of the generator it wraps. *)
Class LevelSource (L : Type) := {
  source_generate : Z -> option L
}.

Section Cache.

Context {L : Type} `{LevelSource L}.

(** [getLevel(id)]: [None] when generation throws (the cache is then
    unchanged: [cache.set] is never reached). *)
Definition getLevel (cache : gmap Z L) (id : Z) : option (L * gmap Z L) :=
  match cache !! id with
  | Some level => Some (level, cache)
  | None =>
      match source_generate id with
      | Some level => Some (level, <[id := level]> cache)
      | None => None
      end
  end.

(** The loop of [preloadLevels]: [for (i = startId; i < stop && i <= 1000;
    i++) if (!cache.has(i)) getLevel(i)].  The boolean is [false] when a
    [getLevel] threw and ended the loop; the entries stored before stay.
    Each iteration consumes one unit of [fuel]; [preloadLevels] passes
    [count], which the loop never exceeds ([preload_loop_fuel]). *)
Fixpoint preload_loop (fuel : nat) (i stop : Z) (cache : gmap Z L) : gmap Z L * bool :=
  match fuel with
  | O => (cache, true)
  | S fuel' =>
      if (i <? stop) && (i <=? 1000) then
        match cache !! i with
        | Some _ => preload_loop fuel' (i + 1) stop cache
        | None =>
            match getLevel cache i with
            | Some (_, cache') => preload_loop fuel' (i + 1) stop cache'
            | None => (cache, false)
            end
        end
      else (cache, true)
  end.

(** [preloadLevels(startId, count)] *)
Definition preloadLevels (cache : gmap Z L) (startId count : Z) : gmap Z L * bool :=
  preload_loop (Z.to_nat count) startId (startId + count) cache.

(** [preloadGameLevels(currentLevel)] *)
Definition preloadGameLevels (cache : gmap Z L) (currentLevel : Z) : gmap Z L * bool :=
  preloadLevels cache currentLevel 5.

(** The cache invariant: every stored level is what the generator gives
    for its id. *)
Definition cache_ok (cache : gmap Z L) : Prop :=
  forall k l, cache !! k = Some l -> source_generate k = Some l.

End Cache.

(** The generator of [Levels] is the source the program uses. *)
#[export] Instance generator_source : LevelSource Levels.GameLevel := {
  source_generate := Levels.generateLevel
}.

Section CacheFacts.

Context {L : Type} `{LevelSource L}.
Implicit Types (cache : gmap Z L).

Lemma cache_ok_empty : cache_ok (∅ : gmap Z L).
Proof. intros k l Hk. by rewrite lookup_empty in Hk. Qed.

(** After [getLevel], the id is cached with the returned level, and no
    other entry moved. *)
Lemma getLevel_lookup cache id l cache' :
  getLevel cache id = Some (l, cache') ->
  cache' !! id = Some l /\ (forall k, k <> id -> cache' !! k = cache !! k).
Proof.
  unfold getLevel. destruct (cache !! id) eqn:E.
  - intros [= <- <-]. done.
  - destruct (source_generate id); [|done]. intros [= <- <-].
    split; [by rewrite lookup_insert_eq|]. intros k Hk. by rewrite lookup_insert_ne.
Qed.

Lemma getLevel_cache_ok cache id l cache' :
  cache_ok cache -> getLevel cache id = Some (l, cache') -> cache_ok cache'.
Proof.
  intros Hok Hg k l' Hk. unfold getLevel in Hg. destruct (cache !! id) eqn:E.
  - injection Hg as <- <-. by apply Hok.
  - destruct (source_generate id) eqn:G; [|done]. injection Hg as <- <-.
    destruct (decide (k = id)) as [->|Hne].
    + rewrite lookup_insert_eq in Hk. congruence.
    + rewrite lookup_insert_ne in Hk by done. by apply Hok.
Qed.

Lemma getLevel_subseteq cache id l cache' :
  getLevel cache id = Some (l, cache') -> cache ⊆ cache'.
Proof.
  unfold getLevel. destruct (cache !! id) eqn:E; [by intros [= _ <-]|].
  destruct (source_generate id); [|done]. intros [= _ <-]. by apply insert_subseteq.
Qed.

(** Under the invariant a lookup returns what generation returns. *)
Lemma getLevel_value cache id :
  cache_ok cache -> fst <$> getLevel cache id = source_generate id.
Proof.
  intros Hok. unfold getLevel. destruct (cache !! id) eqn:E; [symmetry; by apply Hok|].
  by destruct (source_generate id).
Qed.

#[local] Hint Resolve getLevel_cache_ok getLevel_subseteq : jq.

(** C22: under the cache invariant the cached [getLevel] implements
    the pure generator: it returns exactly what generation returns (and
    throws exactly when it throws), and it keeps the invariant, caching
    the id and dropping no entry. *)
Theorem getLevel_refinement cache id :
  cache_ok cache ->
  fst <$> getLevel cache id = source_generate id /\
  (forall l cache', getLevel cache id = Some (l, cache') ->
     cache_ok cache' /\ cache' !! id = Some l /\ cache ⊆ cache').
Proof.
  intros Hok. split; [by apply getLevel_value|].
  intros l cache' Hg. split_and!; eauto with jq. by apply getLevel_lookup in Hg as [? _].
Qed.

(** A second [getLevel] of the same id is a cache hit returning
    the same level. *)
Theorem getLevel_idempotent cache id l cache' :
  getLevel cache id = Some (l, cache') -> getLevel cache' id = Some (l, cache').
Proof. intros Hg. apply getLevel_lookup in Hg as [Hl _]. unfold getLevel. by rewrite Hl. Qed.

(** One loop invariant gives everything [preloadLevels] promises. *)
Lemma preload_loop_spec fuel i stop cache cache' ok :
  cache_ok cache -> preload_loop fuel i stop cache = (cache', ok) ->
  cache_ok cache' /\ cache ⊆ cache' /\
  (forall k, (k < i \/ stop <= k \/ 1000 < k) -> cache' !! k = cache !! k) /\
  (ok = true -> stop - i <= Z.of_nat fuel ->
     forall k, i <= k < stop -> k <= 1000 -> is_Some (cache' !! k)).
Proof.
  revert i cache. induction fuel as [|fuel IH]; intros i cache Hok Hrun; simpl in Hrun.
  - injection Hrun as <- <-. split_and!; auto; intros _ ? k ?; lia.
  - destruct (Z.ltb_spec i stop), (Z.leb_spec i 1000); simpl in Hrun;
      try (injection Hrun as <- <-; split_and!; auto; intros _ _ k ? ?; lia).
    destruct (cache !! i) as [l|] eqn:Ei.
    + destruct (IH (i + 1) cache Hok Hrun) as (Hok' & Hsub & Hframe & Hcov).
      split_and!; auto; [intros k Hk; apply Hframe; lia|].
      intros Hok1 Hf k Hk Hk'. destruct (decide (k = i)) as [->|Hne].
      * eapply lookup_weaken_is_Some; [by eexists|done].
      * apply Hcov; auto; lia.
    + destruct (getLevel cache i) as [[l c1]|] eqn:Eg.
      * destruct (getLevel_lookup _ _ _ _ Eg) as [Hc1 Hc1o].
        destruct (IH (i + 1) c1 (getLevel_cache_ok _ _ _ _ Hok Eg) Hrun)
          as (Hok' & Hsub & Hframe & Hcov).
        split_and!; auto.
        { etrans; [eapply getLevel_subseteq; eauto|done]. }
        { intros k Hk. rewrite Hframe by lia. apply Hc1o. lia. }
        intros Hok1 Hf k Hk Hk'. destruct (decide (k = i)) as [->|Hne].
        -- eapply lookup_weaken_is_Some; [by eexists|done].
        -- apply Hcov; auto; lia.
      * injection Hrun as <- <-. split_and!; auto. discriminate.
Qed.

(** C35: [preloadLevels(startId, count)] keeps the invariant, adds
    entries only for ids in [[startId, startId + count)] that are at most
    1000, and, unless a generation threw, caches every such id. *)
Theorem preloadLevels_spec cache startId count cache' ok :
  cache_ok cache -> preloadLevels cache startId count = (cache', ok) ->
  cache_ok cache' /\ cache ⊆ cache' /\
  (forall k, (k < startId \/ startId + count <= k \/ 1000 < k) -> cache' !! k = cache !! k) /\
  (ok = true -> forall k, startId <= k < startId + count -> k <= 1000 -> is_Some (cache' !! k)).
Proof.
  intros Hok Hrun. destruct (preload_loop_spec _ _ _ _ _ _ Hok Hrun) as (? & ? & ? & Hcov).
  split_and!; auto. intros Hok1. apply Hcov; [done|lia].
Qed.

(** The loop of [preloadLevels] runs at most [stop - i] times:
    any fuel at least that large gives the same result, so [count] is
    enough and the model's bound is never what stops the loop. *)
Theorem preload_loop_fuel fuel1 fuel2 i stop cache :
  stop - i <= Z.of_nat fuel1 -> stop - i <= Z.of_nat fuel2 ->
  preload_loop fuel1 i stop cache = preload_loop fuel2 i stop cache.
Proof.
  revert fuel2 i cache. induction fuel1 as [|f1 IH]; intros [|f2] i cache H1 H2; simpl.
  - done.
  - destruct (Z.ltb_spec i stop); [lia|done].
  - destruct (Z.ltb_spec i stop); [lia|done].
  - destruct ((i <? stop) && (i <=? 1000)); [|done].
    destruct (cache !! i); [apply IH; lia|].
    destruct (getLevel cache i) as [[]|]; [apply IH; lia|done].
Qed.

(** A source that never throws on the ids from [i] on makes the loop
    complete. *)
Lemma preload_loop_no_throw fuel i stop cache :
  (forall k, i <= k -> is_Some (source_generate k)) -> snd (preload_loop fuel i stop cache) = true.
Proof.
  revert i cache. induction fuel as [|fuel IH]; intros i cache Hgen; simpl; [done|].
  destruct ((i <? stop) && (i <=? 1000)); [|done].
  destruct (cache !! i) eqn:E; [apply IH; intros; apply Hgen; lia|].
  unfold getLevel. rewrite E. destruct (Hgen i ltac:(lia)) as [l ->].
  apply IH. intros. apply Hgen. lia.
Qed.

End CacheFacts.

(** ** With the program's generator *)

(** [preloadLevels] from a non-negative id never throws. *)
Lemma preloadLevels_generator_completes (cache : gmap Z Levels.GameLevel) startId count :
  0 <= startId -> snd (preloadLevels cache startId count) = true.
Proof.
  intros Hs. apply preload_loop_no_throw. intros k Hk. simpl.
  destruct (Levels.choices_Some k ltac:(lia)) as [c Hc].
  unfold Levels.generateLevel. rewrite Hc. by eexists.
Qed.

(** After [preloadLevels(500, 5)] on an empty cache, ids 500 to
    504 are cached and 505 is not: [getLevel(505)] still generates. *)
Example preload_500_5 :
  let cache := fst (preloadLevels (∅ : gmap Z Levels.GameLevel) 500 5) in
  (forall k, 500 <= k <= 504 -> is_Some (cache !! k)) /\ cache !! 505 = None.
Proof.
  simpl. destruct (preloadLevels ∅ 500 5) as [cache ok] eqn:E.
  pose proof (preloadLevels_generator_completes ∅ 500 5 ltac:(lia)) as Hok.
  rewrite E in Hok. simpl in Hok. subst ok.
  destruct (preload_loop_spec _ _ _ _ _ _ cache_ok_empty E) as (_ & _ & Hframe & Hcov).
  split; [intros k Hk; apply Hcov; auto; lia|]. rewrite Hframe by lia. apply lookup_empty.
Qed.

(** ** Witnesses *)

Lemma getLevel_refinement_witness :
  cache_ok (∅ : gmap Z Levels.GameLevel) /\
  fst <$> getLevel (∅ : gmap Z Levels.GameLevel) 11 = source_generate 11.
Proof. split; [apply cache_ok_empty|]. exact (proj1 (getLevel_refinement ∅ 11 cache_ok_empty)). Defined.

Lemma getLevel_idempotent_witness :
  exists l c, getLevel (∅ : gmap Z Levels.GameLevel) 11 = Some (l, c) /\ getLevel c 11 = Some (l, c).
Proof.
  eexists _, _. split; [vm_compute; reflexivity|].
  apply (getLevel_idempotent (∅ : gmap Z Levels.GameLevel) 11). vm_compute. reflexivity.
Defined.

Lemma preloadLevels_spec_witness :
  exists c ok, preloadLevels (∅ : gmap Z Levels.GameLevel) 500 5 = (c, ok) /\ cache_ok c /\
    (ok = true -> forall k, 500 <= k < 500 + 5 -> k <= 1000 -> is_Some (c !! k)).
Proof.
  destruct (preloadLevels (∅ : gmap Z Levels.GameLevel) 500 5) as [c ok] eqn:E.
  exists c, ok. split; [done|].
  destruct (preloadLevels_spec ∅ 500 5 c ok cache_ok_empty E) as (Hok & _ & _ & Hcov).
  by split.
Defined.

Lemma preload_loop_fuel_witness :
  preload_loop 5 500 505 (∅ : gmap Z Levels.GameLevel) = preload_loop 10 500 505 ∅.
Proof. apply preload_loop_fuel; lia. Defined.

End LevelCache.
