(* ===== verification/GameLevels.v ===== *)
(** * The hand-authored levels and the [GameLevels] object

    [ORIGINAL_LEVELS] (gameLevels.ts, lines 225-418) are ten fixed
    levels.  [GameLevels] (lines 421-448) is meant to be an array-like
    view: a [Proxy] whose [get] trap returns [ORIGINAL_LEVELS[i]] for
    [i < 10] and [GameLevelGenerator.getLevel(i + 1)] for [10 <= i < 1000].
    The source builds it as an object literal that *spreads* the proxy:

      export const GameLevels = { get length() ..., [Symbol.iterator] ...,
                                  ...new Proxy({}, { get(target, prop) ... }) };

    Object spread copies the own enumerable properties of its operand
    (ECMAScript CopyDataProperties): it asks the proxy for its own keys,
    and with no [ownKeys] trap the proxy answers with those of its target
    [{}], which has none.  The trap is therefore never installed on
    [GameLevels], and [GameLevels[i]] is [undefined] for every index.

    This file models the trap ([proxy_get]), the spread
    ([copy_data_properties]) and property reads on the resulting object,
    proves that every index reads [undefined], and proves what the trap
    itself would return. *)

From Stdlib Require Import ZArith Lia List String.
From stdpp Require Import base list gmap strings.
From S2P Require Import Prelude JsString Lcg Levels LevelCache.
Import JsString Levels LevelCache.

Module GameLevels.

Local Open Scope Z_scope.
Local Open Scope jq_scope.
Local Open Scope string_scope.

(** A multi-line template literal: its lines joined by newlines. *)
Definition lines (l : list string) : string := String.concat nl l.

(** ** [ORIGINAL_LEVELS] *)

(** [ORIGINAL_LEVELS[0]] (lines 226-242) *)
Definition level1 : GameLevel := {|
  id := 1;
  title := "The Wizard's Name";
  character := Wizard;
  story := "🧙‍♂️ A young wizard has lost his spell book! Help him by reading his magical profile to find his name.";
  jsonData := lines [
      "{";
      "  " ++ ⟪"name"⟫ ++ ": " ++ ⟪"Merlin"⟫ ++ ",";
      "  " ++ ⟪"age"⟫ ++ ": 150,";
      "  " ++ ⟪"magic"⟫ ++ ": " ++ ⟪"strong"⟫;
      "}"];
  question := "What is the wizard's name?";
  answers := ["Gandalf"; "Merlin"; "Harry"; "Dumbledore"];
  correctAnswer := 1;
  hint := "Look for the 'name' key in the JSON data";
  explanation := "In JSON, you find values by looking at the key. The key 'name' has the value 'Merlin'.";
  xpReward := 10
|}.

(** [ORIGINAL_LEVELS[1]] (lines 243-259) *)
Definition level2 : GameLevel := {|
  id := 2;
  title := "Spy's Secret Age";
  character := Spy;
  story := "🕵️‍♀️ Agent Shadow needs to verify her identity. Can you find her age from the secret file?";
  jsonData := lines [
      "{";
      "  " ++ ⟪"codename"⟫ ++ ": " ++ ⟪"Shadow"⟫ ++ ",";
      "  " ++ ⟪"age"⟫ ++ ": 25,";
      "  " ++ ⟪"mission"⟫ ++ ": " ++ ⟪"top-secret"⟫;
      "}"];
  question := "How old is Agent Shadow?";
  answers := ["30"; "25"; "35"; "28"];
  correctAnswer := 1;
  hint := "Numbers in JSON don't have quotes around them";
  explanation := "The key 'age' contains the number 25 (without quotes because it's a number, not text).";
  xpReward := 15
|}.

(** [ORIGINAL_LEVELS[2]] (lines 260-279) *)
Definition level3 : GameLevel := {|
  id := 3;
  title := "Magic Spell Power";
  character := Wizard;
  story := "🧙‍♂️ The wizard needs to cast a spell! Find out how powerful his magic is.";
  jsonData := lines [
      "{";
      "  " ++ ⟪"wizard"⟫ ++ ": " ++ ⟪"Alakazam"⟫ ++ ",";
      "  " ++ ⟪"powers"⟫ ++ ": {";
      "    " ++ ⟪"fire"⟫ ++ ": 8,";
      "    " ++ ⟪"water"⟫ ++ ": 6,";
      "    " ++ ⟪"earth"⟫ ++ ": 9";
      "  }";
      "}"];
  question := "What is the wizard's earth magic power level?";
  answers := ["6"; "8"; "9"; "7"];
  correctAnswer := 2;
  hint := "Look inside the 'powers' object for 'earth'";
  explanation := "This JSON has nested objects. Inside 'powers', the 'earth' key has value 9.";
  xpReward := 20
|}.

(** [ORIGINAL_LEVELS[3]] (lines 280-296) *)
Definition level4 : GameLevel := {|
  id := 4;
  title := "Spy's Equipment List";
  character := Spy;
  story := "🕵️‍♀️ Agent Nova is preparing for a mission. How many gadgets does she have?";
  jsonData := lines [
      "{";
      "  " ++ ⟪"agent"⟫ ++ ": " ++ ⟪"Nova"⟫ ++ ",";
      "  " ++ ⟪"gadgets"⟫ ++ ": [" ++ ⟪"watch"⟫ ++ ", " ++ ⟪"phone"⟫ ++ ", " ++ ⟪"glasses"⟫ ++ "],";
      "  " ++ ⟪"rank"⟫ ++ ": " ++ ⟪"senior"⟫;
      "}"];
  question := "How many gadgets does Agent Nova have?";
  answers := ["2"; "3"; "4"; "1"];
  correctAnswer := 1;
  hint := "Count the items inside the square brackets [ ]";
  explanation := "Arrays are shown with square brackets. Count each item: 'watch', 'phone', 'glasses' = 3 items.";
  xpReward := 25
|}.

(** [ORIGINAL_LEVELS[4]] (lines 297-314) *)
Definition level5 : GameLevel := {|
  id := 5;
  title := "Wizard's Favorite Spell";
  character := Wizard;
  story := "🧙‍♂️ Master Zephyr has many spells. Which one is his favorite?";
  jsonData := lines [
      "{";
      "  " ++ ⟪"name"⟫ ++ ": " ++ ⟪"Zephyr"⟫ ++ ",";
      "  " ++ ⟪"spells"⟫ ++ ": [" ++ ⟪"fireball"⟫ ++ ", " ++ ⟪"heal"⟫ ++ ", " ++ ⟪"shield"⟫ ++ "],";
      "  " ++ ⟪"favorite"⟫ ++ ": " ++ ⟪"heal"⟫ ++ ",";
      "  " ++ ⟪"level"⟫ ++ ": 45";
      "}"];
  question := "What is Master Zephyr's favorite spell?";
  answers := ["fireball"; "heal"; "shield"; "lightning"];
  correctAnswer := 1;
  hint := "Look for the 'favorite' key - it's separate from the spells array";
  explanation := "Even though 'heal' is in the spells array, the 'favorite' key specifically tells us it's his favorite.";
  xpReward := 30
|}.

(** [ORIGINAL_LEVELS[5]] (lines 315-334) *)
Definition level6 : GameLevel := {|
  id := 6;
  title := "Secret Mission Target";
  character := Spy;
  story := "🕵️‍♀️ Agent Cipher has a classified mission. Find the target location!";
  jsonData := lines [
      "{";
      "  " ++ ⟪"mission"⟫ ++ ": {";
      "    " ++ ⟪"code"⟫ ++ ": " ++ ⟪"Operation JSON"⟫ ++ ",";
      "    " ++ ⟪"target"⟫ ++ ": " ++ ⟪"Tokyo"⟫ ++ ",";
      "    " ++ ⟪"status"⟫ ++ ": " ++ ⟪"active"⟫;
      "  },";
      "  " ++ ⟪"agent"⟫ ++ ": " ++ ⟪"Cipher"⟫;
      "}"];
  question := "Where is the mission target located?";
  answers := ["London"; "Tokyo"; "Paris"; "New York"];
  correctAnswer := 1;
  hint := "Look inside the 'mission' object for the 'target' key";
  explanation := "In nested objects, you go deeper: mission → target → 'Tokyo'.";
  xpReward := 35
|}.

(** [ORIGINAL_LEVELS[6]] (lines 335-355) *)
Definition level7 : GameLevel := {|
  id := 7;
  title := "Magical Creatures Count";
  character := Wizard;
  story := "🧙‍♂️ Wizard Luna keeps magical pets. How many different types does she have?";
  jsonData := lines [
      "{";
      "  " ++ ⟪"wizard"⟫ ++ ": " ++ ⟪"Luna"⟫ ++ ",";
      "  " ++ ⟪"pets"⟫ ++ ": {";
      "    " ++ ⟪"dragons"⟫ ++ ": 2,";
      "    " ++ ⟪"unicorns"⟫ ++ ": 1,";
      "    " ++ ⟪"phoenixes"⟫ ++ ": 3";
      "  },";
      "  " ++ ⟪"castle"⟫ ++ ": " ++ ⟪"Moonstone"⟫;
      "}"];
  question := "How many phoenixes does Luna have?";
  answers := ["1"; "2"; "3"; "4"];
  correctAnswer := 2;
  hint := "Look in the 'pets' object for 'phoenixes'";
  explanation := "Navigate to pets → phoenixes → 3. Luna has 3 phoenixes.";
  xpReward := 40
|}.

(** [ORIGINAL_LEVELS[7]] (lines 356-375) *)
Definition level8 : GameLevel := {|
  id := 8;
  title := "Spy Network Communication";
  character := Spy;
  story := "🕵️‍♀️ The spy network is sharing intel. What's the security level of the data?";
  jsonData := lines [
      "{";
      "  " ++ ⟪"network"⟫ ++ ": " ++ ⟪"Alpha"⟫ ++ ",";
      "  " ++ ⟪"data"⟫ ++ ": {";
      "    " ++ ⟪"classified"⟫ ++ ": true,";
      "    " ++ ⟪"security"⟫ ++ ": " ++ ⟪"maximum"⟫ ++ ",";
      "    " ++ ⟪"agents"⟫ ++ ": [" ++ ⟪"Ghost"⟫ ++ ", " ++ ⟪"Phantom"⟫ ++ ", " ++ ⟪"Whisper"⟫ ++ "]";
      "  }";
      "}"];
  question := "What is the security level of the classified data?";
  answers := ["minimum"; "medium"; "maximum"; "standard"];
  correctAnswer := 2;
  hint := "Go into the 'data' object and find 'security'";
  explanation := "Inside the 'data' object, the 'security' key has the value 'maximum'.";
  xpReward := 45
|}.

(** [ORIGINAL_LEVELS[8]] (lines 376-395) *)
Definition level9 : GameLevel := {|
  id := 9;
  title := "Ancient Spell Components";
  character := Wizard;
  story := "🧙‍♂️ The Grand Wizard needs ingredients for an ancient spell. What's the first ingredient?";
  jsonData := lines [
      "{";
      "  " ++ ⟪"spell"⟫ ++ ": " ++ ⟪"Ancient Power"⟫ ++ ",";
      "  " ++ ⟪"ingredients"⟫ ++ ": [";
      "    {" ++ ⟪"name"⟫ ++ ": " ++ ⟪"Dragon Scale"⟫ ++ ", " ++ ⟪"amount"⟫ ++ ": 3},";
      "    {" ++ ⟪"name"⟫ ++ ": " ++ ⟪"Moon Dust"⟫ ++ ", " ++ ⟪"amount"⟫ ++ ": 1},";
      "    {" ++ ⟪"name"⟫ ++ ": " ++ ⟪"Crystal Shard"⟫ ++ ", " ++ ⟪"amount"⟫ ++ ": 5}";
      "  ]";
      "}"];
  question := "What is the name of the first ingredient?";
  answers := ["Moon Dust"; "Dragon Scale"; "Crystal Shard"; "Star Essence"];
  correctAnswer := 1;
  hint := "Arrays start at position 0. Look at the first object's 'name'";
  explanation := "In the ingredients array, the first item [0] is an object with name: 'Dragon Scale'.";
  xpReward := 50
|}.

(** [ORIGINAL_LEVELS[9]] (lines 396-417) *)
Definition level10 : GameLevel := {|
  id := 10;
  title := "Master Spy's Final Mission";
  character := Spy;
  story := "🕵️‍♀️ The legendary Agent Apex has one final mission. Is it currently active?";
  jsonData := lines [
      "{";
      "  " ++ ⟪"agent"⟫ ++ ": {";
      "    " ++ ⟪"name"⟫ ++ ": " ++ ⟪"Apex"⟫ ++ ",";
      "    " ++ ⟪"rank"⟫ ++ ": " ++ ⟪"Legend"⟫ ++ ",";
      "    " ++ ⟪"missions"⟫ ++ ": [";
      "      {" ++ ⟪"title"⟫ ++ ": " ++ ⟪"Operation Dawn"⟫ ++ ", " ++ ⟪"active"⟫ ++ ": false},";
      "      {" ++ ⟪"title"⟫ ++ ": " ++ ⟪"Final Protocol"⟫ ++ ", " ++ ⟪"active"⟫ ++ ": true}";
      "    ]";
      "  }";
      "}"];
  question := "Is the 'Final Protocol' mission active?";
  answers := ["false"; "true"; "pending"; "unknown"];
  correctAnswer := 1;
  hint := "Look in the missions array for 'Final Protocol' and check its 'active' value";
  explanation := "In the missions array, the second mission 'Final Protocol' has active: true.";
  xpReward := 100
|}.

Definition ORIGINAL_LEVELS : list GameLevel :=
  [level1; level2; level3; level4; level5; level6; level7; level8; level9; level10].

(** ** JavaScript values and objects, as far as [GameLevels] needs them *)

(** Property keys: strings (an index [i] is read as the key [String(i)])
    and the iterator symbol. *)
Inductive PropKey := KStr (s : string) | KIterator.

#[export] Instance PropKey_eq_dec : EqDecision PropKey.
Proof. solve_decision. Defined.

(** The values [GameLevels] can hold or return. *)
Inductive JsVal := JUndefined | JNumber (n : Z) | JLevel (l : GameLevel) | JGenerator.

(** An ordinary object: its own properties, in creation order. *)
Definition JsObject := list (PropKey * JsVal).

(** [obj[key]]: the own property, or [undefined] (no prototype of the
    object literal has numeric keys). *)
Definition js_get (obj : JsObject) (k : PropKey) : JsVal :=
  match List.find (fun kv => bool_decide (kv.1 = k)) obj with
  | Some (_, v) => v
  | None => JUndefined
  end.

(** ** The proxy's [get] trap (lines 433-446) *)

(** [get(target, prop)] on a string key; it threads the generator's
    cache, and [None] is an exception thrown by [getLevel]. *)
Definition proxy_get (cache : gmap Z GameLevel) (prop : string)
    : option (JsVal * gmap Z GameLevel) :=
  match js_Number prop with
  | None => Some (JUndefined, cache)
  | Some index =>
      if (index <? 0)%Z || (index >=? 1000)%Z then Some (JUndefined, cache)
      else if (index <? 10)%Z then
        Some (match js_at ORIGINAL_LEVELS index with
              | Some l => JLevel l
              | None => JUndefined
              end, cache)
      else match getLevel cache (index + 1) with
           | Some (l, cache') => Some (JLevel l, cache')
           | None => None
           end
  end.

(** The proxy's target, [{}]: no own keys. *)
Definition proxy_target_keys : list string := [].

(** [{ ...proxy }]: CopyDataProperties asks the proxy for its own keys;
    with no [ownKeys] trap it returns the target's, and each is read
    through the [get] trap. *)
Fixpoint copy_data_properties (keys : list string) (cache : gmap Z GameLevel)
    : option (JsObject * gmap Z GameLevel) :=
  match keys with
  | [] => Some ([], cache)
  | k :: ks =>
      match proxy_get cache k with
      | None => None
      | Some (v, cache') =>
          match copy_data_properties ks cache' with
          | None => None
          | Some (props, cache'') => Some ((KStr k, v) :: props, cache'')
          end
      end
  end.

(** The object literal [GameLevels] (lines 421-448): the [length] getter
    (1000), the iterator, then the spread of the proxy. *)
Definition GameLevels_object (cache : gmap Z GameLevel) : option (JsObject * gmap Z GameLevel) :=
  match copy_data_properties proxy_target_keys cache with
  | None => None
  | Some (copied, cache') =>
      Some (([(KStr "length", JNumber 1000); (KIterator, JGenerator)] ++ copied)%list, cache')
  end.

(** [GameLevels[i]], as [game.tsx] reads it. *)
Definition GameLevels_at (obj : JsObject) (i : Z) : JsVal := js_get obj (KStr (js_String i)).

(** The iterator (lines 425-429): [for (i = 0; i < 1000; i++) yield this[i]]. *)
Definition GameLevels_iterate (obj : JsObject) : list JsVal :=
  map (fun i => GameLevels_at obj (Z.of_nat i)) (seq 0 1000).

(** ** Properties *)

Lemma js_String_not_length (i : Z) : js_String i <> "length".
Proof.
  intros H. pose proof (js_Number_String i) as Hn. rewrite H in Hn. discriminate.
Qed.

(** The object the literal builds: the spread added no property. *)
Lemma GameLevels_object_eq (cache : gmap Z GameLevel) :
  GameLevels_object cache = Some ([(KStr "length", JNumber 1000); (KIterator, JGenerator)], cache).
Proof. reflexivity. Qed.

Lemma GameLevels_at_built (i : Z) :
  GameLevels_at [(KStr "length", JNumber 1000); (KIterator, JGenerator)] i = JUndefined.
Proof.
  unfold GameLevels_at, js_get. cbn [List.find fst].
  rewrite bool_decide_eq_false_2; [rewrite bool_decide_eq_false_2; [done|discriminate]|].
  intros [= H]. by apply (js_String_not_length i).
Qed.

(** C2: the object [GameLevels] has only its [length] (1000) and its
    iterator: spreading the proxy copied nothing, so [GameLevels[i]] reads
    [undefined] for every index [i], and the cache is not consulted. *)
Theorem GameLevels_index_undefined (cache : gmap Z GameLevel) (i : Z) :
  exists obj, GameLevels_object cache = Some (obj, cache) /\
    js_get obj (KStr "length") = JNumber 1000 /\ GameLevels_at obj i = JUndefined.
Proof.
  eexists. split; [apply GameLevels_object_eq|]. split; [reflexivity|]. apply GameLevels_at_built.
Qed.

(** Consequently the iterator yields a thousand [undefined]s. *)
Corollary GameLevels_iterate_undefined (cache : gmap Z GameLevel) :
  exists obj, GameLevels_object cache = Some (obj, cache) /\
    GameLevels_iterate obj = repeat JUndefined 1000.
Proof.
  eexists. split; [apply GameLevels_object_eq|].
  unfold GameLevels_iterate. rewrite (map_ext _ (fun _ => JUndefined)) by (intros; apply GameLevels_at_built).
  by rewrite map_const, length_seq.
Qed.

(** Each hand-authored level sits at index [id - 1], has four
    distinct answers and a correct index among them. *)
Theorem ORIGINAL_LEVELS_wf (k : nat) (l : GameLevel) :
  ORIGINAL_LEVELS !! k = Some l -> level_wf l /\ id l = Z.of_nat k + 1.
Proof.
  intros Hk.
  do 10 (destruct k as [|k]; [injection Hk as <-; split; [by apply (bool_decide_unpack _); vm_compute|reflexivity]|]).
  done.
Qed.

(** The first fixture: ["The Wizard's Name"], correct answer ["Merlin"] at
    index 1. *)
Example ORIGINAL_LEVELS_first :
  option_map (fun l => (title l, answers l !! Z.to_nat (correctAnswer l), correctAnswer l))
    (ORIGINAL_LEVELS !! 0%nat) = Some ("The Wizard's Name", Some "Merlin", 1).
Proof. reflexivity. Qed.

(** The [get] trap itself, had it been installed, would give for
    every index [0 <= i < 1000] a well-formed level with id [i + 1]: the
    fixture for [i < 10], the generated (and now cached) level otherwise,
    keeping the cache invariant. *)
Theorem proxy_get_index (cache : gmap Z GameLevel) (i : Z) :
  cache_ok cache -> 0 <= i < 1000 ->
  exists l cache', proxy_get cache (js_String i) = Some (JLevel l, cache') /\
    cache_ok cache' /\ level_wf l /\ id l = i + 1 /\
    (i < 10 -> ORIGINAL_LEVELS !! Z.to_nat i = Some l).
Proof.
  intros Hok Hi. unfold proxy_get. rewrite js_Number_String.
  destruct (Z.ltb_spec i 0); [lia|]. destruct (Z.geb_spec i 1000); [lia|]. simpl.
  destruct (Z.ltb_spec i 10).
  - rewrite js_at_lookup by lia.
    destruct (lookup_lt_is_Some_2 ORIGINAL_LEVELS (Z.to_nat i) ltac:(simpl; lia)) as [l Hl].
    rewrite Hl. destruct (ORIGINAL_LEVELS_wf _ _ Hl) as [Hwf Hid].
    exists l, cache. split_and!; auto. lia.
  - pose proof (getLevel_value cache (i + 1) Hok) as Hv.
    destruct (getLevel cache (i + 1)) as [[l cache']|] eqn:E; cbn [fmap option_fmap option_map fst] in Hv.
    2:{ destruct (choices_Some (i + 1) ltac:(lia)) as [c Hc]. simpl in Hv.
        unfold generateLevel in Hv. by rewrite Hc in Hv. }
    assert (Hg : generateLevel (i + 1) = Some l) by exact (eq_sym Hv).
    destruct (generateLevel_wf (i + 1) l ltac:(lia) Hg) as [Hwf Hid].
    exists l, cache'. split_and!; eauto using getLevel_cache_ok. lia.
Qed.

(** ** Witnesses *)

Lemma ORIGINAL_LEVELS_wf_witness :
  ORIGINAL_LEVELS !! 0%nat = Some level1 /\ (level_wf level1 /\ id level1 = Z.of_nat 0 + 1).
Proof. split; [reflexivity|]. by apply ORIGINAL_LEVELS_wf. Defined.

Lemma proxy_get_index_witness :
  cache_ok (∅ : gmap Z GameLevel) /\ 0 <= 41 < 1000 /\
  exists l cache', proxy_get ∅ (js_String 41) = Some (JLevel l, cache') /\
    cache_ok cache' /\ level_wf l /\ id l = 41 + 1 /\
    (41 < 10 -> ORIGINAL_LEVELS !! Z.to_nat 41 = Some l).
Proof.
  split; [apply cache_ok_empty|]. split; [lia|].
  apply proxy_get_index; [apply cache_ok_empty|lia].
Defined.

End GameLevels.
