(* ===== verification/Clues.v ===== *)
(** * The clues of the levels

    Every level shows its [jsonData] as the clue the question is about
    (game.tsx, line 268), and the spec says the clue "is itself valid
    JSON".  The generator writes the clues with template literals
    (gameLevels.ts, lines 103-179) and the ten fixed levels hold them as
    literals (lines 225-418).  This file reads the clues with the parser of
    [Json] and checks, for the thousand ids, that each is one JSON object
    whose objects never repeat a key, and that the answer the level marks
    correct is written in it. *)

From Stdlib Require Import ZArith Lia List String.
From stdpp Require Import base list.
From S2P Require Import Prelude JsString Json Levels GameLevels.
Import JsString Json Levels GameLevels.

Module Clues.

Local Open Scope Z_scope.

(** [level.answers[level.correctAnswer]] *)
Definition level_answer (l : GameLevel) : option string :=
  answers l !! Z.to_nat (correctAnswer l).

(** [JSON.parse(level.jsonData)] *)
Definition clue (l : GameLevel) : option json := parse_json (jsonData l).

(** The clue is a JSON object without repeated keys. *)
Definition clue_json_ok (l : GameLevel) : bool :=
  match clue l with Some (JObj _ as v) => distinct_keys v | _ => false end.

(** ... and it holds the correct answer. *)
Definition clue_ok (l : GameLevel) : bool :=
  clue_json_ok l &&
  match clue l, level_answer l with
  | Some v, Some a => bool_decide (a ∈ readings v)
  | _, _ => false
  end.

Definition generated_clue_ok (id : Z) : bool :=
  match generateLevel id with Some l => clue_ok l | None => false end.

(** ** Checking the thousand clues *)

Lemma clue_ok_spec (l : GameLevel) :
  clue_ok l = true ->
  exists kvs a, clue l = Some (JObj kvs) /\ distinct_keys (JObj kvs) = true /\
    level_answer l = Some a /\ a ∈ readings (JObj kvs).
Proof.
  unfold clue_ok, clue_json_ok. intros [H1 H2]%andb_prop.
  destruct (clue l) as [[| | | | |kvs]|]; try discriminate.
  destruct (level_answer l) as [a|]; [|discriminate].
  exists kvs, a. split_and!; try done. by apply bool_decide_eq_true in H2.
Qed.

Lemma generated_clues_checked :
  forallb (fun z => generated_clue_ok (z + 1)) (map Z.of_nat (seq 0 1000)) = true.
Proof. vm_compute. reflexivity. Qed.

Lemma generated_clue_ok_range (id : Z) : 1 <= id <= 1000 -> generated_clue_ok id = true.
Proof.
  intros Hid. replace id with (id - 1 + 1) by lia.
  apply (forallb_Z_range (fun z => generated_clue_ok (z + 1)) 1000 generated_clues_checked). lia.
Qed.

Lemma generated_clue_spec (id : Z) :
  1 <= id <= 1000 ->
  exists l kvs a, generateLevel id = Some l /\ clue l = Some (JObj kvs) /\
    distinct_keys (JObj kvs) = true /\ level_answer l = Some a /\ a ∈ readings (JObj kvs).
Proof.
  intros Hid. pose proof (generated_clue_ok_range id Hid) as H. unfold generated_clue_ok in H.
  destruct (generateLevel id) as [l|]; [|discriminate].
  destruct (clue_ok_spec l H) as (kvs & a & ?). by exists l, kvs, a.
Qed.

(** The ten fixed levels pass the same check. *)
Lemma ORIGINAL_LEVELS_clues : forallb clue_ok ORIGINAL_LEVELS = true.
Proof. vm_compute. reflexivity. Qed.

(** ** The clues are JSON and answer their question *)

(** C6: for every id in [[1, 1000]] the generated level's clue parses as
    JSON: it is one object, and no object in it repeats a key. *)
Theorem generated_clues_json (id : Z) :
  1 <= id <= 1000 ->
  exists l kvs, generateLevel id = Some l /\ clue l = Some (JObj kvs) /\ distinct_keys (JObj kvs) = true.
Proof. intros Hid. destruct (generated_clue_spec id Hid) as (l & kvs & a & ? & ? & ? & ? & ?).
  exists l, kvs. by split_and!. Qed.

(** C7: for every id in [[1, 1000]] the answer the generated level marks
    correct is written in its clue: a value, or the length of an array. *)
Theorem generated_clue_has_answer (id : Z) :
  1 <= id <= 1000 ->
  exists l v a, generateLevel id = Some l /\ clue l = Some v /\ level_answer l = Some a /\ a ∈ readings v.
Proof. intros Hid. destruct (generated_clue_spec id Hid) as (l & kvs & a & ? & ? & ? & ? & ?).
  exists l, (JObj kvs), a. by split_and!. Qed.

Lemma generated_clues_json_witness :
  1 <= 450 <= 1000 /\
  exists l kvs, generateLevel 450 = Some l /\ clue l = Some (JObj kvs) /\ distinct_keys (JObj kvs) = true.
Proof. split; [lia|]. apply (generated_clues_json 450). lia. Defined.

Lemma generated_clue_has_answer_witness :
  1 <= 1000 <= 1000 /\
  exists l v a, generateLevel 1000 = Some l /\ clue l = Some v /\ level_answer l = Some a /\ a ∈ readings v.
Proof. split; [lia|]. apply (generated_clue_has_answer 1000). lia. Defined.

End Clues.
