(* ===== verification/Storage.v ===== *)
(** * The progress store: data, the store's state and its monad

    [src/project/utils/storage.ts] keeps one [PlayerData] record in an
    AsyncStorage slot, a module-level read cache ([playerDataCache],
    [cacheTimestamp]) and a module-level default record
    ([DEFAULT_PLAYER_DATA]).  This file models:

    - [PlayerData] with its [achievements] array held by reference: arrays
      live in a heap ([st_heap]) and a record holds a location.  The
      source pushes into the array it got from [getPlayerData], and records
      built by spreading [DEFAULT_PLAYER_DATA] share its array, so the
      aliasing is part of the behaviour;
    - the stored text as what [JSON.parse] makes of it: a record whose
      fields may be missing ([StoredRecord]), or a text that does not parse
      ([StoredText] relates the records to the texts themselves);
    - the AsyncStorage slot with the writes issued and not yet completed
      ([st_pending], completed in order), whether the store's calls fail
      ([st_store_ok]), and the clock ([st_now], read by [Date.now()]);
    - a state monad with exceptions ([throw], [catch]) and an out-of-fuel
      outcome: [getPlayerData] and [savePlayerData] call each other, and
      the model gives each call one unit of fuel.

    Module [StorageProps], at the end, holds the theorems: when the
    operations terminate (and that on a first launch [getPlayerData] and
    [savePlayerData] call each other forever), and what each returns and
    caches, on every branch, the failing store's included; and that an
    export imported back restores the record. *)

From Stdlib Require Import ZArith Lia List String.
From stdpp Require Import base list gmap strings.
From S2P Require Import Prelude Levels.

Module Storage.

Local Open Scope Z_scope.

(** ** Data *)

(** A heap location of an array object. *)
Abbreviation loc := N.

(** [interface PlayerData] (lines 7-15). *)
Record PlayerData := mkPlayerData {
  currentLevel : Z;
  totalXP : Z;
  levelsCompleted : Z;
  achievements : loc;
  character : Levels.Character;
  lastPlayed : Z;
  createdAt : Z
}.

(** [Partial<PlayerData>]: the argument of [savePlayerData]. *)
Record PartialData := mkPartialData {
  p_currentLevel : option Z;
  p_totalXP : option Z;
  p_levelsCompleted : option Z;
  p_achievements : option loc;
  p_character : option Levels.Character;
  p_lastPlayed : option Z;
  p_createdAt : option Z
}.

(** What [JSON.parse] returns for a stored or imported object text:
    each field of the schema, present or missing.  (Texts whose fields
    have other JSON types are not modelled.) *)
Record StoredRecord := mkStoredRecord {
  s_currentLevel : option Z;
  s_totalXP : option Z;
  s_levelsCompleted : option Z;
  s_achievements : option (list string);
  s_character : option Levels.Character;
  s_lastPlayed : option Z;
  s_createdAt : option Z
}.

(** A text in the slot or given to [importData]. *)
Inductive Blob := BRecord (r : StoredRecord) | BUnparsable.

(** The text ['{}']. *)
Definition empty_record : StoredRecord :=
  mkStoredRecord None None None None None None None.

(** The key of the slot (line 4); the model has one slot. *)
Definition PLAYER_DATA_KEY : string := "@json_quest_player_data"%string.

(** [CACHE_DURATION] (line 30), in milliseconds. *)
Definition CACHE_DURATION : Z := 5000.

(** The location of [DEFAULT_PLAYER_DATA.achievements], the array
    allocated when the module loads. *)
Definition default_loc : loc := 0%N.

(** ** The state of the store *)

Record Store := mkStore {
  st_heap : gmap N (list string);      (** array objects *)
  st_next : loc;                       (** the next fresh location *)
  st_default_time : Z;                 (** [Date.now()] when the module loaded *)
  st_cache : option PlayerData;        (** [playerDataCache] *)
  st_cacheTimestamp : Z;               (** [cacheTimestamp] *)
  st_durable : option Blob;            (** the AsyncStorage slot *)
  st_pending : list Blob;              (** [setItem] calls not yet completed *)
  st_store_ok : bool;                  (** AsyncStorage calls succeed *)
  st_now : Z                           (** [Date.now()] *)
}.

(** [DEFAULT_PLAYER_DATA] (lines 17-25): its timestamps were taken when
    the module loaded, its array is the one at [default_loc]. *)
Definition DEFAULT_PLAYER_DATA (s : Store) : PlayerData := {|
  currentLevel := 1;
  totalXP := 0;
  levelsCompleted := 0;
  achievements := default_loc;
  character := Levels.Wizard;
  lastPlayed := st_default_time s;
  createdAt := st_default_time s
|}.

(** The thrown errors the source catches. *)
Inductive Exn := EStoreRead | EStoreWrite | EParse.

(** ** The monad *)

Inductive Outcome (A : Type) :=
  | Done (a : A) (s : Store)
  | Thrown (e : Exn) (s : Store)
  | OutOfFuel.
Arguments Done {A} a s.
Arguments Thrown {A} e s.
Arguments OutOfFuel {A}.

Definition M (A : Type) : Type := Store -> Outcome A.

Definition ret {A} (a : A) : M A := fun s => Done a s.

Definition bind {A B} (m : M A) (k : A -> M B) : M B :=
  fun s => match m s with
           | Done a s' => k a s'
           | Thrown e s' => Thrown e s'
           | OutOfFuel => OutOfFuel
           end.

Definition throw {A} (e : Exn) : M A := fun s => Thrown e s.

(** [try { m } catch { h }]: only thrown errors are caught. *)
Definition catch {A} (m : M A) (h : Exn -> M A) : M A :=
  fun s => match m s with
           | Thrown e s' => h e s'
           | r => r
           end.

Definition out_of_fuel {A} : M A := fun _ => OutOfFuel.

Definition gets {A} (f : Store -> A) : M A := fun s => Done (f s) s.

Definition modify (f : Store -> Store) : M unit := fun s => Done tt (f s).

Declare Scope store_scope.
Delimit Scope store_scope with store.
Notation "x <- m ;; k" := (bind m (fun x => k))
  (at level 100, m at level 99, k at level 200, right associativity) : store_scope.
Notation "m ;; k" := (bind m (fun _ => k))
  (at level 100, k at level 200, right associativity) : store_scope.

Local Open Scope store_scope.

(** ** Setters of the store's fields *)

Definition set_cache_st (c : option PlayerData) (ts : Z) (s : Store) : Store :=
  mkStore (st_heap s) (st_next s) (st_default_time s) c ts
          (st_durable s) (st_pending s) (st_store_ok s) (st_now s).

Definition set_heap_st (h : gmap N (list string)) (n : loc) (s : Store) : Store :=
  mkStore h n (st_default_time s) (st_cache s) (st_cacheTimestamp s)
          (st_durable s) (st_pending s) (st_store_ok s) (st_now s).

Definition set_slot_st (d : option Blob) (pend : list Blob) (s : Store) : Store :=
  mkStore (st_heap s) (st_next s) (st_default_time s) (st_cache s) (st_cacheTimestamp s)
          d pend (st_store_ok s) (st_now s).

(** ** The collaborators: clock, heap, AsyncStorage *)

(** [Date.now()] *)
Definition now_ms : M Z := gets st_now.

(** [playerDataCache = p; cacheTimestamp = ts] *)
Definition set_cache (p : PlayerData) (ts : Z) : M unit := modify (set_cache_st (Some p) ts).

(** A new array object (an array literal, or one [JSON.parse] builds). *)
Definition alloc (l : list string) : M loc :=
  fun s => Done (st_next s)
             (set_heap_st (<[st_next s := l]> (st_heap s)) (N.succ (st_next s)) s).

Definition read_array (a : loc) : M (list string) :=
  gets (fun s => default [] (st_heap s !! a)).

Definition write_array (a : loc) (l : list string) : M unit :=
  modify (fun s => set_heap_st (<[a := l]> (st_heap s)) (st_next s) s).

(** AsyncStorage handles calls in the order they were made: before a
    call is served, the writes issued earlier complete, each landing in
    the slot when the store works and rejected otherwise. *)
Definition complete_writes (s : Store) : Store :=
  set_slot_st (if st_store_ok s then
                 match last (st_pending s) with Some b => Some b | None => st_durable s end
               else st_durable s) [] s.

(** [await AsyncStorage.getItem(key)] *)
Definition kv_getItem : M (option Blob) :=
  fun s => let s' := complete_writes s in
           if st_store_ok s' then Done (st_durable s') s' else Thrown EStoreRead s'.

(** [AsyncStorage.setItem(key, text)] without [await]: the write is issued
    and completes later; a rejection is never observed by the caller. *)
Definition kv_setItem_async (b : Blob) : M unit :=
  modify (fun s => set_slot_st (st_durable s) (st_pending s ++ [b]) s).

(** [await AsyncStorage.setItem(key, text)] *)
Definition kv_setItem_await (b : Blob) : M unit :=
  fun s => let s' := complete_writes (set_slot_st (st_durable s) (st_pending s ++ [b]) s) in
           if st_store_ok s' then Done tt s' else Thrown EStoreWrite s'.

(** ** Records, spreads and [JSON.stringify] *)

(** [x || d] on a number field: a missing field or [0] gives [d]. *)
Definition js_or (o : option Z) (d : Z) : Z :=
  match o with Some z => if Z.eqb z 0 then d else z | None => d end.

(** A field of a spread [{...a, ...b}]: [b]'s when present. *)
Definition opt_or {A} (o : option A) (d : A) : A :=
  match o with Some a => a | None => d end.

(** A whole record passed where a [Partial<PlayerData>] is expected. *)
Definition partial_of (p : PlayerData) : PartialData :=
  mkPartialData (Some (currentLevel p)) (Some (totalXP p)) (Some (levelsCompleted p))
    (Some (achievements p)) (Some (character p)) (Some (lastPlayed p)) (Some (createdAt p)).

Definition no_fields : PartialData := mkPartialData None None None None None None None.

(** [{ ...current, ...data, lastPlayed: now }] (savePlayerData, lines 74-78) *)
Definition merge_partial (current : PlayerData) (data : PartialData) (now : Z) : PlayerData := {|
  currentLevel := opt_or (p_currentLevel data) (currentLevel current);
  totalXP := opt_or (p_totalXP data) (totalXP current);
  levelsCompleted := opt_or (p_levelsCompleted data) (levelsCompleted current);
  achievements := opt_or (p_achievements data) (achievements current);
  character := opt_or (p_character data) (character current);
  lastPlayed := now;
  createdAt := opt_or (p_createdAt data) (createdAt current)
|}.

(** Lines 81-83: the clamps of [savePlayerData]. *)
Definition clamp_record (p : PlayerData) : PlayerData := {|
  currentLevel := js_clamp 1 1000 (currentLevel p);
  totalXP := Z.max 0 (totalXP p);
  levelsCompleted := js_clamp 0 1000 (levelsCompleted p);
  achievements := achievements p;
  character := character p;
  lastPlayed := lastPlayed p;
  createdAt := createdAt p
|}.

(** [JSON.stringify(p)]: the text records the array's current contents. *)
Definition stringify (p : PlayerData) : M Blob :=
  arr <- read_array (achievements p) ;;
  ret (BRecord (mkStoredRecord (Some (currentLevel p)) (Some (totalXP p))
         (Some (levelsCompleted p)) (Some arr) (Some (character p))
         (Some (lastPlayed p)) (Some (createdAt p)))).

(** The array [JSON.parse] builds for a present [achievements] field;
    when it is missing the spread keeps [DEFAULT_PLAYER_DATA]'s array. *)
Definition parse_achievements (o : option (list string)) : M loc :=
  match o with Some l => alloc l | None => ret default_loc end.

(** [{ ...DEFAULT_PLAYER_DATA, ...parsedData, currentLevel: Math.min(
    parsedData.currentLevel || 1, (parsedData.levelsCompleted || 0) + 1) }]
    (getPlayerData, lines 45-50) *)
Definition validate_stored (dflt : PlayerData) (r : StoredRecord) (arr : loc) : PlayerData := {|
  currentLevel := Z.min (js_or (s_currentLevel r) 1) (js_or (s_levelsCompleted r) 0 + 1);
  totalXP := opt_or (s_totalXP r) (totalXP dflt);
  levelsCompleted := opt_or (s_levelsCompleted r) (levelsCompleted dflt);
  achievements := arr;
  character := opt_or (s_character r) (character dflt);
  lastPlayed := opt_or (s_lastPlayed r) (lastPlayed dflt);
  createdAt := opt_or (s_createdAt r) (createdAt dflt)
|}.

(** [{ ...DEFAULT_PLAYER_DATA, ...data, currentLevel: ..., levelsCompleted:
    ..., totalXP: ... }] (importData, lines 156-162) *)
Definition validate_import (dflt : PlayerData) (r : StoredRecord) (arr : loc) : PlayerData := {|
  currentLevel := js_clamp 1 1000 (js_or (s_currentLevel r) 1);
  totalXP := Z.max 0 (js_or (s_totalXP r) 0);
  levelsCompleted := js_clamp 0 1000 (js_or (s_levelsCompleted r) 0);
  achievements := arr;
  character := opt_or (s_character r) (character dflt);
  lastPlayed := opt_or (s_lastPlayed r) (lastPlayed dflt);
  createdAt := opt_or (s_createdAt r) (createdAt dflt)
|}.

(** ** The operations of [GameStorage] *)

(** [getPlayerData] (lines 33-69) and [savePlayerData] (lines 71-94)
    call each other; each call spends one unit of [fuel], so [OutOfFuel]
    marks a recursion deeper than the fuel given. *)
Fixpoint getPlayerData (fuel : nat) : M PlayerData :=
  match fuel with
  | O => out_of_fuel
  | S f =>
      catch (
        now <- now_ms ;;
        cache <- gets st_cache ;;
        ts <- gets st_cacheTimestamp ;;
        let fetch :=
          data <- kv_getItem ;;
          match data with
          | Some (BRecord parsed) =>
              arr <- parse_achievements (s_achievements parsed) ;;
              dflt <- gets DEFAULT_PLAYER_DATA ;;
              let validated := validate_stored dflt parsed arr in
              set_cache validated now ;;
              ret validated
          | Some BUnparsable => throw EParse
          | None =>
              dflt <- gets DEFAULT_PLAYER_DATA ;;
              savePlayerData f (partial_of dflt) ;;
              set_cache dflt now ;;
              ret dflt
          end in
        match cache with
        | Some p => if now - ts <? CACHE_DURATION then ret p else fetch
        | None => fetch
        end)
      (fun _ => gets DEFAULT_PLAYER_DATA)
  end
with savePlayerData (fuel : nat) (data : PartialData) : M unit :=
  match fuel with
  | O => out_of_fuel
  | S f =>
      catch (
        cache <- gets st_cache ;;
        currentData <- (match cache with Some p => ret p | None => getPlayerData f end) ;;
        now <- now_ms ;;
        let updatedData := clamp_record (merge_partial currentData data now) in
        set_cache updatedData now ;;
        text <- stringify updatedData ;;
        kv_setItem_async text)
      (fun _ => ret tt)
  end.

(** [playerDataCache || await this.getPlayerData()] *)
Definition cached_or_get (fuel : nat) : M PlayerData :=
  cache <- gets st_cache ;;
  match cache with Some p => ret p | None => getPlayerData fuel end.

(** [resetProgress] (lines 96-113): the reset record is a spread of
    [DEFAULT_PLAYER_DATA], so it shares its [achievements] array. *)
Definition resetProgress (fuel : nat) : M unit :=
  catch (
    currentData <- cached_or_get fuel ;;
    dflt <- gets DEFAULT_PLAYER_DATA ;;
    let resetData := {| currentLevel := currentLevel dflt; totalXP := totalXP dflt;
                        levelsCompleted := levelsCompleted dflt; achievements := achievements dflt;
                        character := character currentData; lastPlayed := lastPlayed dflt;
                        createdAt := createdAt currentData |} in
    now <- now_ms ;;
    set_cache resetData now ;;
    text <- stringify resetData ;;
    kv_setItem_await text)
  (fun _ => ret tt).

(** [addAchievement] (lines 115-125): [push] mutates the array the record
    returned by [getPlayerData] refers to. *)
Definition addAchievement (fuel : nat) (achievementId : string) : M unit :=
  catch (
    data <- getPlayerData fuel ;;
    arr <- read_array (achievements data) ;;
    if bool_decide (achievementId ∈ arr) then ret tt
    else write_array (achievements data) (arr ++ [achievementId]) ;;
         savePlayerData fuel (mkPartialData None None None (Some (achievements data)) None None None))
  (fun _ => ret tt).

(** [updateLevel] (lines 127-140) *)
Definition updateLevel (fuel : nat) (level xpGained : Z) : M unit :=
  catch (
    data <- getPlayerData fuel ;;
    now <- now_ms ;;
    savePlayerData fuel
      (mkPartialData (Some (Z.max level (currentLevel data))) (Some (totalXP data + xpGained))
         (Some (Z.max (level - 1) (levelsCompleted data))) None None (Some now) None))
  (fun _ => ret tt).

(** [exportData] (lines 142-150): the record's text, or ['{}']. *)
Definition exportData (fuel : nat) : M Blob :=
  catch (
    data <- getPlayerData fuel ;;
    stringify data)
  (fun _ => ret (BRecord empty_record)).

(** [importData] (lines 152-169) *)
Definition importData (fuel : nat) (jsonData : Blob) : M bool :=
  catch (
    match jsonData with
    | BUnparsable => throw EParse
    | BRecord data =>
        arr <- parse_achievements (s_achievements data) ;;
        dflt <- gets DEFAULT_PLAYER_DATA ;;
        savePlayerData fuel (partial_of (validate_import dflt data arr)) ;;
        ret true
    end)
  (fun _ => ret false).

(** [unlockLevel] (lines 171-183) *)
Definition unlockLevel (fuel : nat) (level : Z) : M unit :=
  catch (
    data <- getPlayerData fuel ;;
    if level <=? levelsCompleted data + 1 then
      savePlayerData fuel (mkPartialData (Some level) None
        (Some (Z.max (levelsCompleted data) (level - 1))) None None None None)
    else ret tt)
  (fun _ => ret tt).

(** [clearCache] (lines 186-189) *)
Definition clearCache : M unit := modify (set_cache_st None 0).

(** ** The environment *)

(** Time passes. *)
Definition tick (d : Z) (s : Store) : Store :=
  mkStore (st_heap s) (st_next s) (st_default_time s) (st_cache s) (st_cacheTimestamp s)
          (st_durable s) (st_pending s) (st_store_ok s) (st_now s + d).

(** The process stops before the issued writes complete and the app
    starts again: memory is fresh, the slot keeps what had landed. *)
Definition restart (s : Store) : Store :=
  mkStore {[default_loc := []]} 1%N (st_now s) None 0 (st_durable s) [] (st_store_ok s) (st_now s).

(** A process that has just loaded the module, with [slot] in storage. *)
Definition boot (slot : option Blob) (now : Z) : Store :=
  mkStore {[default_loc := []]} 1%N now None 0 slot [] true now.

End Storage.

(** ** Properties of the operations *)

Import Storage.

Module StorageProps.

Local Open Scope Z_scope.
Local Open Scope store_scope.

(** A first launch: nothing cached, nothing stored, no write in flight,
    and a working store. *)
Definition first_launch (s : Store) : Prop :=
  st_cache s = None /\ st_durable s = None /\ st_pending s = [] /\ st_store_ok s = true.

(** The cache holds nothing usable: empty, or older than the window. *)
Definition cache_stale (s : Store) : Prop :=
  match st_cache s with None => True | Some _ => CACHE_DURATION <= st_now s - st_cacheTimestamp s end.

(** The counters of a record lie in the ranges the clamps keep. *)
Definition counters_in_range (p : PlayerData) : Prop :=
  1 <= currentLevel p <= 1000 /\ 0 <= levelsCompleted p <= 1000 /\ 0 <= totalXP p.

(** [s] with its fields listed, so that the operations compute on it. *)
Ltac destruct_store s :=
  let h := fresh "heap" in let n := fresh "next" in let dt := fresh "dtime" in
  let c := fresh "cache" in let ts := fresh "ts" in let d := fresh "slot" in
  let p := fresh "pend" in let ok := fresh "ok" in let now := fresh "now" in
  destruct s as [h n dt c ts d p ok now].

(** [mrun] runs the monadic code of the store on a state whose fields are
    known: it unfolds the monad, the primitives and the setters. *)
Ltac mrun :=
  cbn [getPlayerData savePlayerData];
  cbv beta iota zeta delta [catch bind ret throw gets modify out_of_fuel now_ms
       set_cache kv_getItem kv_setItem_async kv_setItem_await complete_writes
       set_cache_st set_slot_st set_heap_st alloc read_array write_array stringify
       parse_achievements cached_or_get tick restart];
  cbn [st_heap st_next st_default_time st_cache st_cacheTimestamp st_durable st_pending
       st_store_ok st_now last].

(** On a first launch the two methods recurse until the fuel runs out. *)
Lemma first_launch_out_of_fuel (fuel : nat) (s : Store) :
  first_launch s ->
  getPlayerData fuel s = OutOfFuel /\ (forall d, savePlayerData fuel d s = OutOfFuel).
Proof.
  revert s. induction fuel as [|f IH]; intros s Hs; [done|].
  destruct_store s. destruct Hs as (Hc & Hd & Hp & Hok); simpl in Hc, Hd, Hp, Hok; subst.
  assert (Hfl : first_launch (mkStore heap next dtime None ts None [] true now)) by (by repeat split).
  split; [|intros d]; mrun.
  - by rewrite (proj2 (IH _ Hfl)).
  - by rewrite (proj1 (IH _ Hfl)).
Qed.

(** C1: on a first launch [getPlayerData] finds no data and saves the
    default record; [savePlayerData] finds no cached record and calls
    [getPlayerData], which still finds no data: the two call each other
    forever, so no amount of fuel gives a result.  Both functions, and so
    every screen's first load, never return on a fresh install. *)
Theorem first_launch_diverges (fuel : nat) (s : Store) :
  first_launch s ->
  getPlayerData fuel s = OutOfFuel /\ (forall d, savePlayerData fuel d s = OutOfFuel).
Proof. exact (first_launch_out_of_fuel fuel s). Qed.

(** The store's answer to [getItem] is empty only when nothing is stored
    and no write is in flight. *)
Lemma complete_writes_empty (s : Store) :
  st_store_ok s = true -> st_durable (complete_writes s) = None ->
  st_durable s = None /\ st_pending s = [].
Proof.
  destruct_store s. simpl. intros ->. destruct (last pend) eqn:E; [done|].
  intros ->. split; [done|]. by apply last_None.
Qed.

(** In every state but a first launch, [getPlayerData] returns
    (or throws and recovers) within two nested calls, and more fuel gives
    the same result: fuel 2 is exact. *)
Theorem getPlayerData_terminates (n : nat) (s : Store) :
  ~ first_launch s ->
  getPlayerData (S (S n)) s = getPlayerData 2 s /\ getPlayerData 2 s <> OutOfFuel.
Proof.
  intros Hnf. destruct_store s. unfold first_launch in Hnf; simpl in Hnf.
  destruct cache as [p|].
  - mrun. repeat case_match; simplify_eq; split; first [reflexivity|discriminate].
  - assert (Hslot : ok = false \/ (exists b, last pend = Some b) \/
                    (pend = [] /\ exists b, slot = Some b)).
    { destruct ok; [|by left]. destruct (last pend) eqn:E; [right; left; eauto|].
      apply last_None in E as ->. destruct slot; [right; right; eauto|].
      exfalso. by apply Hnf. }
    destruct Hslot as [->|[[b Hb]|[-> [b ->]]]]; mrun; try rewrite Hb;
      repeat case_match; simplify_eq; split; first [reflexivity|discriminate].
Qed.

(** [getPlayerData] never throws: its [catch] turns every error into the
    default record, so it returns or runs out of fuel. *)
Lemma catch_gets_outcome {A} (m : M A) (d : Store -> A) (s : Store) :
  catch m (fun _ => gets d) s = OutOfFuel \/ exists a s', catch m (fun _ => gets d) s = Done a s'.
Proof. unfold catch, gets. destruct (m s); eauto. Qed.

Lemma getPlayerData_outcome (f : nat) (s : Store) :
  getPlayerData f s = OutOfFuel \/ exists p s', getPlayerData f s = Done p s'.
Proof. destruct f as [|f]; [by left | apply catch_gets_outcome].
Qed.

(** Outside a first launch [getPlayerData] returns with fuel 2, and the
    store it leaves is not a first launch either: a fetch caches the
    record it read, or completes the writes in flight. *)
Lemma getPlayerData_live (s : Store) :
  ~ first_launch s -> exists p s', getPlayerData 2 s = Done p s' /\ ~ first_launch s'.
Proof.
  intros Hnf. destruct_store s. unfold first_launch in *; cbn in Hnf.
  destruct cache as [p|].
  - mrun. repeat case_match; simplify_eq; eexists _, _; (split; [reflexivity|]); cbn; intuition congruence.
  - assert (Hslot : ok = false \/ (exists b, last pend = Some b) \/
                    (pend = [] /\ exists b, slot = Some b)).
    { destruct ok; [|by left]. destruct (last pend) eqn:E; [right; left; eauto|].
      apply last_None in E as ->. destruct slot; [right; right; eauto|].
      exfalso. by apply Hnf. }
    destruct Hslot as [->|[[b Hb]|[-> [b ->]]]]; mrun; try rewrite Hb;
      repeat case_match; simplify_eq; eexists _, _; (split; [reflexivity|]); cbn; intuition congruence.
Qed.

(** C29: [savePlayerData] updates the cache at once; a [getPlayerData]
    less than five seconds later returns the merged and clamped record from
    the cache, without touching the storage (the state is unchanged). *)
Theorem save_then_get_cache_hit (f g : nat) (s : Store) (p : PlayerData) (d : PartialData) (dt : Z) :
  st_cache s = Some p -> 0 <= dt < CACHE_DURATION ->
  let u := clamp_record (merge_partial p d (st_now s)) in
  exists s', savePlayerData (S f) d s = Done tt s' /\ st_cache s' = Some u /\
    getPlayerData (S g) (tick dt s') = Done u (tick dt s').
Proof.
  intros Hc Hdt u. destruct_store s. simpl in Hc. subst cache.
  eexists. split; [mrun; reflexivity|]. split; [reflexivity|].
  mrun. rewrite (proj2 (Z.ltb_lt _ _)) by (unfold CACHE_DURATION in *; lia). reflexivity.
Qed.

(** C30: with no usable cache, [getPlayerData] reads the stored record,
    fills the missing fields from the defaults, lowers [currentLevel] to at
    most [levelsCompleted + 1], caches the result and returns it.  It does
    not clamp the counters to [[0, 1000]]. *)
Theorem getPlayerData_reads_stored (f : nat) (s : Store) (r : StoredRecord) :
  cache_stale s -> st_store_ok s = true -> st_durable (complete_writes s) = Some (BRecord r) ->
  exists v s', getPlayerData (S f) s = Done v s' /\ st_cache s' = Some v /\
    currentLevel v = Z.min (js_or (s_currentLevel r) 1) (js_or (s_levelsCompleted r) 0 + 1) /\
    levelsCompleted v = opt_or (s_levelsCompleted r) 0 /\
    totalXP v = opt_or (s_totalXP r) 0 /\
    currentLevel v <= levelsCompleted v + 1.
Proof.
  intros Hst Hok Hd. destruct_store s. unfold cache_stale in Hst. simpl in *. subst ok.
  destruct cache as [p|]; mrun;
    [destruct (Z.ltb_spec (now - ts) CACHE_DURATION); [lia|]; mrun|];
    rewrite Hd; mrun; destruct (s_achievements r); mrun;
    eexists _, _; (split; [reflexivity|]); cbn; split_and!; try reflexivity;
    destruct (s_levelsCompleted r) as [[]|]; cbn; lia.
Qed.

(** [resetProgress] caches the default record with the player's
    [character] and [createdAt]; its [achievements] is the default record's
    own array, whatever that array holds now. *)
Theorem resetProgress_spec (f : nat) (s : Store) (p : PlayerData) :
  st_cache s = Some p ->
  exists s', resetProgress f s = Done tt s' /\ st_heap s' = st_heap s /\
    st_cache s' = Some {| currentLevel := 1; totalXP := 0; levelsCompleted := 0;
                          achievements := default_loc; character := character p;
                          lastPlayed := st_default_time s; createdAt := createdAt p |}.
Proof.
  intros Hc. destruct_store s. simpl in Hc. subst cache. unfold resetProgress. mrun.
  destruct ok; cbn; eexists; (split; [reflexivity|]); split; reflexivity.
Qed.

(** An import text that does not parse returns [false] and
    changes nothing. *)
Theorem importData_unparsable (fuel : nat) (s : Store) :
  importData fuel BUnparsable s = Done false s.
Proof. reflexivity. Qed.

(** With a cached record, [importData] of an object text returns
    [true] and caches the imported values with [currentLevel] clamped to
    [[1, 1000]], [levelsCompleted] to [[0, 1000]] and [totalXP] to [>= 0];
    nothing relates [currentLevel] to [levelsCompleted]. *)
Theorem importData_record (f : nat) (s : Store) (p : PlayerData) (r : StoredRecord) :
  st_cache s = Some p ->
  exists s' q, importData (S f) (BRecord r) s = Done true s' /\ st_cache s' = Some q /\
    currentLevel q = js_clamp 1 1000 (js_or (s_currentLevel r) 1) /\
    levelsCompleted q = js_clamp 0 1000 (js_or (s_levelsCompleted r) 0) /\
    totalXP q = Z.max 0 (js_or (s_totalXP r) 0).
Proof.
  intros Hc. destruct_store s. simpl in Hc. subst cache. unfold importData. mrun.
  destruct (s_achievements r); cbn; do 2 eexists; (split; [reflexivity|]); (split; [reflexivity|]);
    cbn; split_and!; unfold js_clamp; lia.
Qed.

(** With a fresh cached record, [unlockLevel(level)] does nothing
    when [level > levelsCompleted + 1]; otherwise it caches [currentLevel =
    level] and [levelsCompleted = max(levelsCompleted, level - 1)], both
    clamped. *)
Theorem unlockLevel_spec (f : nat) (s : Store) (p : PlayerData) (level : Z) :
  st_cache s = Some p -> st_now s - st_cacheTimestamp s < CACHE_DURATION ->
  (levelsCompleted p + 1 < level -> unlockLevel (S f) level s = Done tt s) /\
  (level <= levelsCompleted p + 1 -> exists s' q, unlockLevel (S f) level s = Done tt s' /\
     st_cache s' = Some q /\ currentLevel q = js_clamp 1 1000 level /\
     levelsCompleted q = js_clamp 0 1000 (Z.max (levelsCompleted p) (level - 1))).
Proof.
  intros Hc Hfresh. destruct_store s. simpl in *. subst cache. unfold unlockLevel. mrun.
  rewrite (proj2 (Z.ltb_lt _ _)) by done. split; intros Hl.
  - by rewrite (proj2 (Z.leb_gt _ _)) by lia.
  - rewrite (proj2 (Z.leb_le _ _)) by lia. mrun. do 2 eexists. split; [reflexivity|]. by split.
Qed.

(** C28: once the cached record shares [DEFAULT_PLAYER_DATA]'s
    [achievements] array (as it does after every [resetProgress]), an
    [addAchievement] within the cache window pushes into that shared array,
    and the next [resetProgress] caches (and writes) a "reset" record whose
    achievements still contain the new one. *)
Theorem reset_keeps_added_achievement (f : nat) (s : Store) (p : PlayerData) (a : string) :
  st_cache s = Some p -> achievements p = default_loc ->
  st_now s - st_cacheTimestamp s < CACHE_DURATION ->
  a ∉ default [] (st_heap s !! default_loc) ->
  exists s1, addAchievement (S f) a s = Done tt s1 /\ exists s2 q, resetProgress (S f) s1 = Done tt s2 /\
    st_cache s2 = Some q /\ achievements q = default_loc /\
    st_heap s2 !! default_loc = Some (default [] (st_heap s !! default_loc) ++ [a]).
Proof.
  intros Hc Hach Hfresh Hnew. destruct_store s. simpl in *. subst cache.
  unfold addAchievement. mrun. rewrite (proj2 (Z.ltb_lt _ _)) by done. mrun.
  rewrite Hach, bool_decide_eq_false_2 by done. mrun.
  eexists. split; [reflexivity|].
  match goal with
  | |- exists s2 q, resetProgress _ ?S1 = _ /\ _ =>
      destruct (resetProgress_spec (S f) S1 _ eq_refl) as (s2 & Hr & Hh & Hc2)
  end.
  do 2 eexists. split; [exact Hr|]. split; [exact Hc2|].
  split; [reflexivity|]. rewrite Hh. cbn. by rewrite lookup_insert_eq.
Qed.

(** C31: [savePlayerData] does not wait for its write: the record is
    only in flight, so a restart before the write completes finds the slot
    as it was, and the update is lost; once completed with a working store,
    the write is what the slot holds. *)
Theorem save_lost_on_restart (f : nat) (s : Store) (p : PlayerData) (d : PartialData) :
  st_cache s = Some p -> st_pending s = [] ->
  exists s' b, savePlayerData (S f) d s = Done tt s' /\ st_pending s' = [b] /\
    st_durable (restart s') = st_durable s /\
    (st_store_ok s = true -> st_durable (complete_writes s') = Some b).
Proof.
  intros Hc Hp. destruct_store s. simpl in *. subst cache pend. mrun.
  do 2 eexists. split; [reflexivity|]. split; [reflexivity|]. split; [reflexivity|].
  intros ->. reflexivity.
Qed.

(** C25: when the store fails and the cache holds nothing usable,
    [getPlayerData] does not throw: it returns [DEFAULT_PLAYER_DATA] and
    leaves the cache as it was (the writes in flight are rejected). *)
Theorem getPlayerData_read_failure (f : nat) (s : Store) :
  cache_stale s -> st_store_ok s = false ->
  getPlayerData (S f) s = Done (DEFAULT_PLAYER_DATA s) (complete_writes s).
Proof.
  intros Hst Hok. destruct_store s. unfold cache_stale in Hst. simpl in *. subst ok.
  destruct cache as [p|]; mrun; [|reflexivity].
  destruct (Z.ltb_spec (now - ts) CACHE_DURATION); [lia|]. mrun. reflexivity.
Qed.

(** C24: [exportData] never reaches its ['{}'] fallback on a read
    failure: [getPlayerData] recovers first, so the export is the text of
    the default record. *)
Theorem exportData_read_failure (f : nat) (s : Store) :
  cache_stale s -> st_store_ok s = false ->
  exportData (S f) s =
    Done (BRecord (mkStoredRecord (Some 1) (Some 0) (Some 0) (Some (default [] (st_heap s !! default_loc)))
                     (Some Levels.Wizard) (Some (st_default_time s)) (Some (st_default_time s))))
         (complete_writes s).
Proof.
  intros Hst Hok. destruct_store s. unfold cache_stale in Hst. simpl in *. subst ok.
  unfold exportData. destruct cache as [p|]; mrun; [|reflexivity].
  destruct (Z.ltb_spec (now - ts) CACHE_DURATION); [lia|]. mrun. reflexivity.
Qed.

(** C23: exporting a fresh cached record whose counters are in range and
    importing the text gives back its level, XP, completed levels,
    character, creation time and achievements (in a new array);
    [lastPlayed] becomes the time of the import. *)
Theorem export_import_roundtrip (f : nat) (s : Store) (p : PlayerData) :
  st_cache s = Some p -> st_now s - st_cacheTimestamp s < CACHE_DURATION -> counters_in_range p ->
  exists b s1 s2 q, exportData (S f) s = Done b s1 /\ importData (S f) b s1 = Done true s2 /\
    st_cache s2 = Some q /\
    currentLevel q = currentLevel p /\ totalXP q = totalXP p /\
    levelsCompleted q = levelsCompleted p /\ character q = character p /\
    createdAt q = createdAt p /\ lastPlayed q = st_now s /\
    default [] (st_heap s2 !! achievements q) = default [] (st_heap s !! achievements p).
Proof.
  intros Hc Hfresh (Hcl & Hlc & Hxp). destruct_store s. simpl in *. subst cache.
  unfold exportData, importData. mrun. rewrite (proj2 (Z.ltb_lt _ _)) by exact Hfresh. mrun.
  do 4 eexists. split; [reflexivity|]. split; [reflexivity|]. split; [reflexivity|].
  unfold js_or. split_and!; cbn; destruct_Zcmp; try clamp_lia; try done.
  by rewrite lookup_insert_eq.
Qed.

(** ** Witnesses *)

(** A running app whose cache holds the default record (fresh at time 0). *)
#[local] Abbreviation demo_store :=
  (mkStore {[default_loc := []]} 1%N 0 (Some (DEFAULT_PLAYER_DATA (boot None 0))) 0 None [] true 0).

(** The stored record of the spec's example: level 7 with 3 levels done. *)
#[local] Abbreviation rec_7_3 :=
  (mkStoredRecord (Some 7) (Some 120) (Some 3) (Some []) (Some Levels.Spy) (Some 5) (Some 1)).

Lemma first_launch_diverges_witness :
  first_launch (boot None 0) /\
  (getPlayerData 1000 (boot None 0) = OutOfFuel /\
   forall d, savePlayerData 1000 d (boot None 0) = OutOfFuel).
Proof. split; [by repeat split|]. apply first_launch_diverges. by repeat split. Defined.

Lemma getPlayerData_terminates_witness :
  ~ first_launch (boot (Some (BRecord rec_7_3)) 0) /\
  (getPlayerData 7 (boot (Some (BRecord rec_7_3)) 0) = getPlayerData 2 (boot (Some (BRecord rec_7_3)) 0) /\
   getPlayerData 2 (boot (Some (BRecord rec_7_3)) 0) <> OutOfFuel).
Proof.
  assert (H : ~ first_launch (boot (Some (BRecord rec_7_3)) 0)) by (intros (_ & Hd & _); discriminate).
  split; [exact H|]. apply (getPlayerData_terminates 5). exact H.
Defined.

Lemma save_then_get_cache_hit_witness :
  (st_cache demo_store = Some (DEFAULT_PLAYER_DATA (boot None 0)) /\ 0 <= 1000 < CACHE_DURATION) /\
  let d := mkPartialData None (Some 50) None None None None None in
  let u := clamp_record (merge_partial (DEFAULT_PLAYER_DATA (boot None 0)) d (st_now demo_store)) in
  totalXP u = 50 /\
  exists s', savePlayerData 1 d demo_store = Done tt s' /\ st_cache s' = Some u /\
    getPlayerData 1 (tick 1000 s') = Done u (tick 1000 s').
Proof.
  split; [split; [reflexivity|unfold CACHE_DURATION; lia]|]. split; [reflexivity|].
  apply (save_then_get_cache_hit 0 0 demo_store); [reflexivity|unfold CACHE_DURATION; lia].
Defined.

Lemma getPlayerData_reads_stored_witness :
  (cache_stale (boot (Some (BRecord rec_7_3)) 0) /\
   st_store_ok (boot (Some (BRecord rec_7_3)) 0) = true /\
   st_durable (complete_writes (boot (Some (BRecord rec_7_3)) 0)) = Some (BRecord rec_7_3)) /\
  exists v s', getPlayerData 1 (boot (Some (BRecord rec_7_3)) 0) = Done v s' /\ st_cache s' = Some v /\
    currentLevel v = Z.min (js_or (Some 7) 1) (js_or (Some 3) 0 + 1) /\
    levelsCompleted v = opt_or (Some 3) 0 /\ totalXP v = opt_or (Some 120) 0 /\
    currentLevel v <= levelsCompleted v + 1.
Proof.
  split; [split_and!; reflexivity|].
  apply (getPlayerData_reads_stored 0 _ rec_7_3); reflexivity.
Defined.

Lemma resetProgress_spec_witness :
  st_cache demo_store = Some (DEFAULT_PLAYER_DATA (boot None 0)) /\
  exists s', resetProgress 3 demo_store = Done tt s' /\ st_heap s' = st_heap demo_store /\
    st_cache s' = Some {| currentLevel := 1; totalXP := 0; levelsCompleted := 0;
                          achievements := default_loc;
                          character := character (DEFAULT_PLAYER_DATA (boot None 0));
                          lastPlayed := st_default_time demo_store;
                          createdAt := createdAt (DEFAULT_PLAYER_DATA (boot None 0)) |}.
Proof. split; [reflexivity|]. by apply (resetProgress_spec 3 demo_store). Defined.

Lemma importData_record_witness :
  st_cache demo_store = Some (DEFAULT_PLAYER_DATA (boot None 0)) /\
  exists s' q, importData 1 (BRecord (mkStoredRecord (Some 5000) None None None None None None)) demo_store
      = Done true s' /\ st_cache s' = Some q /\
    currentLevel q = js_clamp 1 1000 (js_or (Some 5000) 1) /\
    levelsCompleted q = js_clamp 0 1000 (js_or None 0) /\
    totalXP q = Z.max 0 (js_or None 0).
Proof. split; [reflexivity|]. by apply (importData_record 0 demo_store (DEFAULT_PLAYER_DATA (boot None 0))). Defined.

Lemma unlockLevel_spec_witness :
  (st_cache demo_store = Some (DEFAULT_PLAYER_DATA (boot None 0)) /\
   st_now demo_store - st_cacheTimestamp demo_store < CACHE_DURATION) /\
  ((0 + 1 < 10 -> unlockLevel 1 10 demo_store = Done tt demo_store) /\
   (10 <= 0 + 1 -> exists s' q, unlockLevel 1 10 demo_store = Done tt s' /\
      st_cache s' = Some q /\ currentLevel q = js_clamp 1 1000 10 /\
      levelsCompleted q = js_clamp 0 1000 (Z.max 0 (10 - 1)))).
Proof.
  split; [split; [reflexivity|unfold CACHE_DURATION; simpl; lia]|].
  apply (unlockLevel_spec 0 demo_store (DEFAULT_PLAYER_DATA (boot None 0)) 10);
    [reflexivity|unfold CACHE_DURATION; simpl; lia].
Defined.

Lemma reset_keeps_added_achievement_witness :
  (st_cache demo_store = Some (DEFAULT_PLAYER_DATA (boot None 0)) /\
   achievements (DEFAULT_PLAYER_DATA (boot None 0)) = default_loc /\
   st_now demo_store - st_cacheTimestamp demo_store < CACHE_DURATION /\
   "first_level"%string ∉ default [] (st_heap demo_store !! default_loc)) /\
  exists s1, addAchievement 1 "first_level" demo_store = Done tt s1 /\
    exists s2 q, resetProgress 1 s1 = Done tt s2 /\
    st_cache s2 = Some q /\ achievements q = default_loc /\
    st_heap s2 !! default_loc = Some (default [] (st_heap demo_store !! default_loc) ++ ["first_level"%string]).
Proof.
  assert (Hn : "first_level"%string ∉ default [] (st_heap demo_store !! default_loc)).
  { change (default [] (st_heap demo_store !! default_loc)) with (@nil string). apply not_elem_of_nil. }
  split; [split_and!; [reflexivity|reflexivity|unfold CACHE_DURATION; simpl; lia|exact Hn]|].
  apply (reset_keeps_added_achievement 0 demo_store (DEFAULT_PLAYER_DATA (boot None 0)));
    [reflexivity|reflexivity|unfold CACHE_DURATION; simpl; lia|exact Hn].
Defined.

Lemma save_lost_on_restart_witness :
  (st_cache demo_store = Some (DEFAULT_PLAYER_DATA (boot None 0)) /\ st_pending demo_store = []) /\
  exists s' b, savePlayerData 1 (mkPartialData (Some 2) None (Some 1) None None None None) demo_store
      = Done tt s' /\ st_pending s' = [b] /\
    st_durable (restart s') = st_durable demo_store /\
    (st_store_ok demo_store = true -> st_durable (complete_writes s') = Some b).
Proof. split; [split; reflexivity|]. by apply (save_lost_on_restart 0 demo_store (DEFAULT_PLAYER_DATA (boot None 0))). Defined.

(** A running app whose store fails, with a cache older than the window
    and a write in flight. *)
#[local] Abbreviation failing_store :=
  (mkStore {[default_loc := ["first_steps"]]} 1%N 0 (Some (DEFAULT_PLAYER_DATA (boot None 0))) 0
           (Some (BRecord rec_7_3)) [BUnparsable] false 9000).

(** A player at level 7 with 640 XP, whose achievements array is at 1. *)
#[local] Abbreviation played_store :=
  (mkStore {[default_loc := []; 1%N := ["first_steps"; "level_5"]]} 2%N 0
           (Some (mkPlayerData 7 640 6 1%N Levels.Spy 1500 10)) 1000 None [] true 2000).

Lemma getPlayerData_read_failure_witness :
  (cache_stale failing_store /\ st_store_ok failing_store = false) /\
  getPlayerData 3 failing_store = Done (DEFAULT_PLAYER_DATA failing_store) (complete_writes failing_store).
Proof.
  split; [split; [unfold cache_stale, CACHE_DURATION; simpl; lia | reflexivity]|].
  apply (getPlayerData_read_failure 2); [unfold cache_stale, CACHE_DURATION; simpl; lia | reflexivity].
Defined.

Lemma exportData_read_failure_witness :
  (cache_stale failing_store /\ st_store_ok failing_store = false) /\
  exportData 3 failing_store =
    Done (BRecord (mkStoredRecord (Some 1) (Some 0) (Some 0) (Some ["first_steps"])
                     (Some Levels.Wizard) (Some 0) (Some 0))) (complete_writes failing_store).
Proof.
  split; [split; [unfold cache_stale, CACHE_DURATION; simpl; lia | reflexivity]|].
  apply (exportData_read_failure 2); [unfold cache_stale, CACHE_DURATION; simpl; lia | reflexivity].
Defined.

Lemma export_import_roundtrip_witness :
  (st_cache played_store = Some (mkPlayerData 7 640 6 1%N Levels.Spy 1500 10) /\
   st_now played_store - st_cacheTimestamp played_store < CACHE_DURATION /\
   counters_in_range (mkPlayerData 7 640 6 1%N Levels.Spy 1500 10)) /\
  exists b s1 s2 q, exportData 1 played_store = Done b s1 /\ importData 1 b s1 = Done true s2 /\
    st_cache s2 = Some q /\
    currentLevel q = currentLevel (mkPlayerData 7 640 6 1%N Levels.Spy 1500 10) /\
    totalXP q = totalXP (mkPlayerData 7 640 6 1%N Levels.Spy 1500 10) /\
    levelsCompleted q = levelsCompleted (mkPlayerData 7 640 6 1%N Levels.Spy 1500 10) /\
    character q = character (mkPlayerData 7 640 6 1%N Levels.Spy 1500 10) /\
    createdAt q = createdAt (mkPlayerData 7 640 6 1%N Levels.Spy 1500 10) /\
    lastPlayed q = st_now played_store /\
    default [] (st_heap s2 !! achievements q) =
      default [] (st_heap played_store !! achievements (mkPlayerData 7 640 6 1%N Levels.Spy 1500 10)).
Proof.
  split; [split_and!; [reflexivity | unfold CACHE_DURATION; simpl; lia | unfold counters_in_range; simpl; lia]|].
  apply (export_import_roundtrip 0 played_store (mkPlayerData 7 640 6 1%N Levels.Spy 1500 10));
    [reflexivity | unfold CACHE_DURATION; simpl; lia | unfold counters_in_range; simpl; lia].
Defined.

End StorageProps.
