(* ===== verification/StoredText.v ===== *)
(** * The texts of the progress store

    [savePlayerData] and [resetProgress] write [JSON.stringify(record)]
    into the AsyncStorage slot (storage.ts, lines 90 and 109), and
    [getPlayerData] and [importData] read a text back with [JSON.parse]
    (lines 43 and 154).  [Storage] works with the parsed records
    ([StoredRecord]); this file relates them to the texts: [stored_json]
    is the value [JSON.stringify] writes, [json_stored] reads the schema's
    fields from a parsed value, and [text_blob] is the whole read.  The
    round-trip theorem shows that every record the store writes is read
    back unchanged, which is what lets [Storage] keep records in the slot
    instead of texts. *)

From Stdlib Require Import ZArith Lia List String.
From stdpp Require Import base list.
From S2P Require Import Prelude JsString Json Levels Storage.
Import JsString Json Storage.

Module StoredText.

Local Open Scope string_scope.

(** [character: 'wizard' | 'spy'] *)
Definition character_text (c : Levels.Character) : string :=
  match c with Levels.Wizard => "wizard" | Levels.Spy => "spy" end.

(** A member of the object [JSON.stringify] writes, present when the
    field is. *)
Definition member {A} (k : string) (f : A -> json) (o : option A) : list (string * json) :=
  match o with Some a => [(k, f a)] | None => [] end.

(** [JSON.stringify(record)]: the fields in the order of [PlayerData]
    (lines 7-15). *)
Definition stored_json (r : StoredRecord) : json :=
  JObj (member "currentLevel" JNum (s_currentLevel r) ++
        member "totalXP" JNum (s_totalXP r) ++
        member "levelsCompleted" JNum (s_levelsCompleted r) ++
        member "achievements" (fun l => JArr (map JStr l)) (s_achievements r) ++
        member "character" (fun c => JStr (character_text c)) (s_character r) ++
        member "lastPlayed" JNum (s_lastPlayed r) ++
        member "createdAt" JNum (s_createdAt r)).

(** The text the slot holds, [JSON.stringify(updatedData)] (lines 90,
    109), and the text [exportData] returns, [JSON.stringify(data, null,
    2)] (line 145). *)
Definition slot_text (r : StoredRecord) : string := print (stored_json r).

Definition export_text (r : StoredRecord) : string := print_pretty (stored_json r).

(** Reading one field of the parsed value: [Some None] when it is missing,
    [None] when it has a type the schema does not allow. *)
Definition read_field {A} (k : string) (f : json -> option A) (v : json) : option (option A) :=
  match get k v with None => Some None | Some x => option_map Some (f x) end.

Definition json_number (v : json) : option Z := match v with JNum z => Some z | _ => None end.

Definition json_strings (v : json) : option (list string) :=
  match v with
  | JArr l => mapM (fun x => match x with JStr s => Some s | _ => None end) l
  | _ => None
  end.

Definition json_character (v : json) : option Levels.Character :=
  match v with
  | JStr s => if String.eqb s "wizard" then Some Levels.Wizard
              else if String.eqb s "spy" then Some Levels.Spy else None
  | _ => None
  end.

(** The record a parsed object gives, when each field has its schema's
    type. *)
Definition json_stored (v : json) : option StoredRecord :=
  match v with
  | JObj _ =>
      cl ← read_field "currentLevel" json_number v;
      xp ← read_field "totalXP" json_number v;
      lc ← read_field "levelsCompleted" json_number v;
      ach ← read_field "achievements" json_strings v;
      ch ← read_field "character" json_character v;
      lp ← read_field "lastPlayed" json_number v;
      ca ← read_field "createdAt" json_number v;
      Some (mkStoredRecord cl xp lc ach ch lp ca)
  | _ => None
  end.

(** [JSON.parse(data)] in the slot's terms: a text that does not parse is
    [BUnparsable] (the [SyntaxError] the [catch] receives); a text whose
    fields have other types is outside the model. *)
Definition text_blob (s : string) : option Blob :=
  match parse_json s with
  | None => Some BUnparsable
  | Some v => BRecord <$> json_stored v
  end.

(** ** The round trip *)

Lemma json_strings_map (l : list string) :
  mapM (fun x => match x with JStr s => Some s | _ => None end) (map JStr l) = Some l.
Proof. induction l as [|a l IH]; simpl in *; [done|]. by rewrite IH. Qed.

Lemma json_stored_stored_json (r : StoredRecord) : json_stored (stored_json r) = Some r.
Proof.
  destruct r as [cl xp lc ach ch lp ca].
  destruct cl, xp, lc, ach, ch as [[]|], lp, ca; unfold json_stored, read_field; simpl;
    rewrite ?json_strings_map; reflexivity.
Qed.

Lemma printable_stored_json (r : StoredRecord) :
  (forall l, s_achievements r = Some l -> forallb plain l = true) ->
  printable (stored_json r) = true.
Proof.
  intros Hach.
  assert (Hx : forall x, s_achievements r = Some x -> forallb printable (map JStr x) = true).
  { intros x Ex. specialize (Hach x Ex). clear -Hach.
    induction x as [|a x IH]; simpl in *; [done|]. apply andb_prop in Hach as [-> Hx]. by apply IH. }
  unfold stored_json. cbn [printable]. rewrite !forallb_app. repeat (apply andb_true_intro; split).
  all: match goal with |- forallb _ (member _ _ ?o) = true => destruct o as [x|] eqn:Eo end;
    try reflexivity.
  - cbn. rewrite andb_true_r. by apply Hx.
  - by destruct x.
Qed.

(** What the store writes it reads back: for every record whose
    achievement ids are plain strings, parsing the slot's text, or the
    indented text [exportData] returns, gives the same record. *)
Theorem stored_text_roundtrip (r : StoredRecord) :
  (forall l, s_achievements r = Some l -> forallb plain l = true) ->
  text_blob (slot_text r) = Some (BRecord r) /\ text_blob (export_text r) = Some (BRecord r).
Proof.
  intros Hach. unfold text_blob, slot_text, export_text.
  rewrite parse_json_print, parse_json_print_pretty by (by apply printable_stored_json).
  by rewrite json_stored_stored_json.
Qed.

Local Open Scope Z_scope.

Lemma stored_text_roundtrip_witness :
  (forall l, s_achievements (mkStoredRecord (Some 7) (Some 640) (Some 6) (Some ["first_steps"; "level_5"])
                              (Some Levels.Spy) (Some 1500) None) = Some l -> forallb plain l = true) /\
  text_blob (slot_text (mkStoredRecord (Some 7) (Some 640) (Some 6) (Some ["first_steps"; "level_5"])
                         (Some Levels.Spy) (Some 1500) None))
    = Some (BRecord (mkStoredRecord (Some 7) (Some 640) (Some 6) (Some ["first_steps"; "level_5"])
                       (Some Levels.Spy) (Some 1500) None)) /\
  text_blob (export_text (mkStoredRecord (Some 7) (Some 640) (Some 6) (Some ["first_steps"; "level_5"])
                           (Some Levels.Spy) (Some 1500) None))
    = Some (BRecord (mkStoredRecord (Some 7) (Some 640) (Some 6) (Some ["first_steps"; "level_5"])
                       (Some Levels.Spy) (Some 1500) None)).
Proof.
  assert (H : forall l, s_achievements (mkStoredRecord (Some 7) (Some 640) (Some 6)
      (Some ["first_steps"; "level_5"]) (Some Levels.Spy) (Some 1500) None) = Some l ->
      forallb plain l = true) by (intros l [= <-]; reflexivity).
  split; [exact H | apply stored_text_roundtrip; exact H].
Defined.

End StoredText.
