(* ===== verification/StorageInv.v ===== *)
(** * The progress store: the level invariant

    The spec (section 3) states an invariant of the stored record:
    [1 <= currentLevel <= 1000], [0 <= levelsCompleted <= 1000],
    [currentLevel <= levelsCompleted + 1] and [totalXP >= 0].  This file
    states it of the whole store ([store_inv]: the cache, the slot and the
    writes in flight), gives a small Hoare logic for the store monad
    [Storage.M] ([hoare]), and proves with it which operations of
    [GameStorage] keep the invariant: all of them when the fields they
    write keep [currentLevel <= levelsCompleted + 1] ([partial_ok]), but
    not [importData], whose clamps are independent.  A step relation of the
    API ([api_step]) and its reachable states close the argument. *)

From Stdlib Require Import ZArith Lia List String.
From stdpp Require Import base list gmap strings relations.
From S2P Require Import Prelude Levels Storage.
Import Storage StorageProps.

Module StorageInv.

Local Open Scope Z_scope.
Local Open Scope store_scope.

(** ** The invariant *)

(** The spec's record invariant, on a [PlayerData]. *)
Definition rec_ok (p : PlayerData) : Prop :=
  1 <= currentLevel p <= 1000 /\ 0 <= levelsCompleted p <= 1000 /\
  currentLevel p <= levelsCompleted p + 1 /\ 0 <= totalXP p.

(** A stored text that parses to a record with the invariant's fields. *)
Definition stored_ok (r : StoredRecord) : Prop :=
  exists c l x, s_currentLevel r = Some c /\ s_levelsCompleted r = Some l /\
    s_totalXP r = Some x /\ 1 <= c <= 1000 /\ 0 <= l <= 1000 /\ c <= l + 1 /\ 0 <= x.

(** Any text in the slot: an unparsable one is read as the defaults. *)
Definition blob_ok (b : Blob) : Prop :=
  match b with BRecord r => stored_ok r | BUnparsable => True end.

Definition cache_inv (c : option PlayerData) : Prop :=
  match c with Some p => rec_ok p | None => True end.

Definition slot_inv (d : option Blob) : Prop :=
  match d with Some b => blob_ok b | None => True end.

(** The invariant of the store: the cached record, the text in the slot
    and every text being written satisfy it. *)
Definition store_inv (s : Store) : Prop :=
  cache_inv (st_cache s) /\ slot_inv (st_durable s) /\ Forall blob_ok (st_pending s).

(** What a [Partial<PlayerData>] must satisfy for a save to keep the
    invariant: it writes both counters, with [currentLevel <=
    levelsCompleted + 1], or neither. *)
Definition partial_ok (d : PartialData) : Prop :=
  match p_currentLevel d, p_levelsCompleted d with
  | Some c, Some l => c <= l + 1
  | None, None => True
  | _, _ => False
  end.

(** ** A Hoare logic for the store monad *)

(** [hoare m Q]: run from a state with the invariant, [m] ends in a state
    with the invariant, and its result satisfies [Q]; a thrown exception
    leaves a state with the invariant too, since the source catches it
    and goes on with the state the throw left. *)
Definition hoare {A} (m : M A) (Q : A -> Prop) : Prop :=
  forall s, store_inv s ->
    match m s with
    | Done a s' => Q a /\ store_inv s'
    | Thrown _ s' => store_inv s'
    | OutOfFuel => True
    end.

(** ** Definitions the API's step relation uses *)

(** One call of an operation of [GameStorage] that returns, or a change
    of the environment.  This is the API as the tabs use it, narrower
    than what a caller may do: [importData] is left out (it breaks the
    invariant, [importData_breaks_inv]), [savePlayerData] is called only
    with updates that write both counters with [currentLevel <=
    levelsCompleted + 1] or neither ([partial_ok]), and AsyncStorage
    does not fail ([st_store_ok] keeps its value). *)
Inductive api_step : Store -> Store -> Prop :=
  | step_get f s p s' : getPlayerData f s = Done p s' -> api_step s s'
  | step_save f d s s' : partial_ok d -> savePlayerData f d s = Done tt s' -> api_step s s'
  | step_reset f s s' : resetProgress f s = Done tt s' -> api_step s s'
  | step_add f a s s' : addAchievement f a s = Done tt s' -> api_step s s'
  | step_update f lv xp s s' : updateLevel f lv xp s = Done tt s' -> api_step s s'
  | step_export f s b s' : exportData f s = Done b s' -> api_step s s'
  | step_unlock f lv s s' : unlockLevel f lv s = Done tt s' -> api_step s s'
  | step_clear s s' : clearCache s = Done tt s' -> api_step s s'
  | step_tick d s : api_step s (tick d s)
  | step_restart s : api_step s (restart s).

(** The states of a process started on a slot with the invariant. *)
Definition reachable (s : Store) : Prop :=
  exists slot now, slot_inv slot /\ rtc api_step (boot slot now) s.

(** ** The logic's rules *)

Section Rules.

Context {A B : Type}.

Lemma hoare_ret (a : A) (Q : A -> Prop) : Q a -> hoare (ret a) Q.
Proof. intros HQ s Hs. by split. Qed.

Lemma hoare_bind (m : M A) (k : A -> M B) (P : A -> Prop) (Q : B -> Prop) :
  hoare m P -> (forall a, P a -> hoare (k a) Q) -> hoare (bind m k) Q.
Proof.
  intros Hm Hk s Hs. unfold bind. specialize (Hm s Hs).
  destruct (m s) as [a s'|e s'|]; [|done|done]. destruct Hm as [HP Hs']. by apply Hk.
Qed.

Lemma hoare_catch (m : M A) (h : Exn -> M A) (Q : A -> Prop) :
  hoare m Q -> (forall e, hoare (h e) Q) -> hoare (catch m h) Q.
Proof.
  intros Hm Hh s Hs. unfold catch. specialize (Hm s Hs).
  destruct (m s) as [a s'|e s'|]; [done| |done]. by apply Hh.
Qed.

Lemma hoare_throw (e : Exn) (Q : A -> Prop) : hoare (throw e) Q.
Proof. by intros s Hs. Qed.

Lemma hoare_out_of_fuel (Q : A -> Prop) : hoare out_of_fuel Q.
Proof. by intros s Hs. Qed.

Lemma hoare_gets (f : Store -> A) (Q : A -> Prop) :
  (forall s, store_inv s -> Q (f s)) -> hoare (gets f) Q.
Proof. intros HQ s Hs. by split; [apply HQ|]. Qed.

Lemma hoare_weaken (m : M A) (P Q : A -> Prop) :
  hoare m P -> (forall a, P a -> Q a) -> hoare m Q.
Proof.
  intros Hm HPQ s Hs. specialize (Hm s Hs). destruct (m s); naive_solver.
Qed.

Lemma hoare_bind_ret (a : A) (k : A -> M B) (Q : B -> Prop) :
  hoare (k a) Q -> hoare (bind (ret a) k) Q.
Proof. done. Qed.

End Rules.

(** ** The records the operations build *)

Lemma default_ok (s : Store) : rec_ok (DEFAULT_PLAYER_DATA s).
Proof. unfold rec_ok; simpl; lia. Qed.

(** [getPlayerData]'s validation keeps a stored record that satisfies
    the invariant as it is. *)
Lemma validate_stored_ok (dflt : PlayerData) (r : StoredRecord) (arr : loc) :
  stored_ok r -> rec_ok (validate_stored dflt r arr).
Proof.
  intros (c & l & x & Hc & Hl & Hx & ?). unfold rec_ok, validate_stored, js_or; simpl.
  rewrite Hc, Hl, Hx. simpl. destruct (Z.eqb_spec c 0), (Z.eqb_spec l 0); lia.
Qed.

(** A save merges [data] into a record with the invariant and clamps:
    the result has the invariant when [data] is [partial_ok]. *)
Lemma clamp_merge_ok (cur : PlayerData) (d : PartialData) (now : Z) :
  rec_ok cur -> partial_ok d -> rec_ok (clamp_record (merge_partial cur d now)).
Proof.
  unfold rec_ok, partial_ok, clamp_record, merge_partial. simpl.
  destruct (p_currentLevel d), (p_levelsCompleted d); simpl; clamp_lia.
Qed.

Lemma stored_of_rec_ok (p : PlayerData) (arr : list string) :
  rec_ok p ->
  stored_ok (mkStoredRecord (Some (currentLevel p)) (Some (totalXP p))
     (Some (levelsCompleted p)) (Some arr) (Some (character p))
     (Some (lastPlayed p)) (Some (createdAt p))).
Proof. intros (? & ? & ? & ?). do 3 eexists. split_and!; first [reflexivity|lia]. Qed.

Lemma partial_of_ok (p : PlayerData) : rec_ok p -> partial_ok (partial_of p).
Proof. intros (? & ? & ? & ?). unfold partial_ok; simpl. lia. Qed.

(** The record [resetProgress] builds from the defaults. *)
Lemma reset_record_ok (dflt cur : PlayerData) (t : Z) :
  rec_ok dflt ->
  rec_ok {| currentLevel := currentLevel dflt; totalXP := totalXP dflt;
            levelsCompleted := levelsCompleted dflt; achievements := achievements dflt;
            character := character cur; lastPlayed := t; createdAt := createdAt cur |}.
Proof. done. Qed.

(** The update [updateLevel] saves: both counters raised with [Math.max]. *)
Lemma update_partial_ok (data : PlayerData) (level : Z) (x t : option Z) :
  rec_ok data ->
  partial_ok (mkPartialData (Some (Z.max level (currentLevel data))) x
     (Some (Z.max (level - 1) (levelsCompleted data))) None None t None).
Proof. intros (? & ? & ? & ?). unfold partial_ok; simpl. lia. Qed.

(** The update [unlockLevel] saves. *)
Lemma unlock_partial_ok (lc level : Z) :
  partial_ok (mkPartialData (Some level) None (Some (Z.max lc (level - 1))) None None None None).
Proof. unfold partial_ok; simpl. lia. Qed.

Lemma no_counters_ok (a : option loc) (c : option Levels.Character) (t u : option Z) (x : option Z) :
  partial_ok (mkPartialData None x None a c t u).
Proof. done. Qed.

(** ** The primitives *)

Lemma complete_writes_inv (s : Store) :
  store_inv s -> store_inv (complete_writes s).
Proof.
  destruct_store s. intros (Hc & Hd & Hp). split_and!; simpl; [done| |constructor].
  destruct ok; [|done]. destruct (last pend) as [b|] eqn:E; [|done]. simpl.
  apply last_Some_elem_of in E. by eapply Forall_forall in Hp.
Qed.

Lemma hoare_kv_getItem : hoare kv_getItem slot_inv.
Proof.
  intros s Hs. unfold kv_getItem. pose proof (complete_writes_inv s Hs) as H.
  destruct (st_store_ok (complete_writes s)); [|done]. split; [apply H|done].
Qed.

Lemma hoare_kv_setItem_async (b : Blob) : blob_ok b -> hoare (kv_setItem_async b) (fun _ => True).
Proof.
  intros Hb s (Hc & Hd & Hp). split; [done|]. destruct_store s.
  split_and!; simpl; [done|done|]. apply Forall_app. by split; [|constructor].
Qed.

Lemma hoare_kv_setItem_await (b : Blob) : blob_ok b -> hoare (kv_setItem_await b) (fun _ => True).
Proof.
  intros Hb s Hs. unfold kv_setItem_await.
  assert (Hs' : store_inv (complete_writes (set_slot_st (st_durable s) (st_pending s ++ [b]) s))).
  { apply complete_writes_inv. destruct Hs as (Hc & Hd & Hp). destruct_store s.
    split_and!; simpl; [done|done|]. apply Forall_app. by split; [|constructor]. }
  by destruct (st_store_ok _).
Qed.

Lemma hoare_set_cache (p : PlayerData) (ts : Z) : rec_ok p -> hoare (set_cache p ts) (fun _ => True).
Proof. intros Hp s (Hc & Hd & Hq). destruct_store s. by split_and!. Qed.

Lemma hoare_clearCache : hoare clearCache (fun _ => True).
Proof. intros s (Hc & Hd & Hq). destruct_store s. by split_and!. Qed.

Lemma hoare_alloc (l : list string) : hoare (alloc l) (fun _ => True).
Proof. intros s (Hc & Hd & Hq). destruct_store s. by split_and!. Qed.

Lemma hoare_write_array (a : loc) (l : list string) : hoare (write_array a l) (fun _ => True).
Proof. intros s (Hc & Hd & Hq). destruct_store s. by split_and!. Qed.

Lemma hoare_gets_true {A} (f : Store -> A) : hoare (gets f) (fun _ => True).
Proof. by apply hoare_gets. Qed.

Lemma hoare_gets_cache : hoare (gets st_cache) cache_inv.
Proof. apply hoare_gets. by intros s []. Qed.

Lemma hoare_gets_default : hoare (gets DEFAULT_PLAYER_DATA) rec_ok.
Proof. apply hoare_gets. intros s _. apply default_ok. Qed.

Lemma hoare_stringify (p : PlayerData) : rec_ok p -> hoare (stringify p) blob_ok.
Proof.
  intros Hp. unfold stringify. eapply hoare_bind; [apply hoare_gets_true|].
  intros arr _. apply hoare_ret. by apply stored_of_rec_ok.
Qed.

Lemma hoare_parse_achievements (o : option (list string)) :
  hoare (parse_achievements o) (fun _ => True).
Proof. destruct o; [apply hoare_alloc|by apply hoare_ret]. Qed.

Lemma hoare_now_ms : hoare now_ms (fun _ => True).
Proof. apply hoare_gets_true. Qed.

Create HintDb store_inv.
#[export] Hint Resolve default_ok validate_stored_ok clamp_merge_ok partial_of_ok
  stored_of_rec_ok no_counters_ok reset_record_ok update_partial_ok unlock_partial_ok : store_inv.

(** [hside] proves the side conditions of the rules: the records built
    satisfy the invariant. *)
Ltac hside :=
  cbn [cache_inv slot_inv blob_ok] in *; first [assumption | eauto with store_inv].

(** [hprim] closes a triple of a primitive of the store, or of a call
    whose triple is a hypothesis. *)
Ltac hprim :=
  first [ apply hoare_gets_cache | apply hoare_gets_default | apply hoare_kv_getItem
        | apply hoare_alloc | apply hoare_write_array | apply hoare_clearCache
        | apply hoare_parse_achievements | apply hoare_now_ms
        | apply hoare_set_cache; hside
        | apply hoare_stringify; hside
        | apply hoare_kv_setItem_async; hside
        | apply hoare_kv_setItem_await; hside
        | apply hoare_gets_true
        | match goal with H : hoare ?m _ |- hoare ?m _ => apply H end
        | match goal with H : forall d, partial_ok d -> hoare (?f d) _ |- hoare (?f _) _ =>
            apply H; hside end ].

(** [hsteps] takes a triple apart along the program's structure. *)
Ltac hsteps :=
  repeat match goal with
  | |- hoare (catch _ _) _ => apply hoare_catch; [|intros ?]
  | |- hoare (bind (ret _) _) _ => apply hoare_bind_ret
  | |- hoare (bind (match ?x with _ => _ end) _) _ => destruct x
  | |- hoare (bind _ _) _ => eapply hoare_bind; [hprim|]; intros ? ?
  | |- hoare (ret _) _ => apply hoare_ret; hside
  | |- hoare (throw _) _ => apply hoare_throw
  | |- hoare out_of_fuel _ => apply hoare_out_of_fuel
  | |- hoare (match ?x with _ => _ end) _ => destruct x
  | |- hoare (if ?b then _ else _) _ => destruct b
  | |- hoare _ _ => hprim
  end.

(** [getPlayerData] returns a record with the invariant and keeps the
    store's; [savePlayerData] of a [partial_ok] update keeps it too. *)
Lemma get_save_hoare (fuel : nat) :
  hoare (getPlayerData fuel) rec_ok /\
  forall d, partial_ok d -> hoare (savePlayerData fuel d) (fun _ => True).
Proof.
  induction fuel as [|f [IHg IHs]]; [split; [|intros d _]; apply hoare_out_of_fuel|].
  split; [|intros d Hd]; cbn [getPlayerData savePlayerData]; hsteps.
Qed.

Lemma hoare_Done {A} (m : M A) (Q : A -> Prop) (s s' : Store) (a : A) :
  hoare m Q -> store_inv s -> m s = Done a s' -> Q a /\ store_inv s'.
Proof. intros Hm Hs Heq. specialize (Hm s Hs). by rewrite Heq in Hm. Qed.

Lemma hoare_getPlayerData (fuel : nat) : hoare (getPlayerData fuel) rec_ok.
Proof. apply get_save_hoare. Qed.

Lemma hoare_savePlayerData (fuel : nat) (d : PartialData) :
  partial_ok d -> hoare (savePlayerData fuel d) (fun _ => True).
Proof. apply get_save_hoare. Qed.

Lemma hoare_cached_or_get (fuel : nat) : hoare (cached_or_get fuel) rec_ok.
Proof. pose proof (hoare_getPlayerData fuel). unfold cached_or_get. hsteps. Qed.

Lemma hoare_resetProgress (fuel : nat) : hoare (resetProgress fuel) (fun _ => True).
Proof. pose proof (hoare_cached_or_get fuel). unfold resetProgress. hsteps. Qed.

Lemma hoare_addAchievement (fuel : nat) (a : string) : hoare (addAchievement fuel a) (fun _ => True).
Proof.
  pose proof (hoare_getPlayerData fuel). pose proof (hoare_savePlayerData fuel).
  unfold addAchievement. hsteps.
Qed.

Lemma hoare_updateLevel (fuel : nat) (level xp : Z) : hoare (updateLevel fuel level xp) (fun _ => True).
Proof.
  pose proof (hoare_getPlayerData fuel). pose proof (hoare_savePlayerData fuel).
  unfold updateLevel. hsteps.
Qed.

Lemma hoare_exportData (fuel : nat) : hoare (exportData fuel) (fun _ => True).
Proof.
  pose proof (hoare_getPlayerData fuel). unfold exportData. hsteps.
Qed.

Lemma hoare_unlockLevel (fuel : nat) (level : Z) : hoare (unlockLevel fuel level) (fun _ => True).
Proof.
  pose proof (hoare_getPlayerData fuel). pose proof (hoare_savePlayerData fuel).
  unfold unlockLevel. hsteps.
Qed.

Lemma tick_inv (d : Z) (s : Store) : store_inv s -> store_inv (tick d s).
Proof. by destruct_store s. Qed.

Lemma restart_inv (s : Store) : store_inv s -> store_inv (restart s).
Proof. destruct_store s. intros (? & ? & ?). by split_and!. Qed.

Lemma boot_inv (slot : option Blob) (now : Z) : slot_inv slot -> store_inv (boot slot now).
Proof. intros H. by split_and!. Qed.

(** One step of the API keeps the invariant. *)
Lemma api_step_inv (s s' : Store) : store_inv s -> api_step s s' -> store_inv s'.
Proof.
  intros Hs Hstep. destruct Hstep as [f ? p ? E|f d ? ? Hd E|f ? ? E|f a ? ? E|f lv xp ? ? E
    |f ? b ? E|f lv ? ? E|? ? E|d ?|?];
    try (eapply hoare_Done; [|exact Hs|exact E]);
    eauto using hoare_getPlayerData, hoare_savePlayerData, hoare_resetProgress,
      hoare_addAchievement, hoare_updateLevel, hoare_exportData, hoare_unlockLevel,
      hoare_clearCache, tick_inv, restart_inv.
Qed.

Lemma reachable_inv (s : Store) : reachable s -> store_inv s.
Proof.
  intros (slot & now & Hslot & Hrtc). remember (boot slot now) as s0 eqn:E.
  assert (H0 : store_inv s0) by (subst; by apply boot_inv). clear E.
  induction Hrtc; eauto using api_step_inv.
Qed.

Lemma reachable_step (s s' : Store) : reachable s -> api_step s s' -> reachable s'.
Proof.
  intros (slot & now & Hslot & Hrtc) Hstep. exists slot, now. split; [done|].
  by eapply rtc_r.
Qed.

(** ** Properties *)

(** C10: in every state a process reaches from a stored text with the
    invariant, through any sequence of calls of the API's methods but
    [importData] in which every update given to [savePlayerData] writes
    both counters with [currentLevel <= levelsCompleted + 1], or neither
    (the updates the tabs give, see [app_store_inv]), of restarts and of
    the passing of time, AsyncStorage working, the record [getPlayerData]
    returns satisfies the spec's invariant ([1 <= currentLevel <= 1000],
    [0 <= levelsCompleted <= 1000], [currentLevel <= levelsCompleted + 1],
    [totalXP >= 0]), and the state after the call is reachable too.
    Without the condition on saves it fails: a save of [currentLevel]
    alone is cached as given ([unchecked_save_desyncs]). *)
Theorem reachable_getPlayerData (f : nat) (s s' : Store) (p : PlayerData) :
  reachable s -> getPlayerData f s = Done p s' -> rec_ok p /\ reachable s'.
Proof.
  intros Hr E. split.
  - eapply hoare_Done; [apply hoare_getPlayerData|by apply reachable_inv|exact E].
  - eapply reachable_step; [done|]. by econstructor.
Qed.

(** C32: a save whose update writes both counters with
    [currentLevel <= levelsCompleted + 1], or neither, keeps the invariant
    of the whole store: the cache, the slot and the writes in flight. *)
Theorem savePlayerData_keeps_inv (f : nat) (d : PartialData) (s s' : Store) :
  store_inv s -> partial_ok d -> savePlayerData f d s = Done tt s' -> store_inv s'.
Proof. intros Hs Hd E. eapply hoare_Done; [by apply hoare_savePlayerData|exact Hs|exact E]. Qed.

(** C11: [importData] clamps [currentLevel] and
    [levelsCompleted] each on its own: importing [{currentLevel: 5000}]
    into a store with the invariant succeeds and caches a record with
    [currentLevel = 1000] and [levelsCompleted = 0], which breaks it. *)
Theorem importData_breaks_inv :
  exists s s', store_inv s /\
    importData 3 (BRecord (mkStoredRecord (Some 5000) None None None None None None)) s = Done true s' /\
    ~ store_inv s' /\
    exists p, st_cache s' = Some p /\ currentLevel p = 1000 /\ levelsCompleted p = 0.
Proof.
  exists (boot (Some (BRecord (mkStoredRecord (Some 1) (Some 0) (Some 0) (Some []) None None None))) 0).
  eexists. split_and!.
  - apply boot_inv. cbn. do 3 eexists. split_and!; first [reflexivity|lia].
  - vm_compute. reflexivity.
  - intros ((? & ? & ? & ?) & _). cbn in *. lia.
  - eexists. split; [vm_compute; reflexivity|]. split; reflexivity.
Qed.

(** ** Witnesses *)

#[local] Abbreviation good_text :=
  (BRecord (mkStoredRecord (Some 4) (Some 120) (Some 3) (Some []) None None None)).

Lemma good_text_inv : slot_inv (Some good_text).
Proof. cbn. do 3 eexists. split_and!; first [reflexivity|lia]. Qed.

Lemma reachable_getPlayerData_witness :
  exists p s', getPlayerData 2 (boot (Some good_text) 0) = Done p s' /\ rec_ok p /\ reachable s'.
Proof.
  eexists _, _. split; [vm_compute; reflexivity|].
  apply (reachable_getPlayerData 2 (boot (Some good_text) 0)).
  - exists (Some good_text), 0. split; [apply good_text_inv|apply rtc_refl].
  - vm_compute. reflexivity.
Defined.

Lemma savePlayerData_keeps_inv_witness :
  exists s', savePlayerData 3 (mkPartialData (Some 5) None (Some 4) None None None None)
               (boot (Some good_text) 0) = Done tt s' /\ store_inv s'.
Proof.
  eexists. split; [vm_compute; reflexivity|].
  apply (savePlayerData_keeps_inv 3 (mkPartialData (Some 5) None (Some 4) None None None None)
           (boot (Some good_text) 0)).
  - apply boot_inv, good_text_inv.
  - cbn. lia.
  - vm_compute. reflexivity.
Defined.

End StorageInv.
