(* ===== verification/StorageCache.v ===== *)
(** * The progress store: the read cache and what the store holds

    [GameStorage] keeps the record it last read or wrote in
    [playerDataCache] for five seconds (utils/storage.ts, lines 27-39),
    "to avoid redundant reads" (spec, section 2).  Its contract is that a
    caller cannot tell a cached read from a read of the store: this file
    states that contract as a reference definition, [direct_read] (what
    [getItem] and [JSON.parse] would give for the last text written, with
    the defaults and the level clamp of lines 45-50), and proves that
    [getPlayerData] refines it in every state reached through the API as
    the tabs use it ([api_step]: saves that keep the counters together,
    AsyncStorage working), whether the cache is fresh, stale or empty.
    [App] lifts this to whatever the tabs do ([api_run] relates their
    calls to [api_step]).  A caller of the whole API can break it: a save
    of [currentLevel] alone is cached as given while the store reads back
    clamped ([unchecked_save_desyncs]).  A record is compared through
    what a caller observes of it ([view_of]): its fields and the contents
    of its achievements array, not the array's identity, which a fetch
    renews. *)

From Stdlib Require Import ZArith Lia List String.
From stdpp Require Import base list gmap relations.
From S2P Require Import Prelude Levels Storage StorageInv.
Import Levels Storage StorageProps StorageInv.

Module StorageCache.

Local Open Scope Z_scope.
Local Open Scope store_scope.

(** ** What a caller observes of a record *)

Record View := mkView {
  v_currentLevel : Z;
  v_totalXP : Z;
  v_levelsCompleted : Z;
  v_achievements : list string;
  v_character : Character;
  v_lastPlayed : Z;
  v_createdAt : Z
}.

(** The fields of [p], with [arr] as its achievements. *)
Definition view_fields (p : PlayerData) (arr : list string) : View :=
  mkView (currentLevel p) (totalXP p) (levelsCompleted p) arr (character p) (lastPlayed p) (createdAt p).

(** The record [p] in the heap [h]. *)
Definition view_of (h : gmap N (list string)) (p : PlayerData) : View :=
  view_fields p (default [] (h !! achievements p)).

(** ** The reference: a read that bypasses the cache *)

(** The text a [getItem] would return: the last write issued, once the
    writes in flight have landed. *)
Definition latest_text (s : Store) : option Blob := st_durable (complete_writes s).

(** [JSON.parse] of the latest text spread over [DEFAULT_PLAYER_DATA],
    with [currentLevel] re-clamped (lines 43-50); an unparsable text gives
    the defaults (lines 64-67); with no text there is nothing to read. *)
Definition direct_read (s : Store) : option View :=
  match latest_text s with
  | Some (BRecord r) =>
      Some (view_fields (validate_stored (DEFAULT_PLAYER_DATA s) r default_loc)
              (match s_achievements r with
               | Some l => l
               | None => default [] (st_heap s !! default_loc)
               end))
  | Some BUnparsable => Some (view_of (st_heap s) (DEFAULT_PLAYER_DATA s))
  | None => None
  end.

(** ** Frames: what no operation changes *)

(** No operation flips whether the store works, and fresh arrays are
    only ever allocated above the ones in use. *)
Definition frame (s s' : Store) : Prop :=
  st_store_ok s' = st_store_ok s /\ (st_next s <= st_next s')%N.

Definition framed {A} (m : M A) : Prop :=
  forall s, match m s with Done _ s' | Thrown _ s' => frame s s' | OutOfFuel => True end.

(** The text [stringify] makes of [q], read in the heap of [s]. *)
Definition text_of (s : Store) (q : PlayerData) : Blob :=
  BRecord (mkStoredRecord (Some (currentLevel q)) (Some (totalXP q)) (Some (levelsCompleted q))
    (Some (default [] (st_heap s !! achievements q))) (Some (character q)) (Some (lastPlayed q))
    (Some (createdAt q))).

(** [api_run m]: whatever state [m] leaves the store in, by returning or
    by throwing, the store got there through calls of the API. *)
Definition api_run {A} (m : M A) : Prop :=
  forall s, match m s with Done _ s' | Thrown _ s' => rtc api_step s s' | OutOfFuel => True end.

(** ** The invariant *)

(** The store works, the next fresh array is not [DEFAULT_PLAYER_DATA]'s,
    and the cached record, when there is one, is what a direct read
    gives. *)
Definition coherent (s : Store) : Prop :=
  st_store_ok s = true /\ (0 < st_next s)%N /\
  forall p, st_cache s = Some p -> direct_read s = Some (view_of (st_heap s) p).

(** ** Frames of the operations *)

Lemma frame_refl (s : Store) : frame s s.
Proof. split; [done|lia]. Qed.

Lemma frame_trans (s1 s2 s3 : Store) : frame s1 s2 -> frame s2 s3 -> frame s1 s3.
Proof. intros [E1 L1] [E2 L2]. split; [congruence|lia]. Qed.

Section Frames.

Context {A B : Type}.

Lemma framed_ret (a : A) : framed (ret a).
Proof. intros s. apply frame_refl. Qed.

Lemma framed_bind (m : M A) (k : A -> M B) : framed m -> (forall a, framed (k a)) -> framed (bind m k).
Proof.
  intros Hm Hk s. unfold bind. specialize (Hm s). destruct (m s) as [a s1|e s1|]; [|done|done].
  specialize (Hk a s1). destruct (k a s1); try done; eapply frame_trans; eassumption.
Qed.

Lemma framed_catch (m : M A) (h : Exn -> M A) : framed m -> (forall e, framed (h e)) -> framed (catch m h).
Proof.
  intros Hm Hh s. unfold catch. specialize (Hm s). destruct (m s) as [a s1|e s1|]; [done| |done].
  specialize (Hh e s1). destruct (h e s1); try done; eapply frame_trans; eassumption.
Qed.

Lemma framed_gets (g : Store -> A) : framed (gets g).
Proof. intros s. apply frame_refl. Qed.

Lemma framed_throw (e : Exn) : framed (A := A) (throw e).
Proof. intros s. apply frame_refl. Qed.

Lemma framed_out_of_fuel : framed (A := A) out_of_fuel.
Proof. done. Qed.

End Frames.

Lemma framed_alloc (l : list string) : framed (alloc l).
Proof. intros s. split; cbn; [done|lia]. Qed.

Lemma framed_write_array (a : loc) (l : list string) : framed (write_array a l).
Proof. intros s. split; cbn; [reflexivity|lia]. Qed.

Lemma framed_set_cache (p : PlayerData) (t : Z) : framed (set_cache p t).
Proof. intros s. split; cbn; [reflexivity|lia]. Qed.

Lemma framed_clearCache : framed clearCache.
Proof. intros s. split; cbn; [reflexivity|lia]. Qed.

Lemma framed_kv_getItem : framed kv_getItem.
Proof. intros s. unfold kv_getItem, kv_setItem_await; cbn. destruct (st_store_ok s); split; cbn; first [reflexivity|lia]. Qed.

Lemma framed_kv_setItem_async (b : Blob) : framed (kv_setItem_async b).
Proof. intros s. split; cbn; [reflexivity|lia]. Qed.

Lemma framed_kv_setItem_await (b : Blob) : framed (kv_setItem_await b).
Proof. intros s. unfold kv_getItem, kv_setItem_await; cbn. destruct (st_store_ok s); split; cbn; first [reflexivity|lia]. Qed.

Lemma framed_stringify (p : PlayerData) : framed (stringify p).
Proof. intros s. split; cbn; [reflexivity|lia]. Qed.

Lemma framed_parse_achievements (o : option (list string)) : framed (parse_achievements o).
Proof. destruct o; [apply framed_alloc|apply framed_ret]. Qed.

Create HintDb framed.
#[export] Hint Resolve framed_ret framed_gets framed_throw framed_out_of_fuel framed_alloc
  framed_write_array framed_set_cache framed_clearCache framed_kv_getItem framed_kv_setItem_async
  framed_kv_setItem_await framed_stringify framed_parse_achievements : framed.

(** [fsteps] takes a frame goal apart along the program. *)
Ltac fsteps :=
  repeat match goal with
  | |- framed (catch _ _) => apply framed_catch; [|intros ?]
  | |- framed (bind _ _) => apply framed_bind; [|intros ?]
  | |- framed (match ?x with _ => _ end) => destruct x
  | |- framed (if ?b then _ else _) => destruct b
  | |- framed _ => first [ solve [eauto with framed] | assumption ]
  end.

Lemma get_save_framed (fuel : nat) :
  framed (getPlayerData fuel) /\ forall d, framed (savePlayerData fuel d).
Proof.
  induction fuel as [|f [IHg IHs]]; [split; [|intros d]; apply framed_out_of_fuel|].
  split; [|intros d]; cbn [getPlayerData savePlayerData]; unfold now_ms, cached_or_get; fsteps;
    first [apply IHs | apply IHg].
Qed.

(** ** Reads and writes of the slot *)

Lemma latest_text_complete (s : Store) : latest_text (complete_writes s) = latest_text s.
Proof. destruct_store s. unfold latest_text. by destruct ok. Qed.

Lemma direct_read_complete (s : Store) : direct_read (complete_writes s) = direct_read s.
Proof. unfold direct_read. rewrite latest_text_complete. by destruct_store s. Qed.

(** A write that issues the text of a record with the invariant makes a
    direct read give that record back. *)
Lemma direct_read_written (s : Store) (q : PlayerData) (arr : list string) :
  rec_ok q ->
  latest_text s = Some (BRecord (mkStoredRecord (Some (currentLevel q)) (Some (totalXP q))
         (Some (levelsCompleted q)) (Some arr) (Some (character q)) (Some (lastPlayed q)) (Some (createdAt q)))) ->
  direct_read s = Some (view_fields q arr).
Proof.
  intros (H1 & H2 & H3 & H4) E. unfold direct_read. rewrite E. cbn. unfold view_fields, js_or; cbn.
  do 2 f_equal; destruct (Z.eqb_spec (currentLevel q) 0), (Z.eqb_spec (levelsCompleted q) 0); lia.
Qed.

(** With the store working and no text to read, the only coherent state
    is a first launch. *)
Lemma coherent_no_text (s : Store) : coherent s -> latest_text s = None -> first_launch s.
Proof.
  intros (Hok & _ & Hc) E. destruct (st_cache s) as [p|] eqn:Ec.
  { specialize (Hc p eq_refl). unfold direct_read in Hc. by rewrite E in Hc. }
  destruct_store s. unfold latest_text, first_launch in *; cbn in *. subst ok.
  destruct (last pend) eqn:El; [done|]. apply last_None in El. by subst.
Qed.

Lemma kv_getItem_ok (s : Store) :
  st_store_ok s = true -> kv_getItem s = Done (latest_text s) (complete_writes s).
Proof. intros H. unfold kv_getItem. cbv zeta. change (st_store_ok (complete_writes s)) with (st_store_ok s). by rewrite H. Qed.

(** A direct read looks at the latest text, at the time the module loaded
    and at [DEFAULT_PLAYER_DATA]'s array, and at nothing else. *)
Lemma direct_read_frame (s s' : Store) :
  latest_text s' = latest_text s -> st_default_time s' = st_default_time s ->
  st_heap s' !! default_loc = st_heap s !! default_loc -> direct_read s' = direct_read s.
Proof. intros E1 E2 E3. unfold direct_read. rewrite E1. unfold view_of, DEFAULT_PLAYER_DATA; cbn. by rewrite E2, E3. Qed.

Lemma coherent_intro (s : Store) (p : PlayerData) :
  st_store_ok s = true -> (0 < st_next s)%N -> st_cache s = Some p ->
  direct_read s = Some (view_of (st_heap s) p) -> coherent s.
Proof. intros Hok Hn Hc Hd. split_and!; [done|done|]. rewrite Hc. by intros ? [= <-]. Qed.

Lemma coherent_complete (s : Store) : coherent s -> coherent (complete_writes s).
Proof. intros (Hok & Hn & Hc). split_and!; [done|done|]. intros p Hp. rewrite direct_read_complete. by apply Hc. Qed.

(** [getPlayerData] keeps the cache coherent, and the record it returns
    is what a direct read of the state it started from gives. *)
Lemma get_coherent (f : nat) (s s2 : Store) (p : PlayerData) :
  coherent s -> getPlayerData f s = Done p s2 ->
  coherent s2 /\ direct_read s = Some (view_of (st_heap s2) p).
Proof.
  intros Hco E. destruct (latest_text s) as [b|] eqn:Elt.
  2:{ by rewrite (proj1 (first_launch_out_of_fuel f s (coherent_no_text s Hco Elt))) in E. }
  destruct f as [|f]; [done|]. pose proof Hco as (Hok & Hn & Hc).
  revert E. cbn [getPlayerData].
  cbv beta iota zeta delta [catch bind ret throw gets modify now_ms set_cache alloc parse_achievements].
  destruct (st_cache s) as [p0|] eqn:Ec; [destruct (st_now s - st_cacheTimestamp s <? CACHE_DURATION)|].
  { intros [= <- <-]. split; [done|by apply Hc]. }
  all: rewrite kv_getItem_ok, Elt by done; destruct b as [r|]; [destruct (s_achievements r) as [l|] eqn:Ea|];
    intros [= <- <-]; [| |split; [by apply coherent_complete|unfold direct_read; by rewrite Elt]..].
  all: assert (Hne : st_next s <> default_loc) by (unfold default_loc; lia).
  all: match goal with |- coherent ?s2 /\ _ =>
         assert (Hd : direct_read s2 = direct_read s)
           by (apply direct_read_frame; [by rewrite <- (latest_text_complete s)|done|cbn; by simpl_map]) end.
  all: match goal with |- coherent ?s2 /\ direct_read _ = Some ?v =>
         assert (Hr : direct_read s = Some v) by (unfold direct_read, view_of; rewrite Elt; cbn; try rewrite Ea; try simpl_map; done);
         split; [eapply coherent_intro; [done|cbn; lia|reflexivity|by rewrite Hd]|exact Hr] end.
Qed.

(** [playerDataCache = q] followed by the write of [q]'s text: the state
    [savePlayerData] and [resetProgress] end in is coherent. *)
Lemma push_coherent (q : PlayerData) (t : Z) (s : Store) :
  st_store_ok s = true -> (0 < st_next s)%N -> rec_ok q ->
  coherent (set_slot_st (st_durable s) (st_pending s ++ [text_of s q]) (set_cache_st (Some q) t s)).
Proof.
  intros Hok Hn Hq. eapply coherent_intro; [done|done|reflexivity|].
  apply (direct_read_written _ q); [done|]. unfold latest_text. cbn. rewrite Hok, last_snoc. reflexivity.
Qed.

(** The record [savePlayerData] merges into: the cached one, or the one
    [getPlayerData] returns; either has the invariant, and the store is
    framed. *)
Lemma current_data_ok (f : nat) (s s1 : Store) (q : PlayerData) :
  store_inv s ->
  (match st_cache s with Some p => ret p | None => getPlayerData f end) s = Done q s1 ->
  rec_ok q /\ store_inv s1 /\ frame s s1.
Proof.
  intros Hs E. destruct (st_cache s) as [p|] eqn:Ec.
  - cbv in E. simplify_eq. pose proof Hs as (Hc & _). rewrite Ec in Hc. split_and!; [done|done|apply frame_refl].
  - pose proof (hoare_Done _ _ _ _ _ (hoare_getPlayerData f) Hs E) as [Hq Hs1].
    pose proof (proj1 (get_save_framed f) s) as Hfr. rewrite E in Hfr. done.
Qed.

(** After [savePlayerData] returns, whatever the state it started from,
    the cache holds the record it wrote. *)
Lemma save_coherent (f : nat) (d : PartialData) (s s2 : Store) :
  st_store_ok s = true -> (0 < st_next s)%N -> store_inv s -> partial_ok d ->
  savePlayerData f d s = Done tt s2 -> coherent s2.
Proof.
  intros Hok Hn Hs Hd E. destruct f as [|f]; [done|]. revert E. cbn [savePlayerData].
  cbv beta iota zeta delta [catch bind throw gets modify now_ms set_cache stringify read_array kv_setItem_async].
  destruct ((match st_cache s with Some p => ret p | None => getPlayerData f end) s) as [q s1| |] eqn:E1;
    [|destruct (st_cache s); [by cbv in E1|]; destruct (getPlayerData_outcome f s) as [E'|(? & ? & E')]; by rewrite E' in E1|by intros ?].
  apply current_data_ok in E1 as (Hq & Hs1 & [Hok1 Hn1]); [|done].
  intros [= <-]. apply push_coherent; [congruence|lia|by apply clamp_merge_ok].
Qed.

Lemma getPlayerData_no_throw (f : nat) (s s1 : Store) (e : Exn) : getPlayerData f s <> Thrown e s1.
Proof. destruct f as [|f]; [done|]. cbn [getPlayerData]. unfold catch, gets. by case_match. Qed.

Lemma savePlayerData_no_throw (f : nat) (d : PartialData) (s s1 : Store) (e : Exn) :
  savePlayerData f d s <> Thrown e s1.
Proof. destruct f as [|f]; [done|]. cbn [savePlayerData]. unfold catch, ret. by case_match. Qed.

(** [get_done E] runs the [getPlayerData] call of an operation on a
    coherent state with the invariant: it cannot throw, and what it
    returns leaves a coherent state with the invariant. *)
Ltac get_done f s Hco Hs :=
  let p := fresh "p" in let s1 := fresh "s1" in let E := fresh "E" in
  destruct (getPlayerData f s) as [p s1| |] eqn:E;
    [|by apply getPlayerData_no_throw in E|by intros ?];
  let Hq := fresh "Hq" in let Hs1 := fresh "Hs1" in let Hco1 := fresh "Hco1" in
  destruct (hoare_Done _ _ _ _ _ (hoare_getPlayerData f) Hs E) as [Hq Hs1];
  destruct (get_coherent f s s1 p Hco E) as [Hco1 _].

(** [save_done] does the same for a final [savePlayerData] call. *)
Ltac save_done :=
  match goal with
  | |- match savePlayerData ?f ?d ?s with _ => _ end = _ -> _ =>
      let E := fresh "E" in
      destruct (savePlayerData f d s) as [[] ?| |] eqn:E;
        [intros [= <-]; eapply save_coherent; [..|exact E]
        |by apply savePlayerData_no_throw in E|by intros ?]
  end.

Lemma add_coherent (f : nat) (a : string) (s s2 : Store) :
  coherent s -> store_inv s -> addAchievement f a s = Done tt s2 -> coherent s2.
Proof.
  intros Hco Hs. unfold addAchievement.
  cbv beta iota zeta delta [catch bind throw gets modify read_array write_array].
  get_done f s Hco Hs. case_bool_decide; [by intros [= <-]|cbv beta]. save_done.
  all: destruct Hco1 as (? & ? & _); cbn; by eauto using no_counters_ok.
Qed.

Lemma update_coherent (f : nat) (level xp : Z) (s s2 : Store) :
  coherent s -> store_inv s -> updateLevel f level xp s = Done tt s2 -> coherent s2.
Proof.
  intros Hco Hs. unfold updateLevel. cbv beta iota zeta delta [catch bind throw gets now_ms].
  get_done f s Hco Hs. save_done.
  all: destruct Hco1 as (? & ? & _); by eauto using update_partial_ok.
Qed.

Lemma unlock_coherent (f : nat) (level : Z) (s s2 : Store) :
  coherent s -> store_inv s -> unlockLevel f level s = Done tt s2 -> coherent s2.
Proof.
  intros Hco Hs. unfold unlockLevel. cbv beta iota zeta delta [catch bind throw gets].
  get_done f s Hco Hs. destruct (level <=? _); cbv beta; [save_done|by intros [= <-]].
  all: destruct Hco1 as (? & ? & _); by eauto using unlock_partial_ok.
Qed.

Lemma export_coherent (f : nat) (s s2 : Store) (b : Blob) :
  coherent s -> store_inv s -> exportData f s = Done b s2 -> coherent s2.
Proof.
  intros Hco Hs. unfold exportData. cbv beta iota zeta delta [catch bind throw gets stringify read_array ret].
  get_done f s Hco Hs. by intros [= _ <-].
Qed.

Lemma reset_coherent (f : nat) (s s2 : Store) :
  coherent s -> store_inv s -> resetProgress f s = Done tt s2 -> coherent s2.
Proof.
  intros (Hok & Hn & Hc) Hs. unfold resetProgress, cached_or_get.
  cbv beta iota zeta delta [catch bind throw gets modify now_ms set_cache stringify read_array kv_setItem_await].
  destruct ((match st_cache s with Some p => ret p | None => getPlayerData f end) s) as [q s1| |] eqn:E1;
    [|destruct (st_cache s); [by cbv in E1|]; by apply getPlayerData_no_throw in E1|by intros ?].
  apply current_data_ok in E1 as (Hq & Hs1 & [Hok1 Hn1]); [|done]. cbn. rewrite Hok1, Hok.
  intros [= <-]. apply coherent_complete, push_coherent; [congruence|lia|unfold rec_ok; cbn; lia].
Qed.

Lemma clearCache_coherent (s s2 : Store) : coherent s -> clearCache s = Done tt s2 -> coherent s2.
Proof. intros (Hok & Hn & _) [= <-]. by split_and!. Qed.

Lemma tick_coherent (d : Z) (s : Store) : coherent s -> coherent (tick d s).
Proof.
  intros (Hok & Hn & Hc). split_and!; [done|done|]. intros p Hp.
  rewrite (direct_read_frame s (tick d s)); [by apply Hc|done..].
Qed.

Lemma restart_coherent (s : Store) : coherent s -> coherent (restart s).
Proof. intros (Hok & _ & _). by split_and!. Qed.

Lemma boot_coherent (slot : option Blob) (now : Z) : coherent (boot slot now).
Proof. by split_and!. Qed.

(** Every step of the API keeps the cache coherent. *)
Lemma api_step_coherent (s s' : Store) : coherent s -> store_inv s -> api_step s s' -> coherent s'.
Proof.
  intros Hco Hs Hstep. pose proof Hco as (Hok & Hn & _).
  destruct Hstep as [f ? p ? E|f d ? ? Hd E|f ? ? E|f a ? ? E|f lv xp ? ? E
    |f ? b ? E|f lv ? ? E|? ? E|d ?|?];
    eauto using get_coherent, save_coherent, reset_coherent, add_coherent, update_coherent,
      export_coherent, unlock_coherent, clearCache_coherent, tick_coherent, restart_coherent.
  by eapply get_coherent.
Qed.

Lemma reachable_coherent (s : Store) : reachable s -> coherent s.
Proof.
  intros Hr. pose proof (reachable_inv s Hr) as Hs. destruct Hr as (slot & now & Hslot & Hrtc).
  assert (H : coherent (boot slot now) /\ store_inv (boot slot now)) by
    (split; [apply boot_coherent|by apply boot_inv]).
  clear Hs. induction Hrtc as [|x y z Hxy _ IH]; [apply H|]. apply IH.
  destruct H as [Hco Hs]. split; [by eapply api_step_coherent|by eapply api_step_inv].
Qed.

(** ** The cache through the API *)

(** The record [getPlayerData] returns is what a read that bypasses the
    cache gives, in every state reached through the API's calls but
    [importData], restarts and the passing of time, as long as each save
    writes both counters with [currentLevel <= levelsCompleted + 1] or
    neither (the saves the tabs make, see [App]) and the store works: an
    unchecked save breaks it ([unchecked_save_desyncs]). *)
Lemma getPlayerData_transparent (f : nat) (s s' : Store) (p : PlayerData) :
  reachable s -> getPlayerData f s = Done p s' -> direct_read s = Some (view_of (st_heap s') p).
Proof. intros Hr E. exact (proj2 (get_coherent f s s' p (reachable_coherent s Hr) E)). Qed.

Lemma cached_record_is_stored (s : Store) (p : PlayerData) :
  reachable s -> st_cache s = Some p -> direct_read s = Some (view_of (st_heap s) p).
Proof. intros Hr Hc. destruct (reachable_coherent s Hr) as (_ & _ & H). by apply H. Qed.

(** ** Runs of the API *)

Section ApiRuns.

Context {A B : Type}.

Lemma api_run_ret (a : A) : api_run (ret a).
Proof. intros s. apply rtc_refl. Qed.

Lemma api_run_gets (g : Store -> A) : api_run (gets g).
Proof. intros s. apply rtc_refl. Qed.

Lemma api_run_throw (e : Exn) : api_run (A := A) (throw e).
Proof. intros s. apply rtc_refl. Qed.

Lemma api_run_bind (m : M A) (k : A -> M B) : api_run m -> (forall a, api_run (k a)) -> api_run (bind m k).
Proof.
  intros Hm Hk s. unfold bind. specialize (Hm s). destruct (m s) as [a s1|e s1|]; [|done|done].
  specialize (Hk a s1). destruct (k a s1); try done; by etrans.
Qed.

Lemma api_run_catch (m : M A) (h : Exn -> M A) : api_run m -> (forall e, api_run (h e)) -> api_run (catch m h).
Proof.
  intros Hm Hh s. unfold catch. specialize (Hm s). destruct (m s) as [a s1|e s1|]; [done| |done].
  specialize (Hh e s1). destruct (h e s1); try done; by etrans.
Qed.

Lemma api_run_Done (m : M A) (s s' : Store) (a : A) : api_run m -> m s = Done a s' -> rtc api_step s s'.
Proof. intros Hm E. specialize (Hm s). by rewrite E in Hm. Qed.

Lemma api_run_Thrown (m : M A) (s s' : Store) (e : Exn) : api_run m -> m s = Thrown e s' -> rtc api_step s s'.
Proof. intros Hm E. specialize (Hm s). by rewrite E in Hm. Qed.

End ApiRuns.

Lemma api_run_getPlayerData (f : nat) : api_run (getPlayerData f).
Proof.
  intros s. destruct (getPlayerData f s) eqn:E; [|by apply getPlayerData_no_throw in E|done].
  apply rtc_once. by eapply step_get.
Qed.

Lemma api_run_savePlayerData (f : nat) (d : PartialData) : partial_ok d -> api_run (savePlayerData f d).
Proof.
  intros Hd s. destruct (savePlayerData f d s) as [[]| |] eqn:E; [|by apply savePlayerData_no_throw in E|done].
  apply rtc_once. by eapply step_save.
Qed.

Lemma api_run_resetProgress (f : nat) : api_run (resetProgress f).
Proof.
  intros s. destruct (resetProgress f s) as [[]|e s'|] eqn:E; [apply rtc_once; by eapply step_reset| |done].
  exfalso. revert E. unfold resetProgress, catch, ret. by case_match.
Qed.

Create HintDb api_run.
#[export] Hint Resolve api_run_ret api_run_gets api_run_throw api_run_getPlayerData
  api_run_savePlayerData api_run_resetProgress : api_run.

(** [asteps] takes an [api_run] goal apart along the program. *)
Ltac asteps :=
  repeat match goal with
  | |- api_run (catch _ _) => apply api_run_catch; [|intros ?]
  | |- api_run (bind _ _) => apply api_run_bind; [|intros ?]
  | |- api_run (match ?x with _ => _ end) => destruct x
  | |- api_run (if ?b then _ else _) => destruct b
  | |- api_run _ => first [ solve [eauto with api_run] | assumption ]
  end.

(** ** Properties *)

#[local] Abbreviation sample_text :=
  (BRecord (mkStoredRecord (Some 4) (Some 120) (Some 3) (Some []) None None None)).

#[local] Abbreviation level_500 := (mkPartialData (Some 500) None None None None None None).

(** C12: [savePlayerData] clamps each counter to its range (lines 80-83)
    but does not keep [currentLevel <= levelsCompleted + 1], and takes a
    [Partial<PlayerData>]: after [savePlayerData({currentLevel: 500})] on
    a store at level 4 with three levels completed, [getPlayerData]
    returns level 500 from the cache, a record outside the spec's
    invariant, while a read of the store gives level 4, which is what
    [getPlayerData] returns once the five seconds have passed: the cache
    no longer shows what the store holds. *)
Theorem unchecked_save_desyncs :
  exists s1 p s2 v q s3, savePlayerData 3 level_500 (boot (Some sample_text) 0) = Done tt s1 /\
    getPlayerData 2 s1 = Done p s2 /\ currentLevel p = 500 /\ levelsCompleted p = 3 /\ ~ rec_ok p /\
    direct_read s1 = Some v /\ v_currentLevel v = 4 /\
    getPlayerData 2 (tick 5000 s1) = Done q s3 /\ currentLevel q = 4.
Proof.
  do 6 eexists. split; [vm_compute; reflexivity|]. split; [vm_compute; reflexivity|].
  split; [reflexivity|]. split; [reflexivity|]. split; [unfold rec_ok; cbn; lia|].
  split; [vm_compute; reflexivity|]. split; [reflexivity|]. split; [vm_compute; reflexivity|].
  reflexivity.
Qed.

End StorageCache.
