(* ===== verification/GameScreen.v ===== *)
(** * The game tab ([src/project/app/(tabs)/game.tsx])

    The screen's React state ([GameState], lines 10-16), the level it
    shows ([level_of], lines 19-22), its handlers (lines 38-154 and the
    buttons of lines 204, 225, 238, 282, 312 and 330-342) and the
    conditions that enable its buttons.  The callbacks [setTimeout]
    schedules are explicit [Timer]s that carry the state their closure
    read; the alert of a wrong answer is open until its [Retry] is
    pressed.  [handleAnswerSelect] is memoised with [useCallback] on
    [[isAnswered, level?.correctAnswer]] only: the [Screen] keeps the
    state of the render that made the function it holds ([sc_memo]), and
    every render replaces it exactly when those dependencies change
    ([memo_render]).  The other handlers list every value they read among
    their dependencies, so the current render's are the ones called.
    [ui_step] is the screen's step relation: the user's presses, the
    timers firing in order, the clock.  The level lookup is a parameter
    ([levelAt]): the real one, [level_of] on the [GameLevels] object,
    never finds a level; [intended_level] is what the proxy's trap would
    return if it were reached. *)

From Stdlib Require Import ZArith Lia List String.
From stdpp Require Import base list gmap strings relations.
From S2P Require Import Prelude JsString Levels LevelCache GameLevels Storage StorageInv.
Import JsString Levels GameLevels Storage StorageInv.

Module GameScreen.

Local Open Scope Z_scope.
Local Open Scope store_scope.

(** ** State *)

(** The [useState] hooks of [GameTab] (lines 10-16).  [playerData] is the
    object the screen holds: [null], the record [getPlayerData] returned,
    or the spread [handleCorrectAnswer] built, whose fields may be
    missing. *)
Record GameState := mkGameState {
  g_currentLevel : Z;
  g_selectedAnswer : option Z;
  g_isAnswered : bool;
  g_playerData : option PartialData;
  g_showFeedback : bool;
  g_showLevelComplete : bool;
  g_isLoading : bool
}.

(** The setters [useState] returns. *)
Definition set_currentLevel (v : Z) (g : GameState) : GameState :=
  mkGameState v (g_selectedAnswer g) (g_isAnswered g) (g_playerData g)
    (g_showFeedback g) (g_showLevelComplete g) (g_isLoading g).
Definition set_selectedAnswer (v : option Z) (g : GameState) : GameState :=
  mkGameState (g_currentLevel g) v (g_isAnswered g) (g_playerData g)
    (g_showFeedback g) (g_showLevelComplete g) (g_isLoading g).
Definition set_isAnswered (v : bool) (g : GameState) : GameState :=
  mkGameState (g_currentLevel g) (g_selectedAnswer g) v (g_playerData g)
    (g_showFeedback g) (g_showLevelComplete g) (g_isLoading g).
Definition set_playerData (v : option PartialData) (g : GameState) : GameState :=
  mkGameState (g_currentLevel g) (g_selectedAnswer g) (g_isAnswered g) v
    (g_showFeedback g) (g_showLevelComplete g) (g_isLoading g).
Definition set_showFeedback (v : bool) (g : GameState) : GameState :=
  mkGameState (g_currentLevel g) (g_selectedAnswer g) (g_isAnswered g) (g_playerData g)
    v (g_showLevelComplete g) (g_isLoading g).
Definition set_showLevelComplete (v : bool) (g : GameState) : GameState :=
  mkGameState (g_currentLevel g) (g_selectedAnswer g) (g_isAnswered g) (g_playerData g)
    (g_showFeedback g) v (g_isLoading g).
Definition set_isLoading (v : bool) (g : GameState) : GameState :=
  mkGameState (g_currentLevel g) (g_selectedAnswer g) (g_isAnswered g) (g_playerData g)
    (g_showFeedback g) (g_showLevelComplete g) v.

Definition initialState : GameState := mkGameState 1 None false None false false true.

(** [playerData?.field] *)
Definition pd_get {A} (f : PartialData -> option A) (pd : option PartialData) : option A :=
  match pd with Some d => f d | None => None end.

(** [playerData?.levelsCompleted || 0], the bound of the navigation. *)
Definition lcv (g : GameState) : Z := js_or (pd_get p_levelsCompleted (g_playerData g)) 0.

(** ** The level shown *)

(** [GameLevels.length]: the [length] property of the object. *)
Definition GameLevels_length (obj : JsObject) : Z :=
  match js_get obj (KStr "length") with JNumber n => n | _ => 0 end.

(** The [level] memo (lines 19-22): [null] out of range, else
    [GameLevels[currentLevel - 1]]; [!level] holds of [undefined]. *)
Definition level_of (obj : JsObject) (cl : Z) : option GameLevel :=
  if (cl <? 1) || (GameLevels_length obj <? cl) then None
  else match GameLevels_at obj (cl - 1) with JLevel l => Some l | _ => None end.

(** What [GameLevels[cl - 1]] would be if the reads reached the proxy's
    [get] trap (lines 433-446); by [getLevel_refinement] the cache it
    threads does not change the level, so it starts empty. *)
Definition intended_level (cl : Z) : option GameLevel :=
  match proxy_get ∅ (js_String (cl - 1)) with Some (JLevel l, _) => Some l | _ => None end.

(** [displayCharacter] (lines 25-27) *)
Definition displayCharacter (g : GameState) : Character :=
  opt_or (pd_get p_character (g_playerData g)) Wizard.

(** The replacements of [adaptedStory] for a wizard player (lines 62-68)
    and for a spy player (lines 70-76), in the order they are applied. *)
Definition to_wizard_replacements : list (string * string) :=
  [("🕵️‍♀️", "🧙‍♂️"); ("Agent", "Wizard"); ("spy", "wizard"); ("mission", "quest"); ("classified", "magical"); ("intel", "spell data")].

Definition to_spy_replacements : list (string * string) :=
  [("🧙‍♂️", "🕵️‍♀️"); ("Wizard", "Agent"); ("wizard", "spy"); ("quest", "mission"); ("magical", "classified"); ("spell data", "intel")].

Definition replace_chain (s : string) (rs : list (string * string)) : string :=
  fold_left (fun acc pr => js_replace_all acc pr.1 pr.2) rs s.

(** [adaptedStory] (lines 52-78) *)
Definition adaptedStory (level : option GameLevel) (g : GameState) : string :=
  match level with
  | None => EmptyString
  | Some l =>
      if bool_decide (Levels.character l = displayCharacter g) then story l
      else match displayCharacter g with
           | Wizard => replace_chain (story l) to_wizard_replacements
           | Spy => replace_chain (story l) to_spy_replacements
           end
  end.

(** What the screen renders (lines 186-212 and 214 on). *)
Inductive View := VLoading | VCompleted | VLevel (l : GameLevel).

Definition screen_view (levelAt : Z -> option GameLevel) (g : GameState) : View :=
  if g_isLoading g then VLoading
  else match levelAt (g_currentLevel g) with None => VCompleted | Some l => VLevel l end.

(** ** Handlers *)

(** [loadPlayerData] (lines 38-49) *)
Definition loadPlayerData (fuel : nat) (g : GameState) : M GameState :=
  let g1 := set_isLoading true g in
  g2 <- catch (data <- getPlayerData fuel ;;
               ret (set_currentLevel (currentLevel data) (set_playerData (Some (partial_of data)) g1)))
              (fun _ => ret g1) ;;
  ret (set_isLoading false g2).

(** The callbacks [setTimeout] schedules: the check [handleAnswerSelect]
    schedules (lines 89-95), with the level and the state its closure
    read, and the alert [handleIncorrectAnswer] schedules (lines 121-131). *)
Inductive Timer :=
  | TCorrect (l : GameLevel) (closure : GameState)
  | TIncorrect (l : GameLevel)
  | TAlert (l : GameLevel).

(** [handleAnswerSelect] (lines 80-96).  It is memoised with
    [useCallback(..., [isAnswered, level?.correctAnswer])], so the
    function a press calls is the one made in the render [closure] where
    those two values last changed: its guard, its [level] and the
    [handleCorrectAnswer] and [handleIncorrectAnswer] its callback calls
    are that render's.  The three setters act on the current state [g]. *)
Definition handleAnswerSelect (l : GameLevel) (closure g : GameState) (answerIndex : Z)
    : GameState * option Timer :=
  if g_isAnswered closure then (g, None)
  else let g' := set_showFeedback true (set_isAnswered true (set_selectedAnswer (Some answerIndex) g)) in
       (g', Some (if Z.eqb answerIndex (correctAnswer l) then TCorrect l closure else TIncorrect l)).

(** [updatedData] of [handleCorrectAnswer] (lines 100-110): the spread of
    [playerData] ([null] spreads no field) with the four fields set. *)
Definition correct_update (pd : option PartialData) (cl xpGained now : Z) : PartialData :=
  let base := opt_or pd no_fields in
  {| p_currentLevel := Some (if cl <? 1000 then cl + 1 else cl);
     p_totalXP := Some (js_or (pd_get p_totalXP pd) 0 + xpGained);
     p_levelsCompleted := Some (Z.max (js_or (pd_get p_levelsCompleted pd) 0) cl);
     p_achievements := p_achievements base;
     p_character := p_character base;
     p_lastPlayed := Some now;
     p_createdAt := p_createdAt base |}.

(** [handleCorrectAnswer] (lines 98-118), memoised on [[level?.xpReward,
    playerData, currentLevel]], the values it reads: the one a render
    holds computes from that render's state [closure]; it sets
    [playerData] and [showLevelComplete] on the screen's state [g] when it
    runs. *)
Definition handleCorrectAnswer (fuel : nat) (l : GameLevel) (closure g : GameState) : M GameState :=
  catch (now <- now_ms ;;
         let updatedData := correct_update (g_playerData closure) (g_currentLevel closure)
                              (xpReward l) now in
         savePlayerData fuel updatedData ;;
         ret (set_showLevelComplete true (set_playerData (Some updatedData) g)))
        (fun _ => ret g).

(** [resetLevel] (lines 135-140) *)
Definition resetLevel (g : GameState) : GameState :=
  set_showLevelComplete false (set_showFeedback false (set_isAnswered false (set_selectedAnswer None g))).

(** [handleIncorrectAnswer] (lines 120-133): it schedules the alert, 300 ms
    later, whose only button, [Retry], calls [resetLevel]. *)
Definition handleIncorrectAnswer (l : GameLevel) : Timer := TAlert l.

(** [handleNextLevel] (lines 142-147) *)
Definition handleNextLevel (g : GameState) : GameState :=
  resetLevel (if g_currentLevel g <? 1000 then set_currentLevel (g_currentLevel g + 1) g else g).

(** [handlePreviousLevel] (lines 149-154) *)
Definition handlePreviousLevel (g : GameState) : GameState :=
  if (1 <? g_currentLevel g) && (g_currentLevel g <=? lcv g + 1)
  then resetLevel (set_currentLevel (g_currentLevel g - 1) g) else g.

(** The [Play Again] button of the completed view (line 204). *)
Definition playAgain (g : GameState) : GameState := set_currentLevel 1 g.

(** The modal's [Continue] button and its close request (lines 312, 338). *)
Definition closeModal (g : GameState) : GameState := set_showLevelComplete false g.

(** ** Buttons *)

(** The back arrow is disabled at level 1 (line 225). *)
Definition prev_disabled (g : GameState) : bool := g_currentLevel g <=? 1.

(** The forward arrow is disabled past the completed levels (line 238). *)
Definition next_disabled (g : GameState) : bool := lcv g <? g_currentLevel g.

(** ** The screen as a transition system *)

(** The screen's state, the callbacks waiting to fire (oldest first), the
    state of the render that made the [handleAnswerSelect] the screen
    holds, and whether the alert of a wrong answer is open. *)
Record Screen := mkScreen {
  sc_game : GameState;
  sc_timers : list Timer;
  sc_memo : GameState;
  sc_alert : bool
}.

(** The screen the tab's first render builds. *)
Definition mounted_screen : Screen := mkScreen initialState [] initialState false.

Section Steps.

(** The level lookup the screen uses, and whether the player waits for
    the pending callbacks before pressing a navigation button (the code
    does not force it). *)
Variable levelAt : Z -> option GameLevel.
Variable waits : bool.

(** The dependencies of [handleAnswerSelect] (line 96). *)
Definition answer_deps (g : GameState) : bool * option Z :=
  (g_isAnswered g, option_map correctAnswer (levelAt (g_currentLevel g))).

(** [useCallback] at a render of state [g]: the function made in [memo]
    is kept when the dependencies are those it was made with, else a new
    one closes over [g]. *)
Definition memo_render (memo g : GameState) : GameState :=
  if bool_decide (answer_deps g = answer_deps memo) then memo else g.

(** The screen after a handler leaves the state [g] and the timers [ts]:
    React renders [g]. *)
Definition render (sc : Screen) (g : GameState) (ts : list Timer) (alert : bool) : Screen :=
  mkScreen g ts (memo_render (sc_memo sc) g) alert.

Definition quiet (sc : Screen) : Prop := waits = true -> sc_timers sc = [].

(** The user's presses need the alert closed: it is modal. *)
Inductive ui_step : Screen * Store -> Screen * Store -> Prop :=
  | ui_load f sc s g' s' :
      g_isLoading (sc_game sc) = true ->
      loadPlayerData f (sc_game sc) s = Done g' s' ->
      ui_step (sc, s) (render sc g' (sc_timers sc) (sc_alert sc), s')
  | ui_select sc s lc l i g' t :
      sc_alert sc = false -> screen_view levelAt (sc_game sc) = VLevel lc ->
      g_isAnswered (sc_game sc) = false -> 0 <= i < Z.of_nat (length (answers lc)) ->
      levelAt (g_currentLevel (sc_memo sc)) = Some l ->
      handleAnswerSelect l (sc_memo sc) (sc_game sc) i = (g', Some t) ->
      ui_step (sc, s) (render sc g' (sc_timers sc ++ [t]) false, s)
  | ui_fire_correct f l c ts sc s g' s' :
      sc_timers sc = TCorrect l c :: ts -> handleCorrectAnswer f l c (sc_game sc) s = Done g' s' ->
      ui_step (sc, s) (render sc g' ts (sc_alert sc), s')
  | ui_fire_incorrect l ts sc s :
      sc_timers sc = TIncorrect l :: ts ->
      ui_step (sc, s) (render sc (sc_game sc) (ts ++ [handleIncorrectAnswer l]) (sc_alert sc), s)
  | ui_fire_alert l ts sc s :
      sc_timers sc = TAlert l :: ts -> ui_step (sc, s) (render sc (sc_game sc) ts true, s)
  | ui_retry sc s :
      sc_alert sc = true -> ui_step (sc, s) (render sc (resetLevel (sc_game sc)) (sc_timers sc) false, s)
  | ui_prev sc s l :
      sc_alert sc = false -> screen_view levelAt (sc_game sc) = VLevel l ->
      prev_disabled (sc_game sc) = false -> quiet sc ->
      ui_step (sc, s) (render sc (handlePreviousLevel (sc_game sc)) (sc_timers sc) false, s)
  | ui_next sc s l :
      sc_alert sc = false -> screen_view levelAt (sc_game sc) = VLevel l ->
      next_disabled (sc_game sc) = false -> quiet sc ->
      ui_step (sc, s) (render sc (handleNextLevel (sc_game sc)) (sc_timers sc) false, s)
  | ui_modal_next sc s l :
      sc_alert sc = false -> screen_view levelAt (sc_game sc) = VLevel l ->
      g_showLevelComplete (sc_game sc) = true -> g_currentLevel (sc_game sc) < 1000 -> quiet sc ->
      ui_step (sc, s) (render sc (handleNextLevel (sc_game sc)) (sc_timers sc) false, s)
  | ui_modal_continue sc s l :
      sc_alert sc = false -> screen_view levelAt (sc_game sc) = VLevel l ->
      g_showLevelComplete (sc_game sc) = true -> 1000 <= g_currentLevel (sc_game sc) ->
      ui_step (sc, s) (render sc (closeModal (sc_game sc)) (sc_timers sc) false, s)
  | ui_modal_close sc s l :
      sc_alert sc = false -> screen_view levelAt (sc_game sc) = VLevel l ->
      g_showLevelComplete (sc_game sc) = true ->
      ui_step (sc, s) (render sc (closeModal (sc_game sc)) (sc_timers sc) false, s)
  | ui_play_again sc s :
      sc_alert sc = false -> screen_view levelAt (sc_game sc) = VCompleted -> quiet sc ->
      ui_step (sc, s) (render sc (playAgain (sc_game sc)) (sc_timers sc) false, s)
  | ui_time d sc s : ui_step (sc, s) (sc, tick d s).

End Steps.

(** The screen when the tab mounts, over a store. *)
Definition mounted (s : Store) : Screen * Store := (mounted_screen, s).

(** ** The preload effect *)

#[local] Existing Instance LevelCache.generator_source.

(** The tab with the generator's level cache (the static map of
    [GameLevelGenerator]) and the [currentLevel] the preload effect last
    ran with. *)
Record Tab := mkTab {
  tb_screen : Screen;
  tb_store : Store;
  tb_cache : gmap Z GameLevel;
  tb_last : option Z
}.

Definition tab_level (t : Tab) : Z := g_currentLevel (sc_game (tb_screen t)).

(** [useEffect(() => { preloadGameLevels(currentLevel); }, [currentLevel])]
    (lines 29-32): after a render whose [currentLevel] differs from the
    one the effect last ran with, the cache is warmed from it; a throw
    inside leaves what the loop cached before it. *)
Definition preload_effect (t : Tab) : Tab :=
  if bool_decide (tb_last t = Some (tab_level t)) then t
  else mkTab (tb_screen t) (tb_store t)
             (fst (LevelCache.preloadGameLevels (tb_cache t) (tab_level t))) (Some (tab_level t)).

(** Every render of the tab runs the effect. *)
Inductive tab_step (levelAt : Z -> option GameLevel) (waits : bool) : Tab -> Tab -> Prop :=
  | tab_render sc s sc' s' c last :
      ui_step levelAt waits (sc, s) (sc', s') ->
      tab_step levelAt waits (mkTab sc s c last) (preload_effect (mkTab sc' s' c last)).

(** The first render: the effect runs with level 1. *)
Definition tab_mounted (s : Store) (cache : gmap Z GameLevel) : Tab :=
  preload_effect (mkTab mounted_screen s cache None).

(** What the effect keeps: the cache holds generated levels only, and
    the five ids from the current level, up to 1000, are cached when the
    level is not negative. *)
Definition warmed (t : Tab) : Prop :=
  LevelCache.cache_ok (tb_cache t) /\ tb_last t = Some (tab_level t) /\
  (0 <= tab_level t ->
   forall k, tab_level t <= k < tab_level t + 5 -> k <= 1000 -> is_Some (tb_cache t !! k)).

(** ** Lemmas *)

Lemma js_or_0 (z : Z) : js_or (Some z) 0 = z.
Proof. unfold js_or. by destruct (Z.eqb_spec z 0). Qed.

(** The update [handleCorrectAnswer] saves writes both counters with
    [currentLevel <= levelsCompleted + 1]. *)
Lemma correct_update_ok (pd : option PartialData) (cl xp now : Z) :
  partial_ok (correct_update pd cl xp now).
Proof. unfold partial_ok, correct_update; simpl. destruct (Z.ltb_spec cl 1000); lia. Qed.

Lemma lcv_correct_update (g : GameState) (pd : option PartialData) (cl xp now : Z) :
  1 <= cl ->
  lcv (set_playerData (Some (correct_update pd cl xp now)) g) =
  Z.max (js_or (pd_get p_levelsCompleted pd) 0) cl.
Proof. intros. unfold lcv; simpl. apply js_or_0. Qed.

Lemma lcv_partial_of (g : GameState) (p : PlayerData) :
  lcv (set_playerData (Some (partial_of p)) g) = levelsCompleted p.
Proof. apply js_or_0. Qed.

Lemma hoare_handleCorrectAnswer (f : nat) (l : GameLevel) (c g : GameState) :
  hoare (handleCorrectAnswer f l c g) (fun g' => g' = g \/ exists now,
    g' = set_showLevelComplete true
           (set_playerData (Some (correct_update (g_playerData c) (g_currentLevel c) (xpReward l) now)) g)).
Proof.
  unfold handleCorrectAnswer. apply hoare_catch; [|intros; apply hoare_ret; by left].
  eapply hoare_bind; [apply hoare_now_ms|]. intros now _.
  eapply hoare_bind; [apply hoare_savePlayerData, correct_update_ok|]. intros _ _.
  apply hoare_ret. right. by exists now.
Qed.

Lemma hoare_loadPlayerData (f : nat) (g : GameState) :
  hoare (loadPlayerData f g) (fun g' => g' = set_isLoading false (set_isLoading true g) \/
    exists p, rec_ok p /\ g' = set_isLoading false (set_currentLevel (currentLevel p)
                                 (set_playerData (Some (partial_of p)) (set_isLoading true g)))).
Proof.
  unfold loadPlayerData.
  apply (hoare_bind _ _ (fun g2 => g2 = set_isLoading true g \/ exists p, rec_ok p /\
    g2 = set_currentLevel (currentLevel p) (set_playerData (Some (partial_of p)) (set_isLoading true g)))).
  - apply hoare_catch; [|intros; apply hoare_ret; by left].
    eapply hoare_bind; [apply hoare_getPlayerData|]. intros p Hp. apply hoare_ret. eauto.
  - intros g2 Hg2. apply hoare_ret. destruct Hg2 as [->|(p & Hp & ->)]; [left|right]; eauto.
Qed.

(** One step of the screen keeps the store's invariant, whether or not
    the player waits for the callbacks. *)
Lemma ui_step_store_inv (levelAt : Z -> option GameLevel) (w : bool) (sc sc' : Screen) (s s' : Store) :
  store_inv s -> ui_step levelAt w (sc, s) (sc', s') -> store_inv s'.
Proof.
  intros Hs Hstep. inversion Hstep; subst;
    first [ done | by apply tick_inv
          | eapply hoare_Done; [apply hoare_loadPlayerData|done|eassumption]
          | eapply hoare_Done; [apply hoare_handleCorrectAnswer|done|eassumption] ].
Qed.

(** After every render the screen holds the [handleAnswerSelect] made for
    the dependencies of its current state. *)
Lemma ui_step_memo (levelAt : Z -> option GameLevel) (w : bool) (sc sc' : Screen) (s s' : Store) :
  answer_deps levelAt (sc_memo sc) = answer_deps levelAt (sc_game sc) ->
  ui_step levelAt w (sc, s) (sc', s') ->
  answer_deps levelAt (sc_memo sc') = answer_deps levelAt (sc_game sc').
Proof.
  intros H Hstep. inversion Hstep; subst; [..|done]; unfold render, memo_render; cbn; by case_bool_decide.
Qed.

(** Runs of the screen keep both. *)
Lemma ui_run_inv (levelAt : Z -> option GameLevel) (w : bool) (x y : Screen * Store) :
  rtc (ui_step levelAt w) x y -> store_inv x.2 ->
  answer_deps levelAt (sc_memo x.1) = answer_deps levelAt (sc_game x.1) ->
  store_inv y.2 /\ answer_deps levelAt (sc_memo y.1) = answer_deps levelAt (sc_game y.1).
Proof.
  induction 1 as [|[sc s] [sc' s'] z Hstep _ IH]; [done|]. intros Hs Hm.
  apply IH; [by eapply ui_step_store_inv|by eapply ui_step_memo].
Qed.

(** So a press of an answer the screen shows is always handled: the
    function the screen holds was made at a render with the current
    [isAnswered] and a level with the current [correctAnswer]. *)
Lemma select_closure (levelAt : Z -> option GameLevel) (w : bool) (s0 s : Store) (sc : Screen) (lc : GameLevel) :
  store_inv s0 -> rtc (ui_step levelAt w) (mounted s0) (sc, s) ->
  screen_view levelAt (sc_game sc) = VLevel lc ->
  exists l, levelAt (g_currentLevel (sc_memo sc)) = Some l /\ correctAnswer l = correctAnswer lc /\
    g_isAnswered (sc_memo sc) = g_isAnswered (sc_game sc).
Proof.
  intros Hs0 Hrun Hv. destruct (ui_run_inv _ _ _ _ Hrun Hs0 eq_refl) as [_ Hm]. cbn in Hm.
  unfold answer_deps, screen_view in *. destruct (g_isLoading (sc_game sc)); [done|].
  destruct (levelAt (g_currentLevel (sc_game sc))) as [l'|]; [|done]. injection Hv as ->.
  destruct (levelAt (g_currentLevel (sc_memo sc))) as [l|]; [|done]. injection Hm as E1 E2. eauto.
Qed.

(** ** Properties *)

(** C3: with the [GameLevels] object the program builds, the
    game tab never shows a level: once loaded it always renders the
    "You've completed all 1000 levels!" view, whatever the current level. *)
Theorem game_never_shows_level (cache cache' : gmap Z GameLevel) (obj : JsObject) (g : GameState) :
  GameLevels_object cache = Some (obj, cache') ->
  screen_view (level_of obj) g = if g_isLoading g then VLoading else VCompleted.
Proof.
  rewrite GameLevels_object_eq. intros [= <- _].
  unfold screen_view, level_of. rewrite GameLevels_at_built. by repeat case_match.
Qed.

(** C33: whatever the player presses and whenever the feedback
    callbacks fire, the game tab's writes keep the store's invariant. *)
Theorem game_store_inv (levelAt : Z -> option GameLevel) (w : bool) (s0 s : Store) (sc : Screen) :
  store_inv s0 -> rtc (ui_step levelAt w) (mounted s0) (sc, s) -> store_inv s.
Proof. intros Hs0 Hrun. exact (proj1 (ui_run_inv _ _ _ _ Hrun Hs0 eq_refl)). Qed.

#[local] Abbreviation resume_store :=
  (boot (Some (BRecord (mkStoredRecord (Some 2) (Some 30) (Some 1) (Some []) None None None))) 1000).

Ltac comp := cbv; reflexivity.

(** C16: the dependencies of [handleAnswerSelect] (line 96) leave out
    [handleCorrectAnswer], so the callback it schedules runs the
    [handleCorrectAnswer] of the render where [isAnswered] or
    [level.correctAnswer] last changed.  With the levels the proxy was
    meant to give (levels 1 and 2 both have [correctAnswer] 1), a player
    who resumes at level 2 with one level completed and 30 XP, answers it
    right and waits for the feedback, has the answer credited by the
    first render's closure (level 1, no record): the store gets the
    progress of a new player who finished level 1 (10 XP, one level
    completed), and the modal's "Next Level" moves to level 3, two past
    [levelsCompleted]. *)
Theorem stale_answer_closure :
  exists sc s p, rtc (ui_step intended_level true) (mounted resume_store) (sc, s) /\
    g_currentLevel (sc_game sc) = 3 /\ lcv (sc_game sc) = 1 /\
    st_cache s = Some p /\ totalXP p = 10 /\ levelsCompleted p = 1.
Proof.
  eexists _, _, _. split_and!.
  - eapply rtc_l. { eapply (ui_load _ _ 2); comp. }
    eapply rtc_l. { eapply (ui_select _ _ _ _ _ _ 1); [comp|comp|comp|cbn; lia|comp|comp]. }
    eapply rtc_l. { eapply (ui_fire_correct _ _ 1); comp. }
    eapply rtc_l. { eapply ui_modal_next; [comp|comp|comp|cbn; lia|intros _; comp]. }
    apply rtc_refl.
  - comp.
  - comp.
  - comp.
  - comp.
  - comp.
Qed.

(** ** Witnesses *)

Lemma preload_effect_warmed (t : Tab) :
  LevelCache.cache_ok (tb_cache t) -> (tb_last t = Some (tab_level t) -> warmed t) ->
  warmed (preload_effect t).
Proof.
  intros Hok Hsame. unfold preload_effect. case_bool_decide as E; [by apply Hsame|].
  destruct (LevelCache.preloadGameLevels (tb_cache t) (tab_level t)) as [c' okp] eqn:Ep.
  assert (Ep' : LevelCache.preload_loop 5 (tab_level t) (tab_level t + 5) (tb_cache t) = (c', okp))
    by exact Ep.
  destruct (LevelCache.preload_loop_spec _ _ _ _ _ _ Hok Ep') as (Hok' & _ & _ & Hcov).
  unfold warmed, tab_level in *. cbn. split_and!; [done | done |].
  intros Hnn k Hk Hk'. apply Hcov; [| lia | lia | done].
  pose proof (LevelCache.preloadLevels_generator_completes (tb_cache t) _ 5 Hnn) as Hc.
  unfold LevelCache.preloadLevels in Hc. change (Z.to_nat 5) with 5%nat in Hc. by rewrite Ep' in Hc.
Qed.

Lemma tab_step_warmed levelAt waits (t t' : Tab) :
  warmed t -> tab_step levelAt waits t t' -> warmed t'.
Proof.
  intros (Hok & Hl & Hcov) Hs. destruct Hs as [sc s sc' s' c last Hui].
  apply preload_effect_warmed; [done|]. intros Hlast. unfold warmed, tab_level in *; cbn in *.
  rewrite Hl in Hlast. injection Hlast as Heq. rewrite <- Heq. by split_and!.
Qed.

(** C17: outside a first launch the game tab leaves its loading view:
    from the mounted screen, [loadPlayerData] completes in one step with
    no callback pending, whatever the player does meanwhile.  (On a first
    launch it never completes: see [first_launch_diverges].) *)
Theorem game_load_completes (levelAt : Z -> option GameLevel) (waits : bool) (s : Store) :
  ~ StorageProps.first_launch s ->
  exists sc s', ui_step levelAt waits (mounted s) (sc, s') /\ sc_timers sc = [] /\
    screen_view levelAt (sc_game sc) <> VLoading.
Proof.
  intros Hnf. destruct (StorageProps.getPlayerData_terminates 0 s Hnf) as [_ Hne].
  destruct (StorageProps.getPlayerData_outcome 2 s) as [?|(p & s' & Hp)]; [done|].
  eexists (render levelAt mounted_screen _ [] false), s'. split_and!; [|reflexivity|].
  - apply (ui_load _ _ 2); [reflexivity|].
    cbv beta delta [loadPlayerData bind catch ret]. cbn [sc_game]. rewrite Hp. reflexivity.
  - unfold screen_view. cbn. by case_match.
Qed.

(** C34: whatever the player does, the game tab's preload effect keeps
    the generator's cache consistent (every cached level is the one
    [generateLevel] gives for its id), and after each render at a level
    [l >= 0] the ids [l] to [l + 4], up to 1000, are cached. *)
Theorem game_preload_inv (levelAt : Z -> option GameLevel) (waits : bool) (s : Store)
    (cache : gmap Z GameLevel) (t : Tab) :
  LevelCache.cache_ok cache -> rtc (tab_step levelAt waits) (tab_mounted s cache) t -> warmed t.
Proof.
  intros Hok Hrun. assert (H0 : warmed (tab_mounted s cache)).
  { apply preload_effect_warmed; [done | discriminate]. }
  induction Hrun as [t|t1 t2 t3 H12 H23 IH]; [done|]. apply IH. by eapply tab_step_warmed.
Qed.

Lemma game_never_shows_level_witness :
  GameLevels_object ∅ = Some ([(KStr "length", JNumber 1000); (KIterator, JGenerator)], ∅) /\
  screen_view (level_of [(KStr "length", JNumber 1000); (KIterator, JGenerator)])
    (set_isLoading false initialState) = VCompleted.
Proof.
  split; [reflexivity|].
  exact (game_never_shows_level ∅ ∅ _ (set_isLoading false initialState) eq_refl).
Defined.

Lemma game_store_inv_witness :
  exists sc s, rtc (ui_step intended_level false) (mounted resume_store) (sc, s) /\ store_inv s.
Proof.
  eassert (Hrun : rtc (ui_step intended_level false) (mounted resume_store) (_, _)).
  { eapply rtc_l. { eapply (ui_load _ _ 2); comp. }
    eapply rtc_l. { eapply (ui_select _ _ _ _ _ _ 1); [comp|comp|comp|cbn; lia|comp|comp]. }
    eapply rtc_l. { eapply (ui_fire_correct _ _ 1); comp. }
    apply rtc_refl. }
  eexists _, _. split; [exact Hrun|].
  eapply (game_store_inv intended_level false resume_store); [|exact Hrun].
  apply boot_inv. cbn. do 3 eexists. split_and!; first [reflexivity|lia].
Defined.

Lemma game_load_completes_witness :
  ~ StorageProps.first_launch (boot (Some (BRecord (mkStoredRecord (Some 3) (Some 250) (Some 2) None None None None))) 0) /\
  exists sc s', ui_step intended_level true
      (mounted (boot (Some (BRecord (mkStoredRecord (Some 3) (Some 250) (Some 2) None None None None))) 0)) (sc, s') /\
    sc_timers sc = [] /\ screen_view intended_level (sc_game sc) <> VLoading.
Proof.
  split; [intros (_ & H & _); discriminate|].
  apply game_load_completes. intros (_ & H & _). discriminate.
Defined.

Lemma game_preload_inv_witness :
  let t0 := tab_mounted (boot None 0) ∅ in
  let t1 := preload_effect (mkTab (tb_screen t0) (tick 10 (tb_store t0)) (tb_cache t0) (tb_last t0)) in
  (LevelCache.cache_ok (∅ : gmap Z GameLevel) /\ rtc (tab_step intended_level true) t0 t1) /\ warmed t1.
Proof.
  intros t0 t1.
  assert (H : LevelCache.cache_ok (∅ : gmap Z GameLevel) /\ rtc (tab_step intended_level true) t0 t1).
  { split; [apply LevelCache.cache_ok_empty|]. apply rtc_once.
    exact (tab_render intended_level true _ _ _ _ _ _ (ui_time _ _ 10 _ _)). }
  split; [exact H|]. exact (game_preload_inv intended_level true (boot None 0) ∅ t1 (proj1 H) (proj2 H)).
Defined.

End GameScreen.
