(* ===== verification/GameView.v ===== *)
(** * What the game tab renders for a level ([src/project/app/(tabs)/game.tsx], lines 156-342)

    The answer buttons with their memoized style and icon
    ([getAnswerStyle], [getAnswerIcon]), the header's colours
    ([gradientColors]) and texts, and the completion modal, as functions
    of the screen's state and the level.  [GameLevels.length] is the
    parameter [len] (the object's getter gives 1000).  The answer
    buttons' styles are the records [StyleSheet.create] builds (lines
    498-570), with a style array flattened in order; the other styles are
    their names, and the progress bar's width, a double printed as a
    percentage, is not modelled.  The theorems tie the view to the
    generator (the check mark lands on the generated answer) and to the
    screen's runs (the selected style is never drawn). *)

From Stdlib Require Import ZArith Lia List String.
From stdpp Require Import base list relations.
From S2P Require Import Prelude JsString Levels Storage GameScreen.
Import JsString Levels Storage GameScreen.

Module GameView.

Local Open Scope Z_scope.

(** ** The answer buttons *)

(** The styles [getAnswerStyle] returns. *)
Inductive AnswerStyle := SAnswer | SSelectedAnswer | SCorrectAnswer | SIncorrectAnswer.

(** [selectedAnswer === index]: [null] equals no index. *)
Definition is_selected (g : GameState) (index : Z) : bool :=
  bool_decide (g_selectedAnswer g = Some index).

(** [getAnswerStyle] (lines 157-168) *)
Definition getAnswerStyle (l : GameLevel) (g : GameState) (index : Z) : AnswerStyle :=
  if negb (g_showFeedback g) then (if is_selected g index then SSelectedAnswer else SAnswer)
  else if index =? correctAnswer l then SCorrectAnswer
  else if is_selected g index then SIncorrectAnswer
  else SAnswer.

Inductive AnswerIcon := CheckCircle | XCircle.

(** [getAnswerIcon] (lines 170-179) *)
Definition getAnswerIcon (l : GameLevel) (g : GameState) (index : Z) : option AnswerIcon :=
  if negb (g_showFeedback g) then None
  else if index =? correctAnswer l then Some CheckCircle
  else if is_selected g index then Some XCircle
  else None.

(** One button of [level.answers.map] (lines 277-293): its text, style,
    whether the text is white ([answerTextWhite], line 287), its icon and
    [disabled={isAnswered}]. *)
Record AnswerButton := mkAnswerButton {
  ab_text : string;
  ab_style : AnswerStyle;
  ab_white : bool;
  ab_icon : option AnswerIcon;
  ab_disabled : bool
}.

Definition answer_button (l : GameLevel) (g : GameState) (index : Z) (answer : string) : AnswerButton :=
  mkAnswerButton answer (getAnswerStyle l g index)
    (g_showFeedback g && ((index =? correctAnswer l) || is_selected g index))
    (getAnswerIcon l g index) (g_isAnswered g).

Definition answer_buttons (l : GameLevel) (g : GameState) : list AnswerButton :=
  imap (fun i a => answer_button l g (Z.of_nat i) a) (answers l).

(** ** The answer styles *)

(** The fields the four answer styles of [StyleSheet.create] set (lines
    498-561); [shadowOpacity] in hundredths. *)
Record BoxStyle := mkBoxStyle {
  backgroundColor : string;
  padding : Z;
  borderRadius : Z;
  marginBottom : Z;
  borderWidth : Z;
  borderColor : string;
  flexDirection : string;
  justifyContent : string;
  alignItems : string;
  shadowColor : string;
  shadowOffset : Z * Z;
  shadowOpacity : Z;
  shadowRadius : Z;
  elevation : Z
}.

(** [styles.answer], [styles.selectedAnswer], [styles.correctAnswer] and
    [styles.incorrectAnswer] *)
Definition box_style (s : AnswerStyle) : BoxStyle :=
  match s with
  | SAnswer => mkBoxStyle "white" 16 12 12 2 "#E5E7EB" "row" "space-between" "center" "#000" (0, 1) 5 2 1
  | SSelectedAnswer => mkBoxStyle "#3B82F6" 16 12 12 2 "#2563EB" "row" "space-between" "center" "#3B82F6" (0, 2) 20 4 3
  | SCorrectAnswer => mkBoxStyle "#10B981" 16 12 12 2 "#059669" "row" "space-between" "center" "#10B981" (0, 2) 20 4 3
  | SIncorrectAnswer => mkBoxStyle "#EF4444" 16 12 12 2 "#DC2626" "row" "space-between" "center" "#EF4444" (0, 2) 20 4 3
  end.

(** A text style: the fields it sets. *)
Record TextStyle := mkTextStyle {
  ts_fontSize : option Z;
  ts_color : option string;
  ts_flex : option Z;
  ts_fontWeight : option string
}.

(** [styles.answerText] and [styles.answerTextWhite] (lines 562-570) *)
Definition answerText : TextStyle := mkTextStyle (Some 16) (Some "#1F2937"%string) (Some 1) (Some "500"%string).
Definition answerTextWhite : TextStyle := mkTextStyle None (Some "white"%string) None None.

(** A style array is flattened in order, a later field overriding an
    earlier one; a [false] entry sets nothing. *)
Definition override (base top : TextStyle) : TextStyle :=
  mkTextStyle (match ts_fontSize top with Some v => Some v | None => ts_fontSize base end)
              (match ts_color top with Some v => Some v | None => ts_color base end)
              (match ts_flex top with Some v => Some v | None => ts_flex base end)
              (match ts_fontWeight top with Some v => Some v | None => ts_fontWeight base end).

Definition flatten (ss : list TextStyle) : TextStyle :=
  fold_left override ss (mkTextStyle None None None None).

(** [[styles.answerText, cond && styles.answerTextWhite]] (lines 285-288) *)
Definition answer_text_style (b : AnswerButton) : TextStyle :=
  flatten (answerText :: (if ab_white b then [answerTextWhite] else [])).

(** ** The header and the modal *)

(** [gradientColors] (lines 182-184) *)
Definition gradientColors (c : Character) : list string :=
  match c with
  | Wizard => ["#8B5CF6"%string; "#3B82F6"%string]
  | Spy => ["#059669"%string; "#0D9488"%string]
  end.

(** The header of the level view (lines 216-257): colours, the two
    arrows' [disabled], the texts and the character's emoji. *)
Record Header := mkHeader {
  hd_colors : list string;
  hd_prev_disabled : bool;
  hd_level_text : string;
  hd_title : string;
  hd_next_disabled : bool;
  hd_emoji : string;
  hd_progress_text : string
}.

Definition header (len : Z) (l : GameLevel) (g : GameState) : Header :=
  mkHeader (gradientColors (displayCharacter g)) (prev_disabled g)
    ("Level " ++ js_String (g_currentLevel g))%string (title l) (next_disabled g)
    (match displayCharacter g with Wizard => "🧙‍♂️"%string | Spy => "🕵️‍♀️"%string end)
    (js_String (g_currentLevel g) ++ "/" ++ js_String len)%string.

(** The modal's button (lines 327-342). *)
Inductive ModalButton := MNextLevel | MContinue.

(** The level-complete modal (lines 308-345) when [showLevelComplete]:
    its text, the subtext shown below the last level, its button. *)
Record Modal := mkModal { md_text : string; md_subtext : option string; md_button : ModalButton }.

Definition level_modal (len : Z) (l : GameLevel) (g : GameState) : option Modal :=
  if g_showLevelComplete g then
    Some (mkModal ("Great job! You earned " ++ js_String (xpReward l) ++ " XP!")%string
            (if g_currentLevel g <? len
             then Some ("Ready for Level " ++ js_String (g_currentLevel g + 1) ++ "?")%string else None)
            (if g_currentLevel g <? len then MNextLevel else MContinue))
  else None.

(** The level view (lines 214-345). *)
Record LevelScreen := mkLevelScreen {
  ls_header : Header;
  ls_story : string;
  ls_json : string;
  ls_question : string;
  ls_answers : list AnswerButton;
  ls_hint : string;
  ls_reward : string;
  ls_modal : option Modal
}.

Definition level_screen (len : Z) (l : GameLevel) (g : GameState) : LevelScreen :=
  mkLevelScreen (header len l g) (adaptedStory (Some l) g) (jsonData l) (question l)
    (answer_buttons l g) (hint l) (js_String (xpReward l) ++ " XP Reward")%string (level_modal len l g).

(** ** Properties *)

Lemma answer_buttons_lookup (l : GameLevel) (g : GameState) (k : nat) (b : AnswerButton) :
  answer_buttons l g !! k = Some b <->
  exists a, answers l !! k = Some a /\ b = answer_button l g (Z.of_nat k) a.
Proof.
  unfold answer_buttons. rewrite list_lookup_imap.
  destruct (answers l !! k); cbn; split; [intros [= <-]; eauto|intros (? & [= <-] & ->); done|done|].
  by intros (? & ? & _).
Qed.

(** During the feedback a button carries the check exactly at
    [correctAnswer], and the cross exactly at the selected other one. *)
Lemma feedback_icon (l : GameLevel) (g : GameState) (index : Z) :
  g_showFeedback g = true ->
  (getAnswerIcon l g index = Some CheckCircle <-> index = correctAnswer l) /\
  (getAnswerIcon l g index = Some XCircle <-> index <> correctAnswer l /\ g_selectedAnswer g = Some index).
Proof.
  intros Hf. unfold getAnswerIcon, is_selected. rewrite Hf; cbn.
  destruct (Z.eqb_spec index (correctAnswer l)); cbn; [naive_solver|].
  destruct (bool_decide_reflect (g_selectedAnswer g = Some index)); naive_solver.
Qed.

(** C8: on every generated level, while the feedback shows, an answer
    button carries the check mark exactly when its text is the answer the
    generator computed, and the cross exactly when it is the selected
    button and its text is not that answer: the four answers are distinct,
    so the mark cannot land on a second button with the same text. *)
Theorem feedback_marks_answer (id : Z) (c : Choices) (g : GameState) (k : nat) (b : AnswerButton) :
  0 <= id -> choices id = Some c -> g_showFeedback g = true ->
  answer_buttons (build_level id c) g !! k = Some b ->
  (ab_icon b = Some CheckCircle <-> ab_text b = b_actualAnswer (body_of id c)) /\
  (ab_icon b = Some XCircle <->
     g_selectedAnswer g = Some (Z.of_nat k) /\ ab_text b <> b_actualAnswer (body_of id c)).
Proof.
  intros Hid Hc Hf Hb. apply answer_buttons_lookup in Hb as (a & Ha & ->). cbn [ab_icon ab_text answer_button].
  destruct (build_level_answers id c Hid Hc) as (_ & Hnd & Hrange & Hact).
  destruct (feedback_icon (build_level id c) g (Z.of_nat k) Hf) as [Hck Hx].
  assert (Hiff : Z.of_nat k = correctAnswer (build_level id c) <-> a = b_actualAnswer (body_of id c)).
  { split; [intros E; rewrite <- E, Nat2Z.id in Hact; congruence|].
    intros ->. pose proof (NoDup_lookup _ _ _ _ Hnd Ha Hact). lia. }
  rewrite Hck, Hx, Hiff. tauto.
Qed.

(** An answer is selected only while its feedback shows: the handler sets
    both, and [resetLevel] clears both. *)
Definition selection_shown (g : GameState) : Prop :=
  g_showFeedback g = false -> g_selectedAnswer g = None.

Lemma loadPlayerData_keeps_answer (f : nat) (g g' : GameState) (s s' : Store) :
  GameScreen.loadPlayerData f g s = Done g' s' ->
  g_selectedAnswer g' = g_selectedAnswer g /\ g_showFeedback g' = g_showFeedback g.
Proof.
  unfold GameScreen.loadPlayerData, catch, bind, ret. repeat case_match; intros; simplify_eq; done.
Qed.

Lemma correct_keeps_answer (f : nat) (l : GameLevel) (c g g' : GameState) (s s' : Store) :
  handleCorrectAnswer f l c g s = Done g' s' ->
  g_selectedAnswer g' = g_selectedAnswer g /\ g_showFeedback g' = g_showFeedback g.
Proof. unfold handleCorrectAnswer, catch, bind, now_ms, gets, ret. repeat case_match; intros; by simplify_eq. Qed.

Lemma resetLevel_shown (g : GameState) : selection_shown (resetLevel g).
Proof. done. Qed.

Lemma ui_step_shown (levelAt : Z -> option GameLevel) (w : bool) (sc sc' : Screen) (s s' : Store) :
  selection_shown (sc_game sc) -> ui_step levelAt w (sc, s) (sc', s') -> selection_shown (sc_game sc').
Proof.
  unfold selection_shown. intros Hsel Hstep. inversion Hstep; subst; unfold render; cbn [sc_game]; try done.
  - match goal with E : GameScreen.loadPlayerData _ _ _ = Done _ _ |- _ =>
      destruct (loadPlayerData_keeps_answer _ _ _ _ _ E) as [-> ->] end. done.
  - match goal with E : handleAnswerSelect _ _ _ _ = _ |- _ => unfold handleAnswerSelect in E end.
    case_match; simplify_eq; done.
  - match goal with E : handleCorrectAnswer _ _ _ _ _ = Done _ _ |- _ =>
      destruct (correct_keeps_answer _ _ _ _ _ _ _ E) as [-> ->] end; done.
  - unfold handlePreviousLevel. by case_match.
Qed.

Lemma ui_run_shown (levelAt : Z -> option GameLevel) (w : bool) (x y : Screen * Store) :
  rtc (ui_step levelAt w) x y -> selection_shown (sc_game x.1) -> selection_shown (sc_game y.1).
Proof.
  induction 1 as [|[sc s] [sc' s'] z Hstep _ IH]; [done|]. intros Hx. apply IH. by eapply ui_step_shown.
Qed.

(** C9: in every state the game tab reaches, whatever the player does
    and whenever the callbacks fire, no answer button is drawn with
    [styles.selectedAnswer] (the selection and the feedback are set
    together, so the blue style is never used), and every button has dark
    text on white or white text on green or red. *)
Theorem answer_buttons_contrast (levelAt : Z -> option GameLevel) (w : bool) (s0 s : Store) (sc : Screen)
    (l : GameLevel) (k : nat) (b : AnswerButton) :
  rtc (ui_step levelAt w) (GameScreen.mounted s0) (sc, s) -> answer_buttons l (sc_game sc) !! k = Some b ->
  ab_style b <> SSelectedAnswer /\
  ((backgroundColor (box_style (ab_style b)) = "white"%string /\ ts_color (answer_text_style b) = Some "#1F2937"%string) \/
   (backgroundColor (box_style (ab_style b)) ∈ ["#10B981"%string; "#EF4444"%string] /\
    ts_color (answer_text_style b) = Some "white"%string)).
Proof.
  intros Hrun Hb. pose proof (ui_run_shown _ _ _ _ Hrun (fun _ => eq_refl)) as Hsel. cbn in Hsel.
  apply answer_buttons_lookup in Hb as (a & _ & ->). unfold selection_shown in Hsel.
  unfold answer_button, getAnswerStyle, is_selected; cbn.
  destruct (g_showFeedback (sc_game sc)); cbn.
  - destruct (Z.of_nat k =? correctAnswer l); cbn.
    + split; [done|right; split; [by repeat constructor|done]].
    + case_bool_decide; cbn; split; try done; [right; split; [by repeat constructor|done]|by left].
  - rewrite Hsel by done. split; [done|by left].
Qed.

(** ** Witnesses *)

#[local] Abbreviation feedback_state := (mkGameState 7 (Some 1) true None true false false).

Lemma feedback_marks_answer_witness :
  exists c b, (0 <= 7 /\ choices 7 = Some c /\ g_showFeedback feedback_state = true /\
    answer_buttons (build_level 7 c) feedback_state !! 0%nat = Some b) /\
  ((ab_icon b = Some CheckCircle <-> ab_text b = b_actualAnswer (body_of 7 c)) /\
   (ab_icon b = Some XCircle <->
      g_selectedAnswer feedback_state = Some (Z.of_nat 0) /\ ab_text b <> b_actualAnswer (body_of 7 c))).
Proof.
  eexists _, _. split; [split_and!; [lia|reflexivity|reflexivity|reflexivity]|].
  apply (feedback_marks_answer 7 _ feedback_state 0); [lia|reflexivity|reflexivity|reflexivity].
Defined.

#[local] Abbreviation played_store :=
  (boot (Some (BRecord (mkStoredRecord (Some 2) (Some 30) (Some 2) (Some []) None None None))) 1000).

#[local] Abbreviation sample_level :=
  (mkGameLevel 3 "Title" Wizard "Story" "{}" "Question?" ["a"%string; "b"%string] 0 "Hint" "Because" 10).

Lemma answer_buttons_contrast_witness :
  exists sc s b, (rtc (ui_step intended_level false) (GameScreen.mounted played_store) (sc, s) /\
    answer_buttons sample_level (sc_game sc) !! 1%nat = Some b) /\
  (ab_style b <> SSelectedAnswer /\
   ((backgroundColor (box_style (ab_style b)) = "white"%string /\ ts_color (answer_text_style b) = Some "#1F2937"%string) \/
    (backgroundColor (box_style (ab_style b)) ∈ ["#10B981"%string; "#EF4444"%string] /\
     ts_color (answer_text_style b) = Some "white"%string))).
Proof.
  eassert (Hrun : rtc (ui_step intended_level false) (GameScreen.mounted played_store) (_, _)).
  { eapply rtc_l. { eapply (ui_load _ _ 2); cbv; reflexivity. }
    eapply rtc_l. { eapply (ui_select _ _ _ _ _ _ 1); [cbv; reflexivity..|cbn; lia|cbv; reflexivity|cbv; reflexivity]. }
    apply rtc_refl. }
  eexists _, _, _. split; [split; [exact Hrun|reflexivity]|].
  eapply (answer_buttons_contrast _ _ _ _ _ sample_level 1); [exact Hrun|reflexivity].
Defined.

End GameView.
