(* ===== verification/Progress.v ===== *)
(** * The progress and profile tabs

    [src/project/app/(tabs)/progress.tsx]: the achievements computed from
    the record ([calculateAchievements]), the completion percentage
    ([getProgressPercentage], a double computation), the player level
    ([getPlayerLevel]), the cards, the grid and the milestone texts.
    [src/project/app/(tabs)/profile.tsx]: the XP bar ([getXPForNextLevel],
    [getXPProgress]), the load, every press ([profile_press]: the
    character switch, the rows without a handler, the confirmed reset) and
    the rendered header.  The screens read the store through [Storage]'s
    operations. *)

From Stdlib Require Import ZArith Lia List String PrimFloat Uint63.
From stdpp Require Import base list strings.
From S2P Require Import Prelude JsString Levels Lcg Storage StorageInv GameScreen.
Import JsString Storage StorageProps StorageInv.

(** ** Numbers the tabs display *)

Module Stats.

Local Open Scope Z_scope.

(** [Math.round(x)] for [0 <= x < n + 1]: the floor, plus one when the
    fraction is at least a half (the subtraction is exact). *)
Definition js_round_below (n : Z) (x : float) : Z :=
  let k := Lcg.js_floor_below n x in
  if PrimFloat.leb (PrimFloat.div (Lcg.fl 1) (Lcg.fl 2)) (PrimFloat.sub x (Lcg.fl k)) then k + 1 else k.

(** [getProgressPercentage] (progress.tsx, lines 151-154):
    [Math.round((levelsCompleted / GameLevels.length) * 100)] in doubles,
    for the [levelsCompleted] in [[0, 1000]] the store's invariant
    allows. *)
Definition getProgressPercentage (playerData : option PlayerData) : Z :=
  match playerData with
  | None => 0
  | Some p => js_round_below 100
                (PrimFloat.mul (PrimFloat.div (Lcg.fl (levelsCompleted p)) (Lcg.fl 1000)) (Lcg.fl 100))
  end.

(** [!playerData?.totalXP]: no record, or a total of [0]. *)
Definition no_xp (xp : option Z) : bool :=
  match xp with None => true | Some z => z =? 0 end.

(** [getPlayerLevel] (progress.tsx, lines 162-165; profile.tsx, lines
    79-82): [Math.floor(totalXP / 100) + 1]; the double quotient of an
    integer below [2^46] by 100 floors to the integer quotient. *)
Definition getPlayerLevel (xp : option Z) : Z :=
  match xp with
  | Some z => if z =? 0 then 1 else z / 100 + 1
  | None => 1
  end.

(** [getXPForNextLevel] (profile.tsx, lines 84-88) *)
Definition getXPForNextLevel (xp : option Z) : Z :=
  if no_xp xp then 100 else getPlayerLevel xp * 100.

(** [getXPProgress] (profile.tsx, lines 90-93): [%] keeps the dividend's
    sign, as [Z.rem] does. *)
Definition getXPProgress (xp : option Z) : Z :=
  match xp with
  | Some z => if z =? 0 then 0 else Z.rem z 100
  | None => 0
  end.

(** The denominator of the profile's XP bar (lines 124 and 130). *)
Definition xp_bar_span (xp : option Z) : Z :=
  getXPForNextLevel xp - (getPlayerLevel xp - 1) * 100.

(** The check, over every [levelsCompleted] in [[0, n)], of the
    percentage against [⌊lc / 10 + 1/2⌋], except at [exceptions], where
    it is [⌊lc / 10⌋]. *)
Definition progress_exceptions : list Z := [145; 285; 565; 575].

Definition percentage_expected (lc : Z) : Z :=
  if bool_decide (lc ∈ progress_exceptions) then lc / 10 else (lc + 5) / 10.

Definition percentage_agrees_upto (n : nat) : bool :=
  forallb (fun lc => Z.eqb (getProgressPercentage (Some (mkPlayerData 1 0 lc default_loc Levels.Wizard 0 0)))
                           (percentage_expected lc))
          (map Z.of_nat (seq 0 n)).

End Stats.

(** ** The progress tab *)

Module ProgressTab.

Local Open Scope Z_scope.

(** An entry of the achievements grid. *)
Record Achievement := mkAchievement {
  ach_id : string;
  ach_title : string;
  ach_description : string;
  ach_icon : string;
  ach_unlocked : bool
}.

(** [if (condition) list.push(a)] *)
Definition push_if (b : bool) (a : Achievement) : list Achievement := if b then [a] else [].

(** [calculateAchievements] (lines 23-149): the unlocked milestones in
    the order the source pushes them, then the first six locked ones. *)
Definition calculateAchievements (data : PlayerData) : list Achievement :=
  let achievementsList :=
    (* lines 26-34 *)
    push_if (1 <=? levelsCompleted data) (mkAchievement "first_level" "First Steps" "Complete your first level" "🎯" true) ++
    (* lines 36-44 *)
    push_if (10 <=? levelsCompleted data) (mkAchievement "apprentice" "JSON Apprentice" "Complete 10 levels" "🧙‍♂️" true) ++
    (* lines 46-54 *)
    push_if (50 <=? levelsCompleted data) (mkAchievement "journeyman" "JSON Journeyman" "Complete 50 levels" "🕵️‍♂️" true) ++
    (* lines 56-64 *)
    push_if (100 <=? levelsCompleted data) (mkAchievement "master" "JSON Master" "Complete 100 levels" "👑" true) ++
    (* lines 66-74 *)
    push_if (250 <=? levelsCompleted data) (mkAchievement "expert" "JSON Expert" "Complete 250 levels" "💎" true) ++
    (* lines 76-84 *)
    push_if (500 <=? levelsCompleted data) (mkAchievement "legend" "JSON Legend" "Complete 500 levels" "🌟" true) ++
    (* lines 86-94 *)
    push_if (1000 <=? levelsCompleted data) (mkAchievement "grandmaster" "JSON Grandmaster" "Complete all 1000 levels" "🏆" true) ++
    (* lines 96-104 *)
    push_if (100 <=? totalXP data) (mkAchievement "xp_collector" "XP Collector" "Earn 100 total XP" "⭐" true) ++
    (* lines 106-114 *)
    push_if (1000 <=? totalXP data) (mkAchievement "xp_master" "XP Master" "Earn 1000 total XP" "🌟" true) ++
    (* lines 116-124 *)
    push_if (10000 <=? totalXP data) (mkAchievement "xp_legend" "XP Legend" "Earn 10,000 total XP" "💫" true) in
  let lockedAchievements :=
    (* lines 129-146 *)
    push_if (levelsCompleted data <? 10) (mkAchievement "apprentice" "JSON Apprentice" "Complete 10 levels" "🧙‍♂️" false) ++
    push_if (levelsCompleted data <? 50) (mkAchievement "journeyman" "JSON Journeyman" "Complete 50 levels" "🕵️‍♂️" false) ++
    push_if (levelsCompleted data <? 100) (mkAchievement "master" "JSON Master" "Complete 100 levels" "👑" false) ++
    push_if (levelsCompleted data <? 250) (mkAchievement "expert" "JSON Expert" "Complete 250 levels" "💎" false) ++
    push_if (levelsCompleted data <? 500) (mkAchievement "legend" "JSON Legend" "Complete 500 levels" "🌟" false) ++
    push_if (levelsCompleted data <? 1000) (mkAchievement "grandmaster" "JSON Grandmaster" "Complete all 1000 levels" "🏆" false) in
  achievementsList ++ take 6 lockedAchievements.

(** The milestones on [levelsCompleted] that have a locked entry, and
    those with none. *)
Definition level_milestones : list (string * Z) :=
  [("apprentice", 10); ("journeyman", 50); ("master", 100); ("expert", 250);
   ("legend", 500); ("grandmaster", 1000)].

Definition xp_milestones : list (string * Z) :=
  [("xp_collector", 100); ("xp_master", 1000); ("xp_legend", 10000)].

(** The grid as a specification: the unlocked milestones, then every
    locked level milestone, as [(id, unlocked)]. *)
Definition achievements_spec (lc xp : Z) : list (string * bool) :=
  (if 1 <=? lc then [("first_level", true)] else []) ++
  map (fun m => (m.1, true)) (List.filter (fun m => m.2 <=? lc) level_milestones) ++
  map (fun m => (m.1, true)) (List.filter (fun m => m.2 <=? xp) xp_milestones) ++
  map (fun m => (m.1, false)) (List.filter (fun m => negb (m.2 <=? lc)) level_milestones).

(** The four statistics cards (lines 181-203): [currentLevel || 1],
    [totalXP || 0], [levelsCompleted || 0] and [getPlayerLevel()]. *)
Definition progress_stats (playerData : option PlayerData) : Z * Z * Z * Z :=
  match playerData with
  | None => (1, 0, 0, Stats.getPlayerLevel None)
  | Some p => (js_or (Some (currentLevel p)) 1, js_or (Some (totalXP p)) 0,
               js_or (Some (levelsCompleted p)) 0, Stats.getPlayerLevel (Some (totalXP p)))
  end.

(** One [{lo <= levelsCompleted && levelsCompleted < hi && <Text>}] of
    the "Next Milestone" card (lines 281-305). *)
Definition milestone_text (lo hi : Z) (title : string) (lc : Z) : list string :=
  if (lo <=? lc) && (lc <? hi)
  then ["Complete " ++ js_String (hi - lc) ++ " more levels to become a " ++ title ++ "!"]%string
  else [].

(** The "Next Milestone" card (lines 273-310): each conditional renders
    its text when its condition holds; with no record, every comparison
    with [undefined] is false and the card shows only its title. *)
Definition milestone_texts (playerData : option PlayerData) : list string :=
  match playerData with
  | None => []
  | Some p =>
      let lc := levelsCompleted p in
      (if lc <? 10
       then ["Complete " ++ js_String (10 - lc) ++ " more levels to become a JSON Apprentice!"]%string
       else []) ++
      milestone_text 10 50 "JSON Journeyman" lc ++
      milestone_text 50 100 "JSON Master" lc ++
      milestone_text 100 250 "JSON Expert" lc ++
      milestone_text 250 500 "JSON Legend" lc ++
      milestone_text 500 1000 "JSON Grandmaster" lc ++
      (if 1000 <=? lc then ["🎉 Congratulations! You've mastered all 1000 levels!"%string] else [])
  end.

(** [formatLastPlayed] (lines 156-160): [Never] for no record or a
    [lastPlayed] of [0]; otherwise the locale's date text, which the
    runtime gives ([toLocaleDateString]). *)
Definition formatLastPlayed (toLocaleDateString : Z -> string) (playerData : option PlayerData) : string :=
  match playerData with
  | Some p => if lastPlayed p =? 0 then "Never"%string else toLocaleDateString (lastPlayed p)
  | None => "Never"%string
  end.

(** The "Overall Progress" card (lines 207-231): the percentage, the
    count of [GameLevels.length] ([len]) and the last play. *)
Definition progress_card (toLocaleDateString : Z -> string) (len : Z) (playerData : option PlayerData) :
    string * string * string :=
  (js_String (Stats.getProgressPercentage playerData) ++ "%",
   js_String (js_or (option_map levelsCompleted playerData) 0) ++ " of " ++ js_String len ++ " levels completed",
   "Last played: " ++ formatLastPlayed toLocaleDateString playerData)%string.

(** A card of the achievements grid (lines 236-268): icon, title,
    description, the locked styles, and the badge of an unlocked one. *)
Record AchievementCard := mkAchievementCard {
  card_icon : string;
  card_title : string;
  card_description : string;
  card_locked : bool;
  card_badge : bool
}.

Definition achievement_card (a : Achievement) : AchievementCard :=
  mkAchievementCard (ach_icon a) (ach_title a) (ach_description a) (negb (ach_unlocked a)) (ach_unlocked a).

(** The tab's [useState] hooks (lines 10-11). *)
Record ProgressState := mkProgressState {
  pg_playerData : option PlayerData;
  pg_achievements : list Achievement
}.

Local Open Scope store_scope.

(** [useState<any>(null)] and [useState<any[]>([])] *)
Definition progress_initial : ProgressState := mkProgressState None [].

(** The grid the tab renders from its [achievements] state. *)
Definition achievement_cards (st : ProgressState) : list AchievementCard :=
  map achievement_card (pg_achievements st).

(** [loadPlayerData] (lines 17-21) *)
Definition loadPlayerData (fuel : nat) : M ProgressState :=
  data <- getPlayerData fuel ;;
  ret (mkProgressState (Some data) (calculateAchievements data)).

End ProgressTab.

(** ** The profile tab *)

Module ProfileTab.

Local Open Scope Z_scope.
Local Open Scope store_scope.

(** The [useState] hooks of [ProfileTab] (lines 9-11). *)
Record ProfileState := mkProfileState {
  pr_playerData : option PartialData;
  pr_selectedCharacter : Levels.Character;
  pr_isLoading : bool
}.

Definition profile_initial : ProfileState := mkProfileState None Levels.Wizard true.

(** [loadPlayerData] (lines 17-28) *)
Definition loadPlayerData (fuel : nat) (st : ProfileState) : M ProfileState :=
  st2 <- catch (data <- getPlayerData fuel ;;
                ret (mkProfileState (Some (partial_of data)) (character data) true))
               (fun _ => ret (mkProfileState (pr_playerData st) (pr_selectedCharacter st) true)) ;;
  ret (mkProfileState (pr_playerData st2) (pr_selectedCharacter st2) false).

(** [{ ...playerData, character }] (lines 32-35) *)
Definition with_character (pd : option PartialData) (c : Levels.Character) : PartialData :=
  let base := opt_or pd no_fields in
  mkPartialData (p_currentLevel base) (p_totalXP base) (p_levelsCompleted base)
    (p_achievements base) (Some c) (p_lastPlayed base) (p_createdAt base).

(** [handleCharacterChange] (lines 30-51); the alerts are not modelled. *)
Definition handleCharacterChange (fuel : nat) (c : Levels.Character) (st : ProfileState) : M ProfileState :=
  catch (let updatedData := with_character (pr_playerData st) c in
         savePlayerData fuel updatedData ;;
         ret (mkProfileState (Some updatedData) c (pr_isLoading st)))
        (fun _ => ret st).

(** The [Reset] button of [handleResetProgress]'s confirmation (lines
    62-73). *)
Definition handleResetProgress (fuel : nat) (st : ProfileState) : M ProfileState :=
  catch (resetProgress fuel ;;
         newData <- getPlayerData fuel ;;
         ret (mkProfileState (Some (partial_of newData)) (character newData) (pr_isLoading st)))
        (fun _ => ret st).

(** The four "Your Stats" cells (lines 182-199): [totalXP || 0],
    [levelsCompleted || 0], [currentLevel || 1] and
    [Math.floor((totalXP || 0) / 10)] ("JSON Skills", a floor division). *)
Definition profile_stats (playerData : option PartialData) : Z * Z * Z * Z :=
  let xp := js_or (playerData ≫= p_totalXP) 0 in
  (xp, js_or (playerData ≫= p_levelsCompleted) 0, js_or (playerData ≫= p_currentLevel) 1, xp / 10).

(** What the player can press on the tab (lines 145-246): a character
    card, the three settings rows, which have no [onPress], and the
    [Reset] button of the confirmation [handleResetProgress] opens (its
    [Cancel] button does nothing). *)
Inductive ProfileEvent :=
  | PressCharacter (c : Levels.Character)
  | PressPrivacy
  | PressAbout
  | PressRate
  | ConfirmReset.

Definition profile_press (fuel : nat) (e : ProfileEvent) (st : ProfileState) : M ProfileState :=
  match e with
  | PressCharacter c => handleCharacterChange fuel c st
  | PressPrivacy | PressAbout | PressRate => ret st
  | ConfirmReset => handleResetProgress fuel st
  end.

(** The header and the character cards of the loaded tab (lines
    105-181). *)
Record ProfileScreen := mkProfileScreen {
  pf_colors : list string;
  pf_avatar : string;
  pf_level_text : string;
  pf_character_text : string;
  pf_xp_text : string;
  pf_wizard_selected : bool;
  pf_spy_selected : bool;
  pf_stats : Z * Z * Z * Z
}.

(** [if (isLoading)] (lines 95-103) shows "Loading profile..."; the
    loaded view reads [selectedCharacter] and [playerData?.totalXP]. *)
Definition profile_view (st : ProfileState) : option ProfileScreen :=
  if pr_isLoading st then None
  else
    let xp := pr_playerData st ≫= p_totalXP in
    let wizard := match pr_selectedCharacter st with Levels.Wizard => true | Levels.Spy => false end in
    Some (mkProfileScreen
      (if wizard then ["#8B5CF6"; "#3B82F6"] else ["#059669"; "#0D9488"])%string
      (if wizard then "🧙‍♂️" else "🕵️‍♀️")%string
      ("Level " ++ js_String (Stats.getPlayerLevel xp))%string
      (if wizard then "Wizard" else "Spy")%string
      (js_String (Stats.getXPProgress xp) ++ "/" ++ js_String (Stats.xp_bar_span xp) ++ " XP")%string
      wizard (negb wizard) (profile_stats (pr_playerData st))).

End ProfileTab.

(** ** Properties of the three tabs *)

Module TabProps.

Import Stats ProgressTab ProfileTab.

Local Open Scope Z_scope.
Local Open Scope store_scope.

(** *** The displayed numbers *)

Lemma percentage_agrees_upto_spec (n : nat) (lc : Z) :
  percentage_agrees_upto n = true -> 0 <= lc < Z.of_nat n ->
  getProgressPercentage (Some (mkPlayerData 1 0 lc default_loc Levels.Wizard 0 0)) = percentage_expected lc.
Proof.
  intros H Hlc. unfold percentage_agrees_upto in H. apply Z.eqb_eq.
  exact (forallb_Z_range _ n H lc Hlc).
Qed.

Lemma percentage_agrees_1001 : percentage_agrees_upto 1001 = true.
Proof. vm_compute. reflexivity. Qed.

(** The percentage reads only [levelsCompleted]. *)
Lemma getProgressPercentage_lc (p : PlayerData) :
  getProgressPercentage (Some p) =
  getProgressPercentage (Some (mkPlayerData 1 0 (levelsCompleted p) default_loc Levels.Wizard 0 0)).
Proof. reflexivity. Qed.


(** C38: for every [levelsCompleted] in [[0, 1000]] the percentage the
    progress tab shows is [levelsCompleted / 10] rounded half up, except
    at 145, 285, 565 and 575, where [levelsCompleted / 1000 * 100] falls
    just below the half in double precision and the display rounds down
    (14, 28, 56, 57 instead of 15, 29, 57, 58). *)
Theorem getProgressPercentage_spec (p : PlayerData) :
  0 <= levelsCompleted p <= 1000 ->
  getProgressPercentage (Some p) = percentage_expected (levelsCompleted p).
Proof.
  intros Hlc. rewrite getProgressPercentage_lc.
  apply (percentage_agrees_upto_spec 1001); [exact percentage_agrees_1001|lia].
Qed.

(** For a non-negative total the player level is [totalXP / 100
    + 1], the bar's numerator is [totalXP mod 100] and its denominator is
    always 100, so the bar is a fraction in [[0, 1)]. *)
Theorem xp_bar_spec (xp : Z) :
  0 <= xp ->
  getPlayerLevel (Some xp) = xp / 100 + 1 /\ getXPProgress (Some xp) = xp mod 100 /\
  xp_bar_span (Some xp) = 100 /\ 0 <= getXPProgress (Some xp) < 100.
Proof.
  intros Hxp. unfold xp_bar_span, getXPForNextLevel, getPlayerLevel, getXPProgress, no_xp.
  destruct (Z.eqb_spec xp 0) as [->|Hne]; [done|].
  rewrite Z.rem_mod_nonneg by lia. split_and!; try lia. all: apply Z.mod_pos_bound; lia.
Qed.

(** *** The achievements grid *)

(** [zcases] splits on the comparisons of the goal one at a time and
    drops the contradictory branches at once: a function of a few
    thresholds then has one branch per band. *)
Ltac zcases :=
  rewrite ?Z.ltb_antisym;
  repeat match goal with
  | |- context [Z.leb ?a ?b] => destruct (Z.leb_spec a b); try (exfalso; lia)
  end.

(** C37: the grid lists each unlocked milestone once, then every locked
    milestone on [levelsCompleted]: at most six are locked, so the
    [slice(0, 6)] never drops one; ["first_level"] and the XP milestones
    have no locked entry and are absent until reached.  No id appears
    twice. *)
Theorem calculateAchievements_spec (data : PlayerData) :
  map (fun a => (ach_id a, ach_unlocked a)) (calculateAchievements data) =
    achievements_spec (levelsCompleted data) (totalXP data) /\
  NoDup (map ach_id (calculateAchievements data)).
Proof.
  unfold calculateAchievements, achievements_spec, level_milestones, xp_milestones, push_if.
  cbn [List.filter map fst snd]. zcases; (split; [reflexivity|]);
    apply (bool_decide_unpack _); vm_compute; reflexivity.
Qed.

(** *** The profile tab *)

(** C19: the profile tab reads the record once, when it
    mounts, and a character change saves that copy with the new
    character: whatever the store holds now (progress made in the game tab
    since), the cached record afterwards has the level, XP and completed
    count the tab read. *)
Theorem handleCharacterChange_writes_back (f : nat) (c : Levels.Character) (st : ProfileState)
    (s : Store) (p o : PlayerData) :
  st_cache s = Some p -> pr_playerData st = Some (partial_of o) -> rec_ok o ->
  exists st' s' q, handleCharacterChange (S f) c st s = Done st' s' /\ st_cache s' = Some q /\
    currentLevel q = currentLevel o /\ totalXP q = totalXP o /\
    levelsCompleted q = levelsCompleted o /\ character q = c /\ pr_selectedCharacter st' = c.
Proof.
  intros Hc Hpd (Hcl & Hlc & _ & Hxp). destruct_store s. destruct st as [pd sel ld].
  cbn in Hc, Hpd. subst. unfold handleCharacterChange. mrun.
  eexists _, _, _. split; [reflexivity|]. split; [reflexivity|]. cbn.
  split_and!; try reflexivity; [apply js_clamp_id; lia|lia|apply js_clamp_id; lia].
Qed.

(** Confirming the reset caches the default record with
    the player's character and creation time, and the tab then shows it:
    level 1, no XP, nothing completed, the same character. *)
Theorem handleResetProgress_spec (f : nat) (st : ProfileState) (s : Store) (p : PlayerData) :
  st_cache s = Some p ->
  exists st' s', handleResetProgress (S f) st s = Done st' s' /\
    pr_selectedCharacter st' = character p /\
    pr_playerData st' = Some (partial_of {| currentLevel := 1; totalXP := 0; levelsCompleted := 0;
      achievements := default_loc; character := character p;
      lastPlayed := st_default_time s; createdAt := createdAt p |}).
Proof.
  intros Hc. destruct_store s. cbn in Hc. subst. unfold handleResetProgress, resetProgress. mrun.
  destruct ok; mrun; rewrite Z.sub_diag; cbn; eexists _, _; (split; [reflexivity|]); done.
Qed.

(** *** Witnesses *)

(** The progress tab's percentage at 145 completed levels: 14. *)
Lemma getProgressPercentage_spec_witness :
  getProgressPercentage (Some (mkPlayerData 146 0 145 default_loc Levels.Wizard 0 0)) = 14.
Proof.
  rewrite (getProgressPercentage_spec (mkPlayerData 146 0 145 default_loc Levels.Wizard 0 0)); [|simpl; lia].
  reflexivity.
Defined.

Lemma xp_bar_spec_witness :
  getPlayerLevel (Some 250) = 3 /\ getXPProgress (Some 250) = 50 /\ xp_bar_span (Some 250) = 100.
Proof.
  destruct (xp_bar_spec 250 ltac:(lia)) as (H1 & H2 & H3 & _).
  rewrite H1, H2, H3. split_and!; reflexivity.
Defined.

#[local] Abbreviation level5_record := (mkPlayerData 5 100 4 default_loc Levels.Spy 0 0).
#[local] Abbreviation level1_record := (mkPlayerData 1 0 0 default_loc Levels.Wizard 0 0).
#[local] Abbreviation store_at_level5 :=
  (mkStore {[default_loc := []]} 1%N 0 (Some level5_record) 0 None [] true 10).

(** The tab read level 1; the game has since reached level 5; switching
    to the spy saves level 1 back. *)
Lemma handleCharacterChange_writes_back_witness :
  exists st' s' q, handleCharacterChange 1 Levels.Spy (mkProfileState (Some (partial_of level1_record)) Levels.Wizard false)
      store_at_level5 = Done st' s' /\ st_cache s' = Some q /\
    currentLevel q = 1 /\ totalXP q = 0 /\ levelsCompleted q = 0 /\ character q = Levels.Spy /\
    pr_selectedCharacter st' = Levels.Spy.
Proof.
  apply (handleCharacterChange_writes_back 0 Levels.Spy
           (mkProfileState (Some (partial_of level1_record)) Levels.Wizard false)
           store_at_level5 level5_record level1_record); [reflexivity|reflexivity|].
  unfold rec_ok; simpl; lia.
Defined.

Lemma handleResetProgress_spec_witness :
  exists st' s', handleResetProgress 1 profile_initial store_at_level5 = Done st' s' /\
    pr_selectedCharacter st' = Levels.Spy /\
    pr_playerData st' = Some (partial_of (mkPlayerData 1 0 0 default_loc Levels.Spy 0 0)).
Proof. exact (handleResetProgress_spec 0 profile_initial store_at_level5 level5_record eq_refl). Defined.

(** The milestone card shows exactly one line for every record: its
    conditions split the integers into consecutive ranges. *)
Lemma milestone_texts_one (p : PlayerData) : length (milestone_texts (Some p)) = 1%nat.
Proof.
  unfold milestone_texts, milestone_text. rewrite !length_app. zcases; reflexivity.
Qed.

End TabProps.
