(* ===== verification/Home.v ===== *)
(** * The home tab ([src/project/app/(tabs)/index.tsx])

    [HomeTab] holds the record it loads ([playerData], line 10), shows
    three numbers read from it (lines 61-74), pulses its play button
    (lines 16-31, 76-86) and pushes routes on two presses (lines 39-45).
    The state is a record: the React state, every [Animated.Value] the
    renders created (line 11 runs on each render: the value is not kept in
    a ref), the one the rendered button reads, the running animation and
    the pending load.  [home_step] is the tab's step relation over the
    shared [Store]: the load settling, an animation timing completing, the
    two presses.  Timings are observed when they complete: the value then
    holds the timing's [toValue]; the frames in between are not modelled. *)

From Stdlib Require Import ZArith Lia List String.
From stdpp Require Import base list relations.
From S2P Require Import Prelude Storage StorageInv.
Import Storage StorageInv.

Module HomeTab.

Local Open Scope Z_scope.
Local Open Scope store_scope.

(** ** State *)

(** An [Animated.Value]'s number in hundredths: [new Animated.Value(1)]
    and [toValue: 1] are [100], [toValue: 1.05] is [105]. *)
Definition rest_scale : Z := 100.
Definition peak_scale : Z := 105.

(** The two [Animated.timing] calls of [Animated.sequence] (lines
    18-28): toward [1.05], then back to [1]. *)
Inductive Phase := Grow | Shrink.

Record HomeState := mkHome {
  hm_playerData : option PlayerData;  (** [useState(null)] *)
  hm_values : list Z;                 (** the [Animated.Value]s, by creation *)
  hm_scaleAnim : nat;                 (** the value of the last render, which the button reads *)
  hm_pulse : option (nat * Phase);    (** the running sequence: the value [pulse] closed over, its timing *)
  hm_pending : bool;                  (** [loadPlayerData] awaits [getPlayerData] *)
  hm_routes : list string             (** the paths passed to [router.push] *)
}.

(** Before the first render. *)
Definition home_initial : HomeState := mkHome None [] 0 None false [].

(** A render of [HomeTab]: line 11, [const scaleAnim = new
    Animated.Value(1)], creates a fresh value, and the [Animated.View] of
    lines 76-86 reads it. *)
Definition render (st : HomeState) : HomeState :=
  mkHome (hm_playerData st) (hm_values st ++ [rest_scale]) (length (hm_values st))
         (hm_pulse st) (hm_pending st) (hm_routes st).

(** [useEffect(..., [])] (lines 13-32), after the first render: the load
    starts and [pulse()] starts the sequence on that render's
    [scaleAnim]. *)
Definition mount_effect (st : HomeState) : HomeState :=
  mkHome (hm_playerData st) (hm_values st) (hm_scaleAnim st)
         (Some (hm_scaleAnim st, Grow)) true (hm_routes st).

Definition home_mounted : HomeState := mount_effect (render home_initial).

(** [setPlayerData(data)] (line 36) and the render it causes. *)
Definition setPlayerData (data : PlayerData) (st : HomeState) : HomeState :=
  render (mkHome (Some data) (hm_values st) (hm_scaleAnim st) (hm_pulse st) (hm_pending st) (hm_routes st)).

(** [loadPlayerData] (lines 34-37) *)
Definition loadPlayerData (fuel : nat) (st : HomeState) : M HomeState :=
  data <- getPlayerData fuel ;;
  ret (setPlayerData data st).

(** The promise of the load has settled. *)
Definition settle (st : HomeState) : HomeState :=
  mkHome (hm_playerData st) (hm_values st) (hm_scaleAnim st) (hm_pulse st) false (hm_routes st).

(** A timing of the running sequence completes: the value holds its
    [toValue]; when the second completes, the callback of [.start]
    (line 29) calls [pulse()] again, on the same value. *)
Definition timing_done (st : HomeState) : HomeState :=
  let with_anim vs ph := mkHome (hm_playerData st) vs (hm_scaleAnim st) ph (hm_pending st) (hm_routes st) in
  match hm_pulse st with
  | Some (k, Grow) => with_anim (<[k := peak_scale]> (hm_values st)) (Some (k, Shrink))
  | Some (k, Shrink) => with_anim (<[k := rest_scale]> (hm_values st)) (Some (k, Grow))
  | None => st
  end.

(** [router.push(path)] *)
Definition push_route (path : string) (st : HomeState) : HomeState :=
  mkHome (hm_playerData st) (hm_values st) (hm_scaleAnim st) (hm_pulse st) (hm_pending st)
         (hm_routes st ++ [path]).

(** [handlePlayPress] and [handleProgressPress] (lines 39-45) *)
Definition handlePlayPress (st : HomeState) : HomeState := push_route "/game" st.
Definition handleProgressPress (st : HomeState) : HomeState := push_route "/progress" st.

(** The scale the play button shows: the value of the last render. *)
Definition shown_scale (st : HomeState) : Z := default rest_scale (hm_values st !! hm_scaleAnim st).

(** The three statistics cards (lines 63-71): [currentLevel || 1],
    [totalXP || 0] and [achievements?.length || 0]; the last reads the
    array object the record refers to. *)
Definition home_stats (playerData : option PlayerData) : M (Z * Z * Z) :=
  match playerData with
  | None => ret (1, 0, 0)
  | Some p =>
      arr <- read_array (achievements p) ;;
      ret (js_or (Some (currentLevel p)) 1, js_or (Some (totalXP p)) 0,
           js_or (Some (Z.of_nat (length arr))) 0)
  end.

(** A card of the features row (lines 88-106): title, description, and
    the route its [onPress] pushes; only the first card has a handler. *)
Record FeatureCard := mkFeatureCard {
  fc_title : string;
  fc_description : string;
  fc_onPress : option string
}.

Definition feature_cards : list FeatureCard :=
  [mkFeatureCard "View Progress" "Check your achievements and level progress" (Some "/progress"%string);
   mkFeatureCard "Learn JSON" "Master JSON reading through fun challenges" None;
   mkFeatureCard "Magic Powers" "Unlock new abilities as you progress" None].

(** The "How to Play" steps (lines 108-126). *)
Definition how_to_play : list (Z * string) :=
  [(1, "Choose your character: Wizard or Spy"%string); (2, "Read JSON clues to solve puzzles"%string);
   (3, "Complete levels to unlock new challenges"%string); (4, "Collect achievements and level up!"%string)].

(** What [HomeTab] renders (lines 47-130): the title, the three
    statistics, the play button with the scale it reads, the feature
    cards and the steps. *)
Record HomeScreen := mkHomeScreen {
  hs_title : string;
  hs_stats : Z * Z * Z;
  hs_play_scale : Z;
  hs_play_text : string;
  hs_features : list FeatureCard;
  hs_steps : list (Z * string)
}.

Definition home_screen (st : HomeState) : M HomeScreen :=
  stats <- home_stats (hm_playerData st) ;;
  ret (mkHomeScreen "JSON Quest" stats (shown_scale st) "Start Playing" feature_cards how_to_play).

(** ** Steps *)

(** What happens on the tab: the load settles (a rejection is not
    caught: the state stays as it was), a timing completes, a press. *)
Inductive home_step : HomeState * Store -> HomeState * Store -> Prop :=
  | home_load f st s st' s' :
      hm_pending st = true -> loadPlayerData f st s = Done st' s' ->
      home_step (st, s) (settle st', s')
  | home_load_rejected f st s e s' :
      hm_pending st = true -> loadPlayerData f st s = Thrown e s' ->
      home_step (st, s) (settle st, s')
  | home_timing st s : home_step (st, s) (timing_done st, s)
  | home_play st s : home_step (st, s) (handlePlayPress st, s)
  | home_progress st s : home_step (st, s) (handleProgressPress st, s).

(** ** The invariant *)

(** The value the first timing of a phase starts from. *)
Definition phase_start (ph : Phase) : Z :=
  match ph with Grow => rest_scale | Shrink => peak_scale end.

(** The pulse runs on the first render's value, which holds its phase's
    start; every other value stays at rest; the button reads the first
    value exactly as long as no record was set. *)
Definition home_ok (st : HomeState) : Prop :=
  (exists ph, hm_pulse st = Some (0%nat, ph) /\ hm_values st !! 0%nat = Some (phase_start ph)) /\
  (forall k v, k <> 0%nat -> hm_values st !! k = Some v -> v = rest_scale) /\
  (hm_scaleAnim st < length (hm_values st))%nat /\
  (hm_playerData st = None <-> hm_scaleAnim st = 0%nat).

(** ** Properties *)

Lemma home_mounted_ok : home_ok home_mounted.
Proof.
  unfold home_ok; cbn. split_and!; [by exists Grow| |lia|done].
  intros [|[|k]] v Hk; cbn; [done|intros [=]|done].
Qed.

(** The timings change the first value only. *)
Lemma timing_done_fields (st : HomeState) :
  hm_playerData (timing_done st) = hm_playerData st /\ hm_scaleAnim (timing_done st) = hm_scaleAnim st /\
  length (hm_values (timing_done st)) = length (hm_values st).
Proof. unfold timing_done. repeat case_match; cbn; by rewrite ?length_insert. Qed.

Lemma timing_done_other (st : HomeState) (k : nat) :
  home_ok st -> k <> 0%nat -> hm_values (timing_done st) !! k = hm_values st !! k.
Proof.
  intros [(ph & Hp & _) _] Hk. unfold timing_done. rewrite Hp.
  destruct ph; cbn; by rewrite list_lookup_insert_ne by congruence.
Qed.

Lemma timing_done_ok (st : HomeState) : home_ok st -> home_ok (timing_done st).
Proof.
  intros Hok. pose proof (timing_done_other st) as Ho. pose proof (timing_done_fields st) as (Hd & Ha & Hl).
  destruct Hok as [(ph & Hp & H0) (Hrest & Hlt & Hnone)]. split_and!.
  - unfold timing_done. rewrite Hp. assert (0 < length (hm_values st))%nat by (apply lookup_lt_Some in H0; lia).
    destruct ph; cbn; [exists Shrink|exists Grow]; by rewrite list_lookup_insert_eq.
  - intros k v Hk. rewrite Ho by (done || by split_and!; eauto). by apply Hrest.
  - by rewrite Hl, Ha.
  - by rewrite Hd, Ha.
Qed.

Lemma setPlayerData_ok (d : PlayerData) (st : HomeState) : home_ok st -> home_ok (setPlayerData d st).
Proof.
  intros [(ph & Hp & H0) (Hrest & Hlt & _)]. unfold home_ok, setPlayerData, render; cbn.
  assert (Hpos : (0 < length (hm_values st))%nat) by (apply lookup_lt_Some in H0; lia).
  split_and!.
  - exists ph. split; [done|]. by rewrite lookup_app_l.
  - intros k v Hk Hv. apply lookup_app_Some in Hv as [Hv|(Hge & Hv)]; [by eapply Hrest|].
    apply list_lookup_singleton_Some in Hv as [_ <-]. done.
  - rewrite length_app; cbn; lia.
  - split; [done|lia].
Qed.

Lemma loadPlayerData_Done (f : nat) (st st' : HomeState) (s s' : Store) :
  loadPlayerData f st s = Done st' s' -> exists d, st' = setPlayerData d st.
Proof.
  unfold loadPlayerData, bind, ret. destruct (getPlayerData f s); intros [=]; eauto.
Qed.

Lemma home_step_ok (st st' : HomeState) (s s' : Store) :
  home_ok st -> home_step (st, s) (st', s') -> home_ok st'.
Proof.
  intros Hok Hstep. inversion Hstep; subst.
  - match goal with E : loadPlayerData _ _ _ = Done _ _ |- _ => apply loadPlayerData_Done in E as [d ->] end.
    by apply setPlayerData_ok.
  - exact Hok.
  - by apply timing_done_ok.
  - exact Hok.
  - exact Hok.
Qed.

Lemma home_run_ok (x y : HomeState * Store) :
  rtc home_step x y -> home_ok x.1 -> home_ok y.1.
Proof.
  induction 1 as [|[st s] [st' s'] z Hstep _ IH]; [done|]. intros Hok. apply IH.
  by eapply home_step_ok.
Qed.

(** C20: the play button of the home tab pulses only until the record
    loads.  [new Animated.Value(1)] runs on every render, and the pulse
    closes over the value of the first render: before the load each
    completed timing moves the button's scale, and once [setPlayerData]
    has rendered the tab again the button reads a new value that stays at
    [1] whatever the animation does, while the pulse goes on, unseen, on
    the first value. *)
Theorem home_pulse_until_load (s0 s : Store) (st : HomeState) :
  rtc home_step (home_mounted, s0) (st, s) ->
  (hm_playerData st = None -> shown_scale (timing_done st) <> shown_scale st) /\
  (hm_playerData st <> None -> shown_scale st = rest_scale /\ shown_scale (timing_done st) = rest_scale).
Proof.
  intros Hrun. pose proof (home_run_ok _ _ Hrun home_mounted_ok) as Hok; cbn in Hok.
  pose proof (timing_done_other st) as Ho. pose proof (timing_done_fields st) as (_ & Ha & _).
  pose proof Hok as Hok0. destruct Hok as [(ph & Hp & H0) (Hrest & Hlt & Hnone)]. split.
  - intros Hd. apply Hnone in Hd. unfold shown_scale. rewrite Ha, Hd, H0. unfold timing_done. rewrite Hp.
    assert (0 < length (hm_values st))%nat by (apply lookup_lt_Some in H0; lia).
    destruct ph; cbn; rewrite list_lookup_insert_eq by done; cbn; discriminate.
  - intros Hd. assert (Hk : hm_scaleAnim st <> 0%nat) by (intros E; by apply Hnone in E).
    destruct (lookup_lt_is_Some_2 _ _ Hlt) as [v Hv]. unfold shown_scale.
    rewrite Ha, (Ho _ Hok0 Hk), Hv. cbn. rewrite (Hrest _ _ Hk Hv). done.
Qed.

(** ** Witnesses *)

#[local] Abbreviation home_store :=
  (boot (Some (BRecord (mkStoredRecord (Some 3) (Some 250) (Some 2) None None None None))) 0).

Lemma home_pulse_until_load_witness :
  exists st s, rtc home_step (home_mounted, home_store) (st, s) /\ hm_playerData st <> None /\
    shown_scale st = rest_scale /\ shown_scale (timing_done st) = rest_scale.
Proof.
  eassert (Hrun : rtc home_step (home_mounted, home_store) (_, _)).
  { eapply rtc_l. { eapply (home_load 2); [reflexivity|cbv; reflexivity]. }
    eapply rtc_l. { apply home_timing. }
    apply rtc_refl. }
  eexists _, _. split; [exact Hrun|]. split; [discriminate|].
  apply (home_pulse_until_load _ _ _ Hrun). discriminate.
Defined.

End HomeTab.
