(* ===== verification/MiscTabs.v ===== *)
(** * The settings and chat tabs

    [settings.tsx] keeps two switches in React state and shows three
    buttons; [chat.tsx] keeps the text of its input and shows one
    greeting.  Neither tab reads or writes the progress store.  Each tab is
    a state, its events and a step function; the buttons the source
    renders without an [onPress] are events whose step is the identity. *)

From Stdlib Require Import List String.
From stdpp Require Import base list.
From S2P Require Import Prelude.

Module SettingsTab.

(** [useState(true)] twice (settings.tsx, lines 6-7). *)
Record SettingsState := mkSettings { notifications : bool; darkMode : bool }.

Definition settings_initial : SettingsState := mkSettings true true.

(** What the player can do on the tab: flip a [Switch], or press one of
    the three [TouchableOpacity] rows (lines 44-63). *)
Inductive SettingsEvent :=
  | SetNotifications (v : bool)
  | SetDarkMode (v : bool)
  | PressPrivacy
  | PressHelp
  | PressLogOut.

(** [onValueChange={setNotifications}] and [onValueChange={setDarkMode}]
    (lines 19-24, 32-37); the rows have no handler. *)
Definition settings_step (e : SettingsEvent) (st : SettingsState) : SettingsState :=
  match e with
  | SetNotifications v => mkSettings v (darkMode st)
  | SetDarkMode v => mkSettings (notifications st) v
  | PressPrivacy | PressHelp | PressLogOut => st
  end.

(** [thumbColor={flag ? '#fff' : '#f4f3f4'}] *)
Definition thumbColor (flag : bool) : string := if flag then "#fff" else "#f4f3f4".

Definition settings_run (es : list SettingsEvent) : SettingsState :=
  fold_left (fun st e => settings_step e st) es settings_initial.

(** A switch shows the last value the player gave it, or [true]. *)
Lemma settings_run_darkMode (es : list SettingsEvent) :
  darkMode (settings_run es) =
    default true (last (omap (fun e => match e with SetDarkMode v => Some v | _ => None end) es)).
Proof.
  induction es as [|e es IH] using rev_ind; [done|]. unfold settings_run in *.
  rewrite fold_left_app, omap_app. destruct e; simpl; rewrite ?app_nil_r; try done.
  by rewrite last_snoc.
Qed.

End SettingsTab.

Module ChatTab.

(** [useState('')] (chat.tsx, line 6). *)
Record ChatState := mkChat { message : string }.

Definition chat_initial : ChatState := mkChat EmptyString.

(** The one message the tab shows (line 12). *)
Definition greeting : string := "Hello! How can I help you today?".

Inductive ChatEvent := ChangeText (t : string) | PressSend.

(** [onChangeText={setMessage}] (line 22); the send button has no
    handler (lines 24-26). *)
Definition chat_step (e : ChatEvent) (st : ChatState) : ChatState :=
  match e with ChangeText t => mkChat t | PressSend => st end.

(** The messages the [ScrollView] lists (lines 10-14): the greeting,
    whatever the state. *)
Definition chat_messages (st : ChatState) : list string := [greeting].

Definition chat_run (es : list ChatEvent) : ChatState :=
  fold_left (fun st e => chat_step e st) es chat_initial.

(** Pressing send keeps the typed text and sends nothing. *)
Lemma chat_send_keeps_text (es : list ChatEvent) :
  chat_run (es ++ [PressSend]) = chat_run es.
Proof. unfold chat_run. by rewrite fold_left_app. Qed.

(** The input holds the last text typed. *)
Lemma chat_run_message (es : list ChatEvent) :
  message (chat_run es) =
    default EmptyString (last (omap (fun e => match e with ChangeText t => Some t | _ => None end) es)).
Proof.
  induction es as [|e es IH] using rev_ind; [done|]. unfold chat_run in *.
  rewrite fold_left_app, omap_app. destruct e; simpl; rewrite ?app_nil_r; try done.
  by rewrite last_snoc.
Qed.

End ChatTab.
