(* ===== verification/App.v ===== *)
(** * The app: every tab over one store

    The tab layout of [src/project/app/(tabs)] mounts the home tab
    ([index.tsx]) at launch and each other tab on its first focus, and
    keeps a mounted tab mounted.  Every tab talks to the one [GameStorage]
    module ([Storage.Store]).  [app_step] interleaves the steps of the
    components: the home tab's [home_step], the game tab's [ui_step], the
    loads and handlers of the progress and profile tabs, the local state
    of the settings and chat tabs, and the clock; [app_life] adds a
    restart of the process.  The game tab's level lookup and whether the
    player waits for its callbacks are the section's variables, as in
    [GameScreen].  The theorems compose the components' own: the store's
    invariant through every interleaving (from each tab's Hoare triples),
    the whole app stuck on a fresh install (from [getPlayerData]'s
    divergence), the home tab's stale record, and the transparency of
    the store's cache: every store the tabs reach is reached through
    [StorageInv.api_step] ([app_run_reachable]), where [StorageCache]
    proves the cache coherent. *)

From Stdlib Require Import ZArith Lia List String.
From stdpp Require Import base list relations.
From S2P Require Import Prelude Levels Storage StorageInv StorageCache GameScreen Progress Home MiscTabs.
Import Levels Storage StorageInv StorageCache.StorageCache.

Module App.

Local Open Scope Z_scope.
Local Open Scope store_scope.

(** ** State *)

(** A mounted tab's state; a tab whose load is in flight carries [true]. *)
Record AppState := mkApp {
  ap_home : HomeTab.HomeState;
  ap_game : option GameScreen.Screen;
  ap_progress : option (ProgressTab.ProgressState * bool);
  ap_profile : option (ProfileTab.ProfileState * bool);
  ap_settings : option SettingsTab.SettingsState;
  ap_chat : option ChatTab.ChatState;
  ap_store : Store
}.

(** The app at launch: the home tab rendered and its effect run. *)
Definition app_launch (s : Store) : AppState :=
  mkApp HomeTab.home_mounted None None None None None s.

Definition set_home (h : HomeTab.HomeState) (s : Store) (a : AppState) : AppState :=
  mkApp h (ap_game a) (ap_progress a) (ap_profile a) (ap_settings a) (ap_chat a) s.
Definition set_game (sc : GameScreen.Screen) (s : Store) (a : AppState) : AppState :=
  mkApp (ap_home a) (Some sc) (ap_progress a) (ap_profile a) (ap_settings a) (ap_chat a) s.
Definition set_progress (p : ProgressTab.ProgressState * bool) (s : Store) (a : AppState) : AppState :=
  mkApp (ap_home a) (ap_game a) (Some p) (ap_profile a) (ap_settings a) (ap_chat a) s.
Definition set_profile (p : ProfileTab.ProfileState * bool) (s : Store) (a : AppState) : AppState :=
  mkApp (ap_home a) (ap_game a) (ap_progress a) (Some p) (ap_settings a) (ap_chat a) s.
Definition set_settings (st : SettingsTab.SettingsState) (a : AppState) : AppState :=
  mkApp (ap_home a) (ap_game a) (ap_progress a) (ap_profile a) (Some st) (ap_chat a) (ap_store a).
Definition set_chat (st : ChatTab.ChatState) (a : AppState) : AppState :=
  mkApp (ap_home a) (ap_game a) (ap_progress a) (ap_profile a) (ap_settings a) (Some st) (ap_store a).

(** ** Steps *)

Section Steps.

Variable levelAt : Z -> option GameLevel.
Variable waits : bool.

(** One step of a running app.  A tab is focused from the tab bar (or by
    [router.push]); its first focus mounts it, and the mount effect of the
    progress and profile tabs starts their load. *)
Inductive app_step : AppState -> AppState -> Prop :=
  | app_home a h' s' :
      HomeTab.home_step (ap_home a, ap_store a) (h', s') -> app_step a (set_home h' s' a)
  | app_focus_game a :
      ap_game a = None -> app_step a (set_game (GameScreen.mounted (ap_store a)).1 (ap_store a) a)
  | app_game a sc sc' s' :
      ap_game a = Some sc -> GameScreen.ui_step levelAt waits (sc, ap_store a) (sc', s') ->
      app_step a (set_game sc' s' a)
  | app_focus_progress a :
      ap_progress a = None -> app_step a (set_progress (ProgressTab.progress_initial, true) (ap_store a) a)
  | app_progress_load f a st st' s' :
      ap_progress a = Some (st, true) -> ProgressTab.loadPlayerData f (ap_store a) = Done st' s' ->
      app_step a (set_progress (st', false) s' a)
  | app_progress_rejected f a st e s' :
      ap_progress a = Some (st, true) -> ProgressTab.loadPlayerData f (ap_store a) = Thrown e s' ->
      app_step a (set_progress (st, false) s' a)
  | app_focus_profile a :
      ap_profile a = None -> app_step a (set_profile (ProfileTab.profile_initial, true) (ap_store a) a)
  | app_profile_load f a st st' s' :
      ap_profile a = Some (st, true) -> ProfileTab.loadPlayerData f st (ap_store a) = Done st' s' ->
      app_step a (set_profile (st', false) s' a)
  | app_profile_press f e a st st' s' :
      ap_profile a = Some (st, false) -> ProfileTab.pr_isLoading st = false ->
      ProfileTab.profile_press f e st (ap_store a) = Done st' s' ->
      app_step a (set_profile (st', false) s' a)
  | app_settings a e :
      app_step a (set_settings (SettingsTab.settings_step e (default SettingsTab.settings_initial (ap_settings a))) a)
  | app_chat a e :
      app_step a (set_chat (ChatTab.chat_step e (default ChatTab.chat_initial (ap_chat a))) a)
  | app_tick a d :
      app_step a (mkApp (ap_home a) (ap_game a) (ap_progress a) (ap_profile a) (ap_settings a) (ap_chat a)
                        (tick d (ap_store a))).

(** The life of the app: its steps, and the process stopping and
    launching again on what the store kept. *)
Inductive app_life : AppState -> AppState -> Prop :=
  | life_step a a' : app_step a a' -> app_life a a'
  | life_restart a : app_life a (app_launch (restart (ap_store a))).

End Steps.

(** ** A fresh install *)

(** Nothing has loaded: the store is still a first launch, the home tab
    holds no record, and every mounted tab is as its mount left it. *)
Definition stuck (a : AppState) : Prop :=
  StorageProps.first_launch (ap_store a) /\ HomeTab.hm_playerData (ap_home a) = None /\
  (ap_game a = None \/ ap_game a = Some GameScreen.mounted_screen) /\
  (ap_progress a = None \/ ap_progress a = Some (ProgressTab.progress_initial, true)) /\
  (ap_profile a = None \/ ap_profile a = Some (ProfileTab.profile_initial, true)).

(** Every mounted tab has finished loading: the home tab's load has
    settled, the game tab is past its loading view, the progress tab's
    load has settled and the profile tab shows its view. *)
Definition loaded (a : AppState) : Prop :=
  HomeTab.hm_pending (ap_home a) = false /\
  (forall sc, ap_game a = Some sc -> GameScreen.g_isLoading (GameScreen.sc_game sc) = false) /\
  (forall p, ap_progress a = Some p -> p.2 = false) /\
  (forall p, ap_profile a = Some p -> p.2 = false /\ ProfileTab.pr_isLoading p.1 = false).

(** A profile tab whose load has settled is not loading. *)
Definition profile_settled (a : AppState) : Prop :=
  forall st, ap_profile a = Some (st, false) -> ProfileTab.pr_isLoading st = false.

(** The loads still pending in the mounted tabs. *)
Definition pending_count (a : AppState) : nat :=
  Nat.b2n (HomeTab.hm_pending (ap_home a)) +
  match ap_game a with Some sc => Nat.b2n (GameScreen.g_isLoading (GameScreen.sc_game sc)) | None => 0 end +
  match ap_progress a with Some p => Nat.b2n p.2 | None => 0 end +
  match ap_profile a with Some p => Nat.b2n p.2 | None => 0 end.

(** ** The invariant *)

(** The record the profile tab holds, which [handleCharacterChange]
    writes back, has its counters in order. *)
Definition pr_ok (st : ProfileTab.ProfileState) : Prop :=
  match ProfileTab.pr_playerData st with Some d => partial_ok d | None => True end.

Definition profile_ok (p : option (ProfileTab.ProfileState * bool)) : Prop :=
  match p with Some (st, _) => pr_ok st | None => True end.

(** The app's invariant: the store's, and the profile tab's record. *)
Definition app_ok (a : AppState) : Prop := store_inv (ap_store a) /\ profile_ok (ap_profile a).

(** ** Properties *)

Lemma first_launch_tick (d : Z) (s : Store) :
  StorageProps.first_launch s -> StorageProps.first_launch (tick d s).
Proof. done. Qed.

Lemma first_launch_restart (s : Store) :
  StorageProps.first_launch s -> StorageProps.first_launch (restart s).
Proof. intros (_ & ? & _ & ?). by repeat split. Qed.

(** Every load of a tab starts with [getPlayerData], which runs out of
    fuel on a first launch: no load settles. *)
Lemma bind_get_out_of_fuel {A} (f : nat) (k : PlayerData -> M A) (s : Store) :
  StorageProps.first_launch s -> bind (getPlayerData f) k s = OutOfFuel.
Proof. intros Hs. unfold bind. by rewrite (proj1 (StorageProps.first_launch_out_of_fuel f s Hs)). Qed.

Lemma first_launch_loads (f : nat) (s : Store) :
  StorageProps.first_launch s ->
  (forall st, HomeTab.loadPlayerData f st s = OutOfFuel) /\
  ProgressTab.loadPlayerData f s = OutOfFuel /\
  (forall st, ProfileTab.loadPlayerData f st s = OutOfFuel) /\
  (forall g, GameScreen.loadPlayerData f g s = OutOfFuel).
Proof.
  intros Hs. split_and!; intros; try by apply bind_get_out_of_fuel.
  - unfold ProfileTab.loadPlayerData, bind at 1, catch. by rewrite bind_get_out_of_fuel.
  - unfold GameScreen.loadPlayerData, bind at 1, catch. by rewrite bind_get_out_of_fuel.
Qed.

Lemma hoare_home_load (f : nat) (st : HomeTab.HomeState) :
  hoare (HomeTab.loadPlayerData f st) (fun _ => True).
Proof. pose proof (hoare_getPlayerData f). unfold HomeTab.loadPlayerData. hsteps. Qed.

Lemma hoare_progress_load (f : nat) : hoare (ProgressTab.loadPlayerData f) (fun _ => True).
Proof. pose proof (hoare_getPlayerData f). unfold ProgressTab.loadPlayerData. hsteps. Qed.

Lemma with_character_ok (pd : option PartialData) (c : Character) :
  match pd with Some d => partial_ok d | None => True end ->
  partial_ok (ProfileTab.with_character pd c).
Proof. destruct pd as [d|]; [|done]. unfold ProfileTab.with_character, partial_ok. by destruct d. Qed.

Lemma hoare_profile_load (f : nat) (st : ProfileTab.ProfileState) :
  pr_ok st -> hoare (ProfileTab.loadPlayerData f st) pr_ok.
Proof.
  intros Hst. pose proof (hoare_getPlayerData f). unfold ProfileTab.loadPlayerData.
  apply (hoare_bind _ _ pr_ok); [|intros st2 H2; by apply hoare_ret].
  apply hoare_catch; [|intros e; by apply hoare_ret]. hsteps; unfold pr_ok; cbn; by apply partial_of_ok.
Qed.

Lemma hoare_character (f : nat) (c : Character) (st : ProfileTab.ProfileState) :
  pr_ok st -> hoare (ProfileTab.handleCharacterChange f c st) pr_ok.
Proof.
  intros Hst. pose proof (with_character_ok _ c Hst) as Hw.
  pose proof (hoare_savePlayerData f _ Hw). unfold ProfileTab.handleCharacterChange.
  apply hoare_catch; [|intros e; by apply hoare_ret]. hsteps; exact Hw.
Qed.

Lemma hoare_profile_reset (f : nat) (st : ProfileTab.ProfileState) :
  pr_ok st -> hoare (ProfileTab.handleResetProgress f st) pr_ok.
Proof.
  intros Hst. pose proof (hoare_getPlayerData f). pose proof (hoare_resetProgress f).
  unfold ProfileTab.handleResetProgress.
  apply hoare_catch; [|intros e; by apply hoare_ret]. hsteps; unfold pr_ok; cbn; by apply partial_of_ok.
Qed.

Lemma hoare_profile_press (f : nat) (e : ProfileTab.ProfileEvent) (st : ProfileTab.ProfileState) :
  pr_ok st -> hoare (ProfileTab.profile_press f e st) pr_ok.
Proof.
  intros Hst. destruct e; cbn [ProfileTab.profile_press];
    [by apply hoare_character|by apply hoare_ret..|by apply hoare_profile_reset].
Qed.

Lemma hoare_Thrown {A} (m : M A) (Q : A -> Prop) (s s' : Store) (e : Exn) :
  hoare m Q -> store_inv s -> m s = Thrown e s' -> store_inv s'.
Proof. intros Hm Hs Heq. specialize (Hm s Hs). by rewrite Heq in Hm. Qed.

(** The home tab's steps keep the store's invariant. *)
Lemma home_step_store_inv (st st' : HomeTab.HomeState) (s s' : Store) :
  store_inv s -> HomeTab.home_step (st, s) (st', s') -> store_inv s'.
Proof.
  intros Hs Hstep. inversion Hstep; subst; try done.
  - eapply hoare_Done; [apply hoare_home_load|done|eassumption].
  - eapply hoare_Thrown; [apply hoare_home_load|done|eassumption].
Qed.

Lemma app_launch_ok (s : Store) : store_inv s -> app_ok (app_launch s).
Proof. by split. Qed.

Lemma app_step_ok (levelAt : Z -> option GameLevel) (w : bool) (a a' : AppState) :
  app_ok a -> app_step levelAt w a a' -> app_ok a'.
Proof.
  intros [Hs Hp] Hstep. inversion Hstep; subst; unfold app_ok; cbn.
  all: try match goal with E : ap_profile _ = Some _ |- _ => rewrite E in Hp; cbn in Hp end.
  all: first [split; [|done] | apply and_comm].
  all: first [ done | by apply tick_inv | by eapply home_step_store_inv
             | by eapply GameScreen.ui_step_store_inv
             | eapply hoare_Done; [|done|eassumption];
               first [by apply hoare_profile_load | by apply hoare_profile_press]
             | eapply proj2, hoare_Done; [|done|eassumption]; apply hoare_progress_load
             | eapply hoare_Thrown; [|done|eassumption]; apply hoare_progress_load ].
Qed.

Lemma app_life_ok (levelAt : Z -> option GameLevel) (w : bool) (a a' : AppState) :
  app_ok a -> app_life levelAt w a a' -> app_ok a'.
Proof.
  intros Hok Hl. destruct Hl as [x y Hstep|x].
  - by apply (app_step_ok levelAt w x y).
  - apply app_launch_ok, restart_inv, Hok.
Qed.

Lemma app_run_ok (levelAt : Z -> option GameLevel) (w : bool) (a a' : AppState) :
  rtc (app_life levelAt w) a a' -> app_ok a -> app_ok a'.
Proof. induction 1 as [|x y z Hxy _ IH]; [done|]. intros Hx. apply IH. by eapply app_life_ok. Qed.

(** ** The tabs' calls of the store *)

#[local] Hint Resolve GameScreen.correct_update_ok : api_run.

Lemma api_run_home_load (f : nat) (st : HomeTab.HomeState) : api_run (HomeTab.loadPlayerData f st).
Proof. unfold HomeTab.loadPlayerData. asteps. Qed.

Lemma api_run_progress_load (f : nat) : api_run (ProgressTab.loadPlayerData f).
Proof. unfold ProgressTab.loadPlayerData. asteps. Qed.

Lemma api_run_profile_load (f : nat) (st : ProfileTab.ProfileState) : api_run (ProfileTab.loadPlayerData f st).
Proof. unfold ProfileTab.loadPlayerData. asteps. Qed.

Lemma api_run_profile_press (f : nat) (e : ProfileTab.ProfileEvent) (st : ProfileTab.ProfileState) :
  pr_ok st -> api_run (ProfileTab.profile_press f e st).
Proof.
  intros Hst. destruct e as [c| | | |]; cbn [ProfileTab.profile_press];
    unfold ProfileTab.handleCharacterChange, ProfileTab.handleResetProgress; asteps.
  apply api_run_savePlayerData, with_character_ok, Hst.
Qed.

Lemma api_run_game_load (f : nat) (g : GameScreen.GameState) : api_run (GameScreen.loadPlayerData f g).
Proof. unfold GameScreen.loadPlayerData. asteps. Qed.

Lemma api_run_correct (f : nat) (l : GameLevel) (c g : GameScreen.GameState) :
  api_run (GameScreen.handleCorrectAnswer f l c g).
Proof. unfold GameScreen.handleCorrectAnswer, now_ms. asteps. Qed.

Lemma ui_step_api (levelAt : Z -> option GameLevel) (w : bool) (sc sc' : GameScreen.Screen) (s s' : Store) :
  GameScreen.ui_step levelAt w (sc, s) (sc', s') -> rtc api_step s s'.
Proof.
  intros Hstep. inversion Hstep; subst; try apply rtc_refl.
  - eapply api_run_Done; [apply api_run_game_load|eassumption].
  - eapply api_run_Done; [apply api_run_correct|eassumption].
  - apply rtc_once, step_tick.
Qed.

Lemma home_step_api (st st' : HomeTab.HomeState) (s s' : Store) :
  HomeTab.home_step (st, s) (st', s') -> rtc api_step s s'.
Proof.
  intros Hstep. inversion Hstep; subst; try apply rtc_refl.
  - eapply api_run_Done; [apply api_run_home_load|eassumption].
  - eapply api_run_Thrown; [apply api_run_home_load|eassumption].
Qed.

(** Each step of the app changes the store through calls of the API
    with updates that keep the counters together. *)
Lemma app_life_api (levelAt : Z -> option GameLevel) (w : bool) (a a' : AppState) :
  app_ok a -> app_life levelAt w a a' -> rtc api_step (ap_store a) (ap_store a').
Proof.
  intros [_ Hp] Hl. destruct Hl as [a a' Hstep|a]; [|apply rtc_once, step_restart].
  inversion Hstep; subst; cbn; try apply rtc_refl.
  - by eapply home_step_api.
  - by eapply ui_step_api.
  - eapply api_run_Done; [apply api_run_progress_load|eassumption].
  - eapply api_run_Thrown; [apply api_run_progress_load|eassumption].
  - eapply api_run_Done; [apply api_run_profile_load|eassumption].
  - eapply api_run_Done; [|eassumption]. apply api_run_profile_press.
    match goal with E : ap_profile _ = Some _ |- _ => rewrite E in Hp end. exact Hp.
  - apply rtc_once, step_tick.
Qed.

Lemma app_run_api (levelAt : Z -> option GameLevel) (w : bool) (a a' : AppState) :
  rtc (app_life levelAt w) a a' -> app_ok a -> rtc api_step (ap_store a) (ap_store a').
Proof.
  induction 1 as [|x y z Hxy _ IH]; [intros; apply rtc_refl|]. intros Hx.
  etrans; [by eapply app_life_api|]. apply IH. by eapply app_life_ok.
Qed.

(** The stores the app reaches are reachable through the API. *)
Lemma app_run_reachable (levelAt : Z -> option GameLevel) (w : bool) (slot : option Blob) (now : Z)
    (a : AppState) :
  slot_inv slot -> rtc (app_life levelAt w) (app_launch (boot slot now)) a -> reachable (ap_store a).
Proof.
  intros Hslot Hrun. exists slot, now. split; [done|].
  exact (app_run_api _ _ _ _ Hrun (app_launch_ok _ (boot_inv _ _ Hslot))).
Qed.

(** Once its load has settled, the home tab keeps its record. *)
Lemma home_frozen (st st' : HomeTab.HomeState) (s s' : Store) :
  HomeTab.hm_pending st = false -> HomeTab.home_step (st, s) (st', s') ->
  HomeTab.hm_playerData st' = HomeTab.hm_playerData st /\ HomeTab.hm_pending st' = false.
Proof.
  intros Hp Hstep. inversion Hstep; subst; try congruence; try done.
  unfold HomeTab.timing_done. by repeat case_match.
Qed.

Lemma app_home_frozen (levelAt : Z -> option GameLevel) (w : bool) (a a' : AppState) :
  rtc (app_step levelAt w) a a' -> HomeTab.hm_pending (ap_home a) = false ->
  HomeTab.hm_playerData (ap_home a') = HomeTab.hm_playerData (ap_home a).
Proof.
  induction 1 as [|x y z Hxy _ IH]; [done|]. intros Hp.
  assert (E : HomeTab.hm_playerData (ap_home y) = HomeTab.hm_playerData (ap_home x) /\
              HomeTab.hm_pending (ap_home y) = false).
  { inversion Hxy; subst; try done. by eapply home_frozen. }
  destruct E as [E1 E2]. rewrite IH by done. exact E1.
Qed.

(** C13: whatever the tabs do, in any order, with the process
    restarting at any point, the store keeps its invariant and every
    [getPlayerData] returns a record with [1 <= currentLevel <= 1000],
    [0 <= levelsCompleted <= 1000], [currentLevel <= levelsCompleted + 1]
    and [totalXP >= 0]: no tab calls [importData], the one operation that
    breaks it, and the record the profile tab writes back keeps its
    counters together. *)
Theorem app_store_inv (levelAt : Z -> option GameLevel) (w : bool) (slot : option Blob) (now : Z)
    (a : AppState) :
  slot_inv slot -> rtc (app_life levelAt w) (app_launch (boot slot now)) a ->
  store_inv (ap_store a) /\ forall f p s', getPlayerData f (ap_store a) = Done p s' -> rec_ok p.
Proof.
  intros Hslot Hrun. destruct (app_run_ok _ _ _ _ Hrun (app_launch_ok _ (boot_inv _ _ Hslot))) as [Hs _].
  split; [done|]. intros f p s' E. exact (proj1 (hoare_Done _ _ _ _ _ (hoare_getPlayerData f) Hs E)).
Qed.

(** C14: the five-second cache is transparent to the tabs: whatever they
    do, in any order, with the process restarting at any point, the
    record any [getPlayerData] returns, from a fresh cache or read again,
    has the fields and the achievements that a read of the last text
    written gives ([getItem], then [JSON.parse] over the defaults and the
    level clamp of lines 45-50).  AsyncStorage is taken to work: its
    failures are the subject of [getPlayerData_read_failure]. *)
Theorem app_cache_transparent (levelAt : Z -> option GameLevel) (w : bool) (slot : option Blob)
    (now : Z) (a : AppState) (f : nat) (p : PlayerData) (s' : Store) :
  slot_inv slot -> rtc (app_life levelAt w) (app_launch (boot slot now)) a ->
  getPlayerData f (ap_store a) = Done p s' -> direct_read (ap_store a) = Some (view_of (st_heap s') p).
Proof.
  intros Hslot Hrun E. exact (getPlayerData_transparent f _ _ _ (app_run_reachable _ _ _ _ _ Hslot Hrun) E).
Qed.

(** C15: in every state the tabs reach, with restarts, the record held
    in [playerDataCache] is what a read of the store gives: every write a
    tab makes carries the record it caches, and every fetch caches what
    it read. *)
Theorem app_cached_record (levelAt : Z -> option GameLevel) (w : bool) (slot : option Blob)
    (now : Z) (a : AppState) (p : PlayerData) :
  slot_inv slot -> rtc (app_life levelAt w) (app_launch (boot slot now)) a ->
  st_cache (ap_store a) = Some p -> direct_read (ap_store a) = Some (view_of (st_heap (ap_store a)) p).
Proof.
  intros Hslot Hrun Hc. exact (cached_record_is_stored _ _ (app_run_reachable _ _ _ _ _ Hslot Hrun) Hc).
Qed.

Lemma app_step_stuck (levelAt : Z -> option GameLevel) (w : bool) (a a' : AppState) :
  stuck a -> app_step levelAt w a a' -> stuck a'.
Proof.
  intros (Hfl & Hh & Hg & Hp & Hq) Hstep.
  inversion Hstep; subst; unfold stuck; cbn; try (split_and!; by auto).
  - match goal with H : HomeTab.home_step _ _ |- _ => inversion H; subst end.
    + match goal with E : HomeTab.loadPlayerData ?f _ _ = Done _ _ |- _ =>
        by rewrite (proj1 (first_launch_loads f _ Hfl)) in E end.
    + match goal with E : HomeTab.loadPlayerData ?f _ _ = Thrown _ _ |- _ =>
        by rewrite (proj1 (first_launch_loads f _ Hfl)) in E end.
    + destruct (HomeTab.timing_done_fields (ap_home a)) as [-> _]. split_and!; by auto.
    + split_and!; by auto.
    + split_and!; by auto.
  - destruct Hg as [Hg|Hg]; rewrite Hg in *; simplify_eq.
    match goal with H : GameScreen.ui_step _ _ _ _ |- _ => inversion H; subst end;
      cbn in *; try discriminate; try done.
    + match goal with E : GameScreen.loadPlayerData ?f _ _ = Done _ _ |- _ =>
        by rewrite (proj2 (proj2 (proj2 (first_launch_loads f _ Hfl)))) in E end.
    + split_and!; by auto.
  - match goal with E : ProgressTab.loadPlayerData ?f _ = Done _ _ |- _ =>
      by rewrite (proj1 (proj2 (first_launch_loads f _ Hfl))) in E end.
  - match goal with E : ProgressTab.loadPlayerData ?f _ = Thrown _ _ |- _ =>
      by rewrite (proj1 (proj2 (first_launch_loads f _ Hfl))) in E end.
  - match goal with E : ProfileTab.loadPlayerData ?f _ _ = Done _ _ |- _ =>
      by rewrite (proj1 (proj2 (proj2 (first_launch_loads f _ Hfl)))) in E end.
  - destruct Hq as [Hq|Hq]; congruence.
Qed.

Lemma app_life_stuck (levelAt : Z -> option GameLevel) (w : bool) (a a' : AppState) :
  stuck a -> app_life levelAt w a a' -> stuck a'.
Proof.
  intros Hs Hl. destruct Hl as [x y Hstep|x]; [by eapply app_step_stuck|].
  destruct Hs as (Hfl & _). split_and!; [by apply first_launch_restart|done|by left..].
Qed.

(** C5: on a fresh install (nothing stored), whatever the player does on
    any tab, at any pace and across restarts, nothing ever loads: the
    store stays a first launch, the home tab holds no record, the game
    tab shows its loading view, the progress tab has no record and the
    profile tab stays on "Loading profile...": every load starts with
    [getPlayerData], which never returns there. *)
Theorem fresh_install_stuck (levelAt : Z -> option GameLevel) (w : bool) (now : Z) (a : AppState) :
  rtc (app_life levelAt w) (app_launch (boot None now)) a ->
  StorageProps.first_launch (ap_store a) /\ HomeTab.hm_playerData (ap_home a) = None /\
  (forall sc, ap_game a = Some sc -> GameScreen.screen_view levelAt (GameScreen.sc_game sc) = GameScreen.VLoading) /\
  (forall p, ap_progress a = Some p -> ProgressTab.pg_playerData p.1 = None) /\
  (forall p, ap_profile a = Some p -> ProfileTab.pr_isLoading p.1 = true).
Proof.
  intros Hrun. assert (Hs : stuck a).
  { assert (H0 : stuck (app_launch (boot None now))) by (split_and!; by auto).
    revert H0. clear -Hrun. induction Hrun as [|x y z Hxy _ IH]; [done|].
    intros Hx. by eapply IH, app_life_stuck. }
  destruct Hs as (Hfl & Hh & Hg & Hp & Hq). split_and!; [done|done| | |].
  - intros sc E. destruct Hg as [Hg|Hg]; rewrite Hg in E; by simplify_eq.
  - intros p E. destruct Hp as [Hp|Hp]; rewrite Hp in E; by simplify_eq.
  - intros p E. destruct Hq as [Hq|Hq]; rewrite Hq in E; by simplify_eq.
Qed.

(** ** Outside a fresh install *)

(** Every tab's load returns with fuel 2, and leaves a store that is
    still not a first launch. *)
Lemma loads_done (s : Store) :
  ~ StorageProps.first_launch s -> exists p s', ~ StorageProps.first_launch s' /\
    (forall st, HomeTab.loadPlayerData 2 st s = Done (HomeTab.setPlayerData p st) s') /\
    (exists st', ProgressTab.loadPlayerData 2 s = Done st' s') /\
    (forall st, exists st', ProfileTab.loadPlayerData 2 st s = Done st' s' /\ ProfileTab.pr_isLoading st' = false) /\
    (forall g, exists g', GameScreen.loadPlayerData 2 g s = Done g' s' /\ GameScreen.g_isLoading g' = false).
Proof.
  intros Hnf. destruct (StorageProps.getPlayerData_live s Hnf) as (p & s' & E & Hs').
  exists p, s'. split_and!; [done|..].
  - intros st. unfold HomeTab.loadPlayerData, bind. by rewrite E.
  - eexists. unfold ProgressTab.loadPlayerData, bind. by rewrite E.
  - intros st. eexists. unfold ProfileTab.loadPlayerData, bind, catch. rewrite E. by split.
  - intros g. eexists. unfold GameScreen.loadPlayerData, bind, catch. rewrite E. by split.
Qed.

Lemma profile_load_isLoading (f : nat) (st st' : ProfileTab.ProfileState) (s s' : Store) :
  ProfileTab.loadPlayerData f st s = Done st' s' -> ProfileTab.pr_isLoading st' = false.
Proof. unfold ProfileTab.loadPlayerData, bind, catch, ret. repeat case_match; intros; by simplify_eq. Qed.

Lemma profile_press_isLoading (f : nat) (e : ProfileTab.ProfileEvent) (st st' : ProfileTab.ProfileState)
    (s s' : Store) :
  ProfileTab.profile_press f e st s = Done st' s' -> ProfileTab.pr_isLoading st' = ProfileTab.pr_isLoading st.
Proof.
  destruct e; cbn [ProfileTab.profile_press];
    unfold ProfileTab.handleCharacterChange, ProfileTab.handleResetProgress, catch, bind, ret;
    repeat case_match; intros; by simplify_eq.
Qed.

Lemma app_life_settled (levelAt : Z -> option GameLevel) (w : bool) (a a' : AppState) :
  profile_settled a -> app_life levelAt w a a' -> profile_settled a'.
Proof.
  unfold profile_settled. intros Hs Hl. destruct Hl as [x y Hstep|x]; [|done].
  inversion Hstep; subst; cbn; try done; intros st0 E; simplify_eq.
  - by eapply profile_load_isLoading.
  - match goal with E : ProfileTab.profile_press _ _ _ _ = _ |- _ =>
      rewrite (profile_press_isLoading _ _ _ _ _ _ E) end. done.
Qed.

Lemma app_run_settled (levelAt : Z -> option GameLevel) (w : bool) (a a' : AppState) :
  rtc (app_life levelAt w) a a' -> profile_settled a -> profile_settled a'.
Proof. induction 1 as [|x y z Hxy _ IH]; [done|]. intros Hx. by eapply IH, app_life_settled. Qed.

(** With nothing pending, every mounted tab has loaded. *)
Lemma pending_count_0 (a : AppState) : profile_settled a -> pending_count a = 0%nat -> loaded a.
Proof.
  unfold pending_count, loaded, profile_settled. intros Hset Hc.
  destruct (HomeTab.hm_pending (ap_home a)); [cbn in Hc; lia|].
  split_and!; [done| | |].
  - intros sc E. rewrite E in Hc. destruct (GameScreen.g_isLoading _); [cbn in Hc; lia|done].
  - intros [st b] E. rewrite E in Hc. destruct b; [cbn in Hc; lia|done].
  - intros [st b] E. rewrite E in Hc. destruct b; [cbn in Hc; lia|]. split; [done|by apply Hset].
Qed.

(** One step settles one pending load. *)
Lemma load_one (levelAt : Z -> option GameLevel) (w : bool) (a : AppState) :
  ~ StorageProps.first_launch (ap_store a) -> (0 < pending_count a)%nat ->
  exists a', app_step levelAt w a a' /\ ~ StorageProps.first_launch (ap_store a') /\
    (pending_count a' < pending_count a)%nat.
Proof.
  intros Hnf Hpos. destruct (loads_done _ Hnf) as (p & s' & Hs' & Hh & [pg Hpg] & Hpf & Hg).
  unfold pending_count in *. destruct (HomeTab.hm_pending (ap_home a)) eqn:Eh.
  { eexists. split; [apply app_home; eapply (HomeTab.home_load 2); [done|apply Hh]|].
    split; [done|]. cbn. lia. }
  destruct (ap_game a) as [sc|] eqn:Eg; [destruct (GameScreen.g_isLoading (GameScreen.sc_game sc)) eqn:El|].
  { destruct (Hg (GameScreen.sc_game sc)) as (g' & Eg' & Hl').
    eexists. split; [eapply app_game; [done|eapply (GameScreen.ui_load _ _ 2); [done|exact Eg']]|].
    split; [done|]. cbn. rewrite ?Eh, ?Hl'. cbn. lia. }
  all: destruct (ap_progress a) as [[st b]|] eqn:Ep; [destruct b|].
  all: try (eexists; split; [eapply app_progress_load; [done|exact Hpg]|];
            split; [done|]; cbn; rewrite ?Eh, ?Eg, ?El; cbn; lia).
  all: destruct (ap_profile a) as [[st' b']|] eqn:Eq; [destruct b'|]; cbn in Hpos; try lia.
  all: destruct (Hpf st') as (st'' & Ef & _);
       eexists; split; [eapply app_profile_load; [done|exact Ef]|];
       split; [done|]; cbn; rewrite ?Eh, ?Eg, ?El, ?Ep; cbn; lia.
Qed.

#[local] Abbreviation played_store :=
  (boot (Some (BRecord (mkStoredRecord (Some 3) (Some 250) (Some 2) None None None None))) 0).

Ltac comp := cbv; reflexivity.

(** C18: outside a fresh install every tab finishes loading: from any
    state the app reaches from a launch, when the store is not a first
    launch, the pending loads (one step each, with fuel 2) lead to a
    state where every mounted tab has loaded and the profile tab shows
    its view.  With [fresh_install_stuck], the stored data alone decides
    whether the app ever leaves its loading views. *)
Theorem app_loads_complete (levelAt : Z -> option GameLevel) (w : bool) (s0 : Store) (a : AppState) :
  rtc (app_life levelAt w) (app_launch s0) a -> ~ StorageProps.first_launch (ap_store a) ->
  exists a', rtc (app_step levelAt w) a a' /\ loaded a'.
Proof.
  intros Hrun Hnf. assert (Hset : profile_settled a) by (eapply app_run_settled; [exact Hrun|done]).
  remember (pending_count a) as n eqn:En. revert a Hrun Hnf Hset En.
  induction n as [n IH] using lt_wf_ind. intros a Hrun Hnf Hset ->.
  destruct (pending_count a) eqn:Ec; [exists a; split; [done|by apply pending_count_0]|].
  destruct (load_one levelAt w a Hnf) as (a' & Hstep & Hnf' & Hlt); [lia|].
  destruct (IH (pending_count a') ltac:(lia) a') as (a'' & Hrun' & Hl);
    [eapply rtc_r; [exact Hrun|by apply life_step]|done|
     eapply app_life_settled; [exact Hset|by apply life_step]|done|].
  exists a''. split; [eapply rtc_l; [exact Hstep|exact Hrun']|done].
Qed.

(** C21: the home tab shows the record it read at launch for as long as
    the app runs: after the player confirms a reset on the profile tab,
    the store holds no XP while the home tab still shows 250, and no
    later step of any tab changes what it shows. *)
Theorem home_stale_after_reset (levelAt : Z -> option GameLevel) (w : bool) :
  exists a p p' s', rtc (app_step levelAt w) (app_launch played_store) a /\
    HomeTab.hm_playerData (ap_home a) = Some p /\ totalXP p = 250 /\
    getPlayerData 2 (ap_store a) = Done p' s' /\ totalXP p' = 0 /\
    forall a', rtc (app_step levelAt w) a a' -> HomeTab.hm_playerData (ap_home a') = Some p.
Proof.
  eassert (Hrun : rtc (app_step levelAt w) (app_launch played_store) _).
  { eapply rtc_l. { apply app_home. eapply (HomeTab.home_load 2); [reflexivity|comp]. }
    eapply rtc_l. { apply app_focus_profile. reflexivity. }
    eapply rtc_l. { eapply (app_profile_load _ _ 2); [reflexivity|comp]. }
    eapply rtc_l. { eapply (app_profile_press _ _ 2 ProfileTab.ConfirmReset); [reflexivity|reflexivity|comp]. }
    apply rtc_refl. }
  do 4 eexists. split; [exact Hrun|]. split_and!; [reflexivity|reflexivity|comp|reflexivity|].
  intros a' Hrun'. rewrite (app_home_frozen _ _ _ _ Hrun') by reflexivity. reflexivity.
Qed.

(** ** Witnesses *)

Lemma app_store_inv_witness :
  exists a, (slot_inv (Some (BRecord (mkStoredRecord (Some 3) (Some 250) (Some 2) None None None None))) /\
    rtc (app_life GameScreen.intended_level true) (app_launch played_store) a) /\
    (store_inv (ap_store a) /\ forall f p s', getPlayerData f (ap_store a) = Done p s' -> rec_ok p).
Proof.
  assert (Hslot : slot_inv (Some (BRecord (mkStoredRecord (Some 3) (Some 250) (Some 2) None None None None)))).
  { cbn. do 3 eexists. split_and!; first [reflexivity|lia]. }
  eassert (Hrun : rtc (app_life GameScreen.intended_level true) (app_launch played_store) _).
  { eapply rtc_l. { apply life_step, app_home. eapply (HomeTab.home_load 2); [reflexivity|comp]. }
    eapply rtc_l. { apply life_restart. }
    apply rtc_refl. }
  eexists. split; [split; [exact Hslot|exact Hrun]|]. exact (app_store_inv _ _ _ _ _ Hslot Hrun).
Defined.

Lemma fresh_install_stuck_witness :
  exists a, rtc (app_life GameScreen.intended_level true) (app_launch (boot None 0)) a /\
  (StorageProps.first_launch (ap_store a) /\ HomeTab.hm_playerData (ap_home a) = None /\
   (forall sc, ap_game a = Some sc ->
      GameScreen.screen_view GameScreen.intended_level (GameScreen.sc_game sc) = GameScreen.VLoading) /\
   (forall p, ap_progress a = Some p -> ProgressTab.pg_playerData p.1 = None) /\
   (forall p, ap_profile a = Some p -> ProfileTab.pr_isLoading p.1 = true)).
Proof.
  eassert (Hrun : rtc (app_life GameScreen.intended_level true) (app_launch (boot None 0)) _).
  { eapply rtc_l. { apply life_step, app_focus_game. reflexivity. }
    eapply rtc_l. { apply life_step, app_focus_profile. reflexivity. }
    eapply rtc_l. { apply life_step, (app_tick _ _ _ 6000). }
    eapply rtc_l. { apply life_restart. }
    eapply rtc_l. { apply life_step, app_focus_progress. reflexivity. }
    apply rtc_refl. }
  eexists. split; [exact Hrun|]. exact (fresh_install_stuck _ _ _ _ Hrun).
Defined.

Lemma app_loads_complete_witness :
  exists a a', (rtc (app_life GameScreen.intended_level true) (app_launch played_store) a /\
    ~ StorageProps.first_launch (ap_store a)) /\
    (rtc (app_step GameScreen.intended_level true) a a' /\ loaded a').
Proof.
  eassert (Hrun : rtc (app_life GameScreen.intended_level true) (app_launch played_store) _).
  { eapply rtc_l. { apply life_step, app_focus_game. reflexivity. }
    eapply rtc_l. { apply life_step, app_focus_profile. reflexivity. }
    apply rtc_refl. }
  assert (Hnf : ~ StorageProps.first_launch (ap_store (set_profile (ProfileTab.profile_initial, true) played_store
                  (set_game (GameScreen.mounted played_store).1 played_store (app_launch played_store))))).
  { intros (_ & H & _). discriminate. }
  destruct (app_loads_complete _ _ _ _ Hrun Hnf) as (a' & Hrun' & Hl).
  eexists _, a'. split; [split; [exact Hrun|exact Hnf]|split; [exact Hrun'|exact Hl]].
Defined.

#[local] Abbreviation saved_text :=
  (BRecord (mkStoredRecord (Some 4) (Some 120) (Some 3) (Some ["first_steps"%string]) None None None)).

Lemma saved_text_inv : slot_inv (Some saved_text).
Proof. cbn. do 3 eexists. split_and!; first [reflexivity|lia]. Qed.

(** The profile tab loads, the player picks the spy, and six seconds
    later the cache is stale: [getPlayerData] reads the write back. *)
Lemma app_cache_transparent_witness :
  exists a p s', (slot_inv (Some saved_text) /\
    rtc (app_life GameScreen.intended_level true) (app_launch (boot (Some saved_text) 0)) a /\
    getPlayerData 2 (ap_store a) = Done p s') /\ direct_read (ap_store a) = Some (view_of (st_heap s') p).
Proof.
  eassert (Hrun : rtc (app_life GameScreen.intended_level true) (app_launch (boot (Some saved_text) 0)) _).
  { eapply rtc_l. { apply life_step, app_focus_profile. reflexivity. }
    eapply rtc_l. { eapply life_step, (app_profile_load _ _ 2); [reflexivity|vm_compute; reflexivity]. }
    eapply rtc_l. { eapply life_step, (app_profile_press _ _ 2 (ProfileTab.PressCharacter Spy));
                    [reflexivity|reflexivity|vm_compute; reflexivity]. }
    eapply rtc_l. { apply life_step, (app_tick _ _ _ 6000). }
    apply rtc_refl. }
  eexists _, _, _. split; [split_and!; [apply saved_text_inv|exact Hrun|vm_compute; reflexivity]|].
  eapply (app_cache_transparent _ _ (Some saved_text) 0 _ 2); [apply saved_text_inv|exact Hrun|].
  vm_compute. reflexivity.
Defined.

Lemma app_cached_record_witness :
  exists a p, (slot_inv (Some saved_text) /\
    rtc (app_life GameScreen.intended_level true) (app_launch (boot (Some saved_text) 0)) a /\
    st_cache (ap_store a) = Some p) /\ direct_read (ap_store a) = Some (view_of (st_heap (ap_store a)) p).
Proof.
  eassert (Hrun : rtc (app_life GameScreen.intended_level true) (app_launch (boot (Some saved_text) 0)) _).
  { eapply rtc_l. { apply life_step, app_focus_profile. reflexivity. }
    eapply rtc_l. { eapply life_step, (app_profile_load _ _ 2); [reflexivity|vm_compute; reflexivity]. }
    eapply rtc_l. { eapply life_step, (app_profile_press _ _ 2 (ProfileTab.PressCharacter Spy));
                    [reflexivity|reflexivity|vm_compute; reflexivity]. }
    apply rtc_refl. }
  eexists _, _. split; [split_and!; [apply saved_text_inv|exact Hrun|vm_compute; reflexivity]|].
  eapply (app_cached_record _ _ (Some saved_text) 0); [apply saved_text_inv|exact Hrun|].
  vm_compute. reflexivity.
Defined.

End App.
